(** * Ledger engine of the audit application (audit_app.py)

    A shallow embedding of the four sheet operations of [audit_app.py]
    ([ensure_header], [add_site], [update_total_row], [add_transaction])
    over an explicit model of the worksheet they talk to, followed by the
    properties of the ledger that hold, and the ones that do not. *)

From Stdlib Require Import String Ascii List Bool Arith ZArith Lia.
From Stdlib Require Import DecimalString DecimalZ DecimalPos.
Import ListNotations.
Open Scope string_scope.
Open Scope list_scope.
Open Scope nat_scope.

(* ===================================================================== *)
(** * Python strings *)
(* ===================================================================== *)

(** A Python [str] is a sequence of Unicode characters.  A [string] here
    is its UTF-8 encoding, one byte per [ascii], which is also what a
    string literal of this file denotes.  [str.strip] and the [\d] of
    [strptime] look at characters, so the bytes are first cut into
    characters; comparing two texts is comparing their bytes. *)
Module PyStr.

Definition byte (c : ascii) : N := N_of_ascii c.

(** A continuation byte of UTF-8, [10xxxxxx]. *)
Definition continuation (c : ascii) : bool :=
  (128 <=? byte c)%N && (byte c <=? 191)%N.

Definition starts_continuation (s : string) : bool :=
  match s with
  | EmptyString => false
  | String c _ => continuation c
  end.

(** The characters of a text, each a byte with the continuation bytes
    that follow it. *)
Fixpoint chars (s : string) : list string :=
  match s with
  | EmptyString => []
  | String c s' =>
      if starts_continuation s' then
        match chars s' with
        | ch :: rest => String c ch :: rest
        | [] => [String c EmptyString]
        end
      else String c EmptyString :: chars s'
  end.

(** The texts of a list one after the other. *)
Definition join (l : list string) : string := fold_right append "" l.

(** The code point a character encodes, [None] for bytes that are not
    the UTF-8 encoding of one character. *)
Definition code_point (ch : string) : option N :=
  match ch with
  | String a EmptyString =>
      if (byte a <? 128)%N then Some (byte a) else None
  | String a (String b EmptyString) =>
      if (194 <=? byte a)%N && (byte a <=? 223)%N && continuation b
      then Some ((byte a - 192) * 64 + (byte b - 128))%N
      else None
  | String a (String b (String c EmptyString)) =>
      if (224 <=? byte a)%N && (byte a <=? 239)%N
         && continuation b && continuation c
      then
        let cp := ((byte a - 224) * 4096 + (byte b - 128) * 64
                   + (byte c - 128))%N in
        if (2048 <=? cp)%N && negb ((55296 <=? cp)%N && (cp <=? 57343)%N)
        then Some cp else None
      else None
  | String a (String b (String c (String d EmptyString))) =>
      if (240 <=? byte a)%N && (byte a <=? 244)%N
         && continuation b && continuation c && continuation d
      then
        let cp := ((byte a - 240) * 262144 + (byte b - 128) * 4096
                   + (byte c - 128) * 64 + (byte d - 128))%N in
        if (65536 <=? cp)%N && (cp <=? 1114111)%N then Some cp else None
      else None
  | _ => None
  end.

(** [str.isspace] on one character, by code point: U+0009 to U+000D,
    U+001C to U+0020, U+0085, U+00A0, U+1680, U+2000 to U+200A, U+2028,
    U+2029, U+202F, U+205F and U+3000. *)
Definition space_code (cp : N) : bool :=
  ((0x9 <=? cp) && (cp <=? 0xD) || (0x1C <=? cp) && (cp <=? 0x20)
   || (cp =? 0x85) || (cp =? 0xA0) || (cp =? 0x1680)
   || (0x2000 <=? cp) && (cp <=? 0x200A)
   || (cp =? 0x2028) || (cp =? 0x2029) || (cp =? 0x202F)
   || (cp =? 0x205F) || (cp =? 0x3000))%N.

Definition is_space (ch : string) : bool :=
  match code_point ch with
  | Some cp => space_code cp
  | None => false
  end.

Fixpoint dropwhile {A} (f : A -> bool) (l : list A) : list A :=
  match l with
  | [] => []
  | x :: l' => if f x then dropwhile f l' else l
  end.

(** The characters left when the white space at both ends is dropped. *)
Definition strip_chars (l : list string) : list string :=
  rev (dropwhile is_space (rev (dropwhile is_space l))).

(** [s.strip()] *)
Definition strip (s : string) : string := join (strip_chars (chars s)).

(** The first code point of each run of ten decimal digits (category
    [Nd]) of Unicode 14, the digits of [\d] and of [int]. *)
Definition digit_zeros : list N :=
  [0x30; 0x660; 0x6F0; 0x7C0; 0x966; 0x9E6; 0xA66; 0xAE6; 0xB66; 0xBE6;
   0xC66; 0xCE6; 0xD66; 0xDE6; 0xE50; 0xED0; 0xF20; 0x1040; 0x1090;
   0x17E0; 0x1810; 0x1946; 0x19D0; 0x1A80; 0x1A90; 0x1B50; 0x1BB0;
   0x1C40; 0x1C50; 0xA620; 0xA8D0; 0xA900; 0xA9D0; 0xA9F0; 0xAA50;
   0xABF0; 0xFF10; 0x104A0; 0x10D30; 0x11066; 0x110F0; 0x11136;
   0x111D0; 0x112F0; 0x11450; 0x114D0; 0x11650; 0x116C0; 0x11730;
   0x118E0; 0x11950; 0x11C50; 0x11D50; 0x11DA0; 0x16A60; 0x16AC0;
   0x16B50; 0x1D7CE; 0x1D7D8; 0x1D7E2; 0x1D7EC; 0x1D7F6; 0x1E140;
   0x1E2F0; 0x1E950; 0x1FBF0]%N.

Definition digit_code (cp : N) : option nat :=
  match find (fun z => (z <=? cp)%N && (cp <? z + 10)%N) digit_zeros with
  | Some z => Some (N.to_nat (cp - z))
  | None => None
  end.

(** The value of a character that is a decimal digit. *)
Definition digit (ch : string) : option nat :=
  match code_point ch with
  | Some cp => digit_code cp
  | None => None
  end.

Definition upper_char (c : ascii) : ascii :=
  let n := nat_of_ascii c in
  if (97 <=? n) && (n <=? 122) then ascii_of_nat (n - 32) else c.

(** [s.upper()] on the letters of ASCII.  The program only compares the
    result with [TOTAL], and no character outside ASCII has an upper
    case made of the letters of that word, so the comparison is decided
    here. *)
Fixpoint upper (s : string) : string :=
  match s with
  | EmptyString => EmptyString
  | String c s' => String (upper_char c) (upper s')
  end.

(** [x in l] for a list of strings. *)
Definition mem (x : string) (l : list string) : bool :=
  existsb (String.eqb x) l.

(** [l.index(x)]: the position of the first occurrence, [None] standing
    for the [ValueError] Python raises when there is none. *)
Fixpoint index (x : string) (l : list string) : option nat :=
  match l with
  | [] => None
  | y :: l' => if String.eqb y x then Some 0 else option_map S (index x l')
  end.

End PyStr.

(* ===================================================================== *)
(** * [datetime.strptime(date, '%Y-%m-%d')] *)
(* ===================================================================== *)

(** The program only asks whether the call raises [ValueError].  The format
    compiles to the regular expression
    [(\d\d\d\d)-(1[0-2]|0[1-9]|[1-9])-(3[0-1]|[1-2]\d|0[1-9]|[1-9]| [1-9])],
    matched from the start of the text; the whole text has to be
    consumed, and the fields have to form a date of the proleptic
    Gregorian calendar with a year of 1 to 9999.  [\d] is any decimal
    digit of Unicode, the bracketed classes are those of ASCII. *)
Module Strptime.

(** A character of the class [[0-9]]. *)
Definition ascii_digit (ch : string) : option nat :=
  match ch with
  | String a EmptyString =>
      let n := nat_of_ascii a in
      if (48 <=? n) && (n <=? 57) then Some (n - 48) else None
  | _ => None
  end.

Definition is_leap (y : nat) : bool :=
  ((y mod 4 =? 0) && negb (y mod 100 =? 0)) || (y mod 400 =? 0).

Definition days_in_month (y m : nat) : nat :=
  match m with
  | 2 => if is_leap y then 29 else 28
  | 4 | 6 | 9 | 11 => 30
  | _ => 31
  end.

(** [%m]: one of [1[0-2]], [0[1-9]], [[1-9]], then the separator. *)
Definition month_field (s : list string) : option (nat * list string) :=
  match s with
  | a :: b :: c :: rest =>
      if String.eqb b "-" then
        match ascii_digit a with
        | Some d => if 1 <=? d then Some (d, c :: rest) else None
        | None => None
        end
      else if String.eqb c "-" then
        match ascii_digit a, ascii_digit b with
        | Some 1, Some d => if d <=? 2 then Some (10 + d, rest) else None
        | Some 0, Some d => if 1 <=? d then Some (d, rest) else None
        | _, _ => None
        end
      else None
  | [a; b] =>
      if String.eqb b "-" then
        match ascii_digit a with
        | Some d => if 1 <=? d then Some (d, []) else None
        | None => None
        end
      else None
  | _ => None
  end.

(** [%d]: one of [3[0-1]], [[1-2]\d], [0[1-9]], [[1-9]], [ [1-9]], and
    nothing after it. *)
Definition day_field (s : list string) : option nat :=
  match s with
  | [a; b] =>
      match ascii_digit a with
      | Some 3 =>
          match ascii_digit b with
          | Some d => if d <=? 1 then Some (30 + d) else None
          | None => None
          end
      | Some 1 => option_map (fun d => 10 + d) (PyStr.digit b)
      | Some 2 => option_map (fun d => 20 + d) (PyStr.digit b)
      | Some 0 =>
          match ascii_digit b with
          | Some d => if 1 <=? d then Some d else None
          | None => None
          end
      | Some _ => None
      | None =>
          match ascii_digit b with
          | Some d => if String.eqb a " " && (1 <=? d) then Some d else None
          | None => None
          end
      end
  | [a] =>
      match ascii_digit a with
      | Some d => if 1 <=? d then Some d else None
      | None => None
      end
  | _ => None
  end.

(** The parsed (year, month, day), [None] standing for [ValueError]. *)
Definition strptime_ymd (date : string) : option (nat * nat * nat) :=
  match PyStr.chars date with
  | y1 :: y2 :: y3 :: y4 :: sep :: rest =>
      match PyStr.digit y1, PyStr.digit y2, PyStr.digit y3, PyStr.digit y4
      with
      | Some a, Some b, Some c, Some d =>
          if String.eqb sep "-" then
            let y := 1000 * a + 100 * b + 10 * c + d in
            match month_field rest with
            | Some (m, rest') =>
                match day_field rest' with
                | Some dd =>
                    if (1 <=? y) && (dd <=? days_in_month y m)
                    then Some (y, m, dd) else None
                | None => None
                end
            | None => None
            end
          else None
      | _, _, _, _ => None
      end
  | _ => None
  end.

End Strptime.

(* ===================================================================== *)
(** * Numbers *)
(* ===================================================================== *)

(** Amounts are Python floats.  Their arithmetic, the builtin [float] that
    reads a cell and the way the sheet displays a number written to it are
    kept abstract: a [PyFloat] is any carrier with a zero, an addition, a
    parser ([None] standing for [ValueError]) and a display function. *)
Class PyFloat : Type := {
  num : Type;
  nzero : num;
  nadd : num -> num -> num;
  float : string -> option num;
  cell_of_num : num -> string
}.

(** What the ledger needs of them: [float] raises on the empty string and
    on every spelling of [TOTAL], and the sheet displays a number as
    something [float] reads. *)
Class PyFloatLaws (N : PyFloat) : Prop := {
  float_blank : float "" = None;
  float_total : forall s, PyStr.upper s = "TOTAL" -> float s = None;
  float_cell_of_num : forall x : num, float (cell_of_num x) <> None
}.

(** Integer amounts written in decimal, the instance used for concrete
    runs: [float "100" = 100], [float "-20" = -20], [float "abc"] raises. *)
#[export] Instance ZFloat : PyFloat := {
  num := Z;
  nzero := 0%Z;
  nadd := Z.add;
  float := fun s => option_map Z.of_int (NilZero.int_of_string s);
  cell_of_num := fun z => NilZero.string_of_int (Z.to_int z)
}.

(* ===================================================================== *)
(** * The worksheet *)
(* ===================================================================== *)

Definition row := list string.
Definition grid := list row.

(** The grid service of section 6 of the specification, which in the
    source is the [gspread] worksheet [SHEET]; the library is not part of
    the repository.  The sheet is a grid of text cells, blank where
    nothing was written: [g] lists its rows from the top, and its length
    is the number of rows the sheet has.  Reads follow the calls the
    source makes: a row is returned up to its last non-blank cell, blank
    rows at the bottom are not returned, and [get_all_values] pads what
    it returns to a rectangle. *)
Module Sheet.

(** A list without the blank elements at its end. *)
Fixpoint rtrim {A} (blank : A -> bool) (l : list A) : list A :=
  match l with
  | [] => []
  | x :: l' =>
      match rtrim blank l' with
      | [] => if blank x then [] else [x]
      | t => x :: t
      end
  end.

Definition blank_cell (c : string) : bool := String.eqb c "".

Definition blank_row (r : row) : bool :=
  match r with [] => true | _ => false end.

(** A row without its trailing blank cells. *)
Definition trim_row (r : row) : row := rtrim blank_cell r.

(** Rows without the trailing empty ones. *)
Definition trim_rows (g : grid) : grid := rtrim blank_row g.

(** Modelled from the spec: what the service returns for the whole
    sheet, rows and cells up to the last one that holds data. *)
Definition values_get (g : grid) : grid := trim_rows (map trim_row g).

Definition rightpad (n : nat) (r : row) : row :=
  r ++ repeat "" (n - length r).

Definition max_cols (g : grid) : nat :=
  fold_right (fun r m => Nat.max (length r) m) 0 g.

Definition fill_gaps (g : grid) : grid := map (rightpad (max_cols g)) g.

(** Modelled from the spec: [readAllRows], [SHEET.get_all_values()] in
    the source; every row is padded to the width of the widest. *)
Definition get_all_values (g : grid) : grid := fill_gaps (values_get g).

(** Modelled from the spec: [readRow(n)], [SHEET.row_values(n)] in the
    source, [n] counted from 1; no padding here. *)
Definition row_values (n : nat) (g : grid) : row :=
  trim_row (nth (n - 1) g []).

(** Modelled from the spec: [rowCount], [SHEET.row_count] in the
    source. *)
Definition row_count (g : grid) : nat := length g.

(** Modelled from the spec: [writeRow] as [SHEET.insert_row(values,
    index)] uses it, a new row at position [index]. *)
Definition insert_row (values : row) (index : nat) (g : grid) : grid :=
  firstn (index - 1) (g ++ repeat [] (index - 1 - length g))
    ++ values :: skipn (index - 1) g.

Definition overwrite (values r : row) : row :=
  values ++ skipn (length values) r.

(** Modelled from the spec: [writeRow] as [SHEET.update('A1', block)]
    uses it, the block written from the top left corner over what was
    there. *)
Fixpoint update_A1 (block : list row) (g : grid) : grid :=
  match block, g with
  | [], _ => g
  | b :: bs, [] => b :: update_A1 bs []
  | b :: bs, r :: g' => overwrite b r :: update_A1 bs g'
  end.

Definition insert_cells (k : nat) (cells : row) (r : row) : row :=
  firstn k (rightpad k r) ++ cells ++ skipn k r.

(** Modelled from the spec: [insertColumn], [SHEET.insert_cols(values,
    col)] in the source; the columns [values], each given top to bottom,
    become columns [col], [col + 1], ... and what was there moves
    right. *)
Definition insert_cols (values : list (list string)) (col : nat)
    (g : grid) : grid :=
  map (fun i => insert_cells (col - 1)
                  (map (fun column => nth i column "") values)
                  (nth i g []))
      (seq 0 (Nat.max (length g) (max_cols values))).

(** Modelled from the spec: [deleteRow], [SHEET.delete_rows(index)] in
    the source. *)
Definition delete_rows (index : nat) (g : grid) : grid :=
  firstn (index - 1) g ++ skipn index g.

(** Modelled from the spec: [appendRow], [SHEET.append_row(values)] in
    the source; the row goes right after the last row that holds data. *)
Definition append_row (values : row) (g : grid) : grid :=
  let n := length (values_get g) in
  firstn n g ++ values :: skipn (S n) g.

End Sheet.

(* ===================================================================== *)
(** * Exceptions, the world and the monad of the program *)
(* ===================================================================== *)

Inductive exn : Type :=
| ValueError
| IndexError
| APIError (msg : string).

Inductive res (A : Type) : Type :=
| Ret (a : A)
| Raise (e : exn).
Arguments Ret {A} a.
Arguments Raise {A} e.

(** What [print] has written. *)
Inductive log_line : Type :=
| Error_initializing_header (e : exn)
| Error_updating_TOTAL_row (e : exn).

(** The sheet, the lines printed so far and, for the remote calls still to
    come, whether each one fails: the head of [faults] decides the next
    call, [Some msg] makes it raise [APIError msg], and a call past the end
    of the list succeeds. *)
Record world : Type := World {
  sheet : grid;
  faults : list (option string);
  console : list log_line
}.

Definition M (A : Type) : Type := world -> res A * world.

Definition ret {A} (a : A) : M A := fun w => (Ret a, w).

Definition bind {A B} (m : M A) (k : A -> M B) : M B :=
  fun w =>
    match m w with
    | (Ret a, w') => k a w'
    | (Raise e, w') => (Raise e, w')
    end.

(** [try: m  except Exception as e: h e] *)
Definition try_except {A} (m : M A) (h : exn -> M A) : M A :=
  fun w =>
    match m w with
    | (Ret a, w') => (Ret a, w')
    | (Raise e, w') => h e w'
    end.

Definition lift {A} (r : res A) : M A := fun w => (r, w).

Definition print (l : log_line) : M unit :=
  fun w => (Ret tt, {| sheet := sheet w; faults := faults w;
                       console := console w ++ [l] |}).

Declare Scope py_scope.
Delimit Scope py_scope with py.
Notation "x <- m ;; k" := (bind m (fun x => k))
  (at level 100, m at next level, right associativity) : py_scope.
Notation "m ;;; k" := (bind m (fun _ => k))
  (at level 100, right associativity) : py_scope.
Open Scope py_scope.

(** A remote call: it raises when the fault schedule says so, and
    otherwise answers [read] of the sheet and leaves [write] of it. *)
Definition remote {A} (read : grid -> A) (write : grid -> grid) : M A :=
  fun w =>
    match faults w with
    | Some msg :: fs =>
        (Raise (APIError msg),
         {| sheet := sheet w; faults := fs; console := console w |})
    | fs =>
        (Ret (read (sheet w)),
         {| sheet := write (sheet w); faults := tl fs;
            console := console w |})
    end.

Module SHEET.
Definition get_all_values : M grid :=
  remote Sheet.get_all_values (fun g => g).
Definition row_values (n : nat) : M row :=
  remote (Sheet.row_values n) (fun g => g).
Definition row_count : M nat :=
  remote Sheet.row_count (fun g => g).
Definition insert_row (values : row) (index : nat) : M unit :=
  remote (fun _ => tt) (Sheet.insert_row values index).
Definition update_A1 (block : list row) : M unit :=
  remote (fun _ => tt) (Sheet.update_A1 block).
Definition insert_cols (values : list (list string)) (col : nat) : M unit :=
  remote (fun _ => tt) (Sheet.insert_cols values col).
Definition delete_rows (index : nat) : M unit :=
  remote (fun _ => tt) (Sheet.delete_rows index).
Definition append_row (values : row) : M unit :=
  remote (fun _ => tt) (Sheet.append_row values).
End SHEET.

(* ===================================================================== *)
(** * The program *)
(* ===================================================================== *)

Section Program.

Context {N : PyFloat}.

(** A value the program puts in a row it writes: text or a number. *)
Inductive pyval : Type :=
| PStr (s : string)
| PNum (x : num).

(** The cell a written value becomes. *)
Definition to_cell (v : pyval) : string :=
  match v with
  | PStr s => s
  | PNum x => cell_of_num x
  end.

(** The messages the operations return, named after their text. *)
Inductive message : Type :=
| Enter_a_site_name_first
| Site_already_exists
| Site_added (new_site : string)
| Closing_Balance_column_not_found
| Failed_to_add_site (e : exn)
| Please_select_a_valid_site
| Invalid_date_format
| Amount_must_be_a_number
| Site_column_missing
| Transaction_added (date site description : string) (amount : num)
| Failed_to_add_transaction (e : exn).

(** [l[i]] *)
Definition getitem {A} (l : list A) (i : nat) : res A :=
  match nth_error l i with
  | Some a => Ret a
  | None => Raise IndexError
  end.

(** [l[i] = v] *)
Definition setitem {A} (l : list A) (i : nat) (v : A) : res (list A) :=
  if i <? length l then Ret (firstn i l ++ v :: skipn (S i) l)
  else Raise IndexError.

(** [l.index(x)] *)
Definition py_index (x : string) (l : list string) : res nat :=
  match PyStr.index x l with
  | Some i => Ret i
  | None => Raise ValueError
  end.

(** [l[2:-1]] *)
Definition slice_2_m1 {A} (l : list A) : list A :=
  skipn 2 (firstn (length l - 1) l).

(** [range(a, b)] *)
Definition range (a b : nat) : list nat := seq a (b - a).

(** [rows and rows[-1][0].upper() == "TOTAL"] *)
Definition ends_with_total (rows : grid) : res bool :=
  match rows with
  | [] => Ret false
  | _ =>
      match getitem (last rows []) 0 with
      | Ret c => Ret (String.eqb (PyStr.upper c) "TOTAL")
      | Raise e => Raise e
      end
  end.

Definition default_header : row := ["Date"; "Description"; "Closing Balance"].

(** ** [ensure_header] *)
Definition ensure_header : M unit :=
  try_except
    (rows <- SHEET.get_all_values ;;
     match rows with
     | [] => SHEET.insert_row default_header 1
     | first :: _ =>
         if forallb (fun cell => String.eqb (PyStr.strip cell) "") first
         then SHEET.update_A1 [default_header]
         else ret tt
     end)
    (fun e => print (Error_initializing_header e)).

(** ** [add_site] *)
Definition add_site (new_site : string)
    : M (message * option (list string)) :=
  let new_site := PyStr.strip new_site in
  if String.eqb new_site "" then ret (Enter_a_site_name_first, None)
  else
    header <- SHEET.row_values 1 ;;
    if PyStr.mem new_site header
    then ret (Site_already_exists,
              Some (if 4 <=? length header then slice_2_m1 header else []))
    else
      try_except
        (i <- lift (py_index "Closing Balance" header) ;;
         let closing_index := i + 1 in
         n <- SHEET.row_count ;;
         let values_to_insert := [new_site :: repeat "" (n - 1)] in
         SHEET.insert_cols values_to_insert closing_index ;;;
         header' <- SHEET.row_values 1 ;;
         ret (Site_added new_site, Some (slice_2_m1 header')))
        (fun e =>
           match e with
           | ValueError => ret (Closing_Balance_column_not_found, None)
           | _ => ret (Failed_to_add_site e, None)
           end).

(** ** [update_total_row] *)

(** [sum(float(row[col]) if row[col] else 0 for row in rows)], the
    accumulator starting at 0. *)
Fixpoint col_sum_from (acc : num) (col : nat) (rows : grid) : res num :=
  match rows with
  | [] => Ret acc
  | r :: rows' =>
      match getitem r col with
      | Raise e => Raise e
      | Ret c =>
          if String.eqb c "" then col_sum_from (nadd acc nzero) col rows'
          else match float c with
               | Some x => col_sum_from (nadd acc x) col rows'
               | None => Raise ValueError
               end
      end
  end.

Definition col_sum (col : nat) (rows : grid) : res num :=
  col_sum_from nzero col rows.

(** The loop over [site_columns], from the state [(totals,
    closing_total)] it is entered with. *)
Fixpoint totals_loop (site_columns : list nat) (rows : grid)
    (totals : list pyval) (closing_total : num)
    : res (list pyval * num) :=
  match site_columns with
  | [] => Ret (totals, closing_total)
  | col :: cols =>
      match col_sum col rows with
      | Raise e => Raise e
      | Ret s =>
          totals_loop cols rows (totals ++ [PNum s]) (nadd closing_total s)
      end
  end.

Definition update_total_row_body : M unit :=
  header <- SHEET.row_values 1 ;;
  let site_columns := range 2 (length header - 1) in
  all <- SHEET.get_all_values ;;
  let rows := skipn 1 all in
  t <- lift (ends_with_total rows) ;;
  rows <- (if t : bool
           then SHEET.delete_rows (length rows + 1) ;;;
                ret (removelast rows)
           else ret rows) ;;
  tc <- lift (totals_loop site_columns rows [PStr "TOTAL"; PStr ""] nzero) ;;
  let totals := fst tc ++ [PNum (snd tc)] in
  SHEET.append_row (map to_cell totals).

Definition update_total_row : M unit :=
  try_except update_total_row_body
    (fun e => print (Error_updating_TOTAL_row e)).

(** ** [add_transaction] *)

(** The inner loop over [range(2, closing_index)] for one row: a cell
    that is missing or does not read as a number is skipped. *)
Fixpoint scan_row (cols : list nat) (r : row) (total_closing : num) : num :=
  match cols with
  | [] => total_closing
  | i :: cols' =>
      match nth_error r i with
      | Some c =>
          match float c with
          | Some x => scan_row cols' r (nadd total_closing x)
          | None => scan_row cols' r total_closing
          end
      | None => scan_row cols' r total_closing
      end
  end.

(** The outer loop over [rows]. *)
Fixpoint scan_rows (closing_index : nat) (rows : grid)
    (total_closing : num) : num :=
  match rows with
  | [] => total_closing
  | r :: rows' =>
      scan_rows closing_index rows'
        (scan_row (range 2 closing_index) r total_closing)
  end.

Definition add_transaction (date site description amount_text : string)
    : M message :=
  let date := PyStr.strip date in
  let site := PyStr.strip site in
  let description := PyStr.strip description in
  let amount_text := PyStr.strip amount_text in
  if String.eqb site "Select Site" || String.eqb site ""
  then ret Please_select_a_valid_site
  else
    match Strptime.strptime_ymd date with
    | None => ret Invalid_date_format
    | Some _ =>
        match float amount_text with
        | None => ret Amount_must_be_a_number
        | Some amount =>
            try_except
              (header <- SHEET.row_values 1 ;;
               if negb (PyStr.mem site header)
               then ret Site_column_missing
               else
                 i <- lift (py_index site header) ;;
                 let site_col_index := i + 1 in
                 let closing_index := length header in
                 all <- SHEET.get_all_values ;;
                 let rows := skipn 1 all in
                 let total_closing :=
                   nadd (scan_rows closing_index rows nzero) amount in
                 let new_row :=
                   [PStr date; PStr description]
                     ++ repeat (PStr "") (closing_index - 2)
                     ++ [PNum total_closing] in
                 new_row <- lift (setitem new_row (site_col_index - 1)
                                    (PNum amount)) ;;
                 t <- lift (ends_with_total rows) ;;
                 (if t : bool
                  then SHEET.delete_rows (length rows + 1)
                  else ret tt) ;;;
                 SHEET.append_row (map to_cell new_row) ;;;
                 update_total_row ;;;
                 ret (Transaction_added date site description amount))
              (fun e => ret (Failed_to_add_transaction e))
        end
    end.

End Program.

(* ===================================================================== *)
(** * Reading the ledger *)
(* ===================================================================== *)

(** The next remote call is not scheduled to fail. *)
Definition next_call_succeeds (w : world) : Prop :=
  forall msg fs, faults w <> Some msg :: fs.

(** A row whose first cell spells [TOTAL]. *)
Definition is_total_row (r : row) : bool :=
  match r with
  | c :: _ => String.eqb (PyStr.upper c) "TOTAL"
  | [] => false
  end.

(** The header as the program reads it. *)
Definition header_of (g : grid) : row := Sheet.row_values 1 g.

(** The rows under the header, as the program reads them. *)
Definition data_rows (g : grid) : grid := skipn 1 (Sheet.get_all_values g).

(** The rows under the header, a summary row at the bottom left out. *)
Definition transaction_rows (g : grid) : grid :=
  let rows := data_rows g in
  if is_total_row (last rows []) then removelast rows else rows.

(** The rows under the header as the sheet holds them: trimmed, not yet
    padded. *)
Definition stored_rows (g : grid) : grid := skipn 1 (Sheet.values_get g).

(** Those rows once a summary row at the bottom has been deleted. *)
Definition kept_rows (g : grid) : grid :=
  if is_total_row (last (stored_rows g) [])
  then Sheet.trim_rows (removelast (stored_rows g))
  else stored_rows g.

(** The summary rows among the rows under the header. *)
Definition total_rows (g : grid) : grid := filter is_total_row (data_rows g).

(** No summary row above the bottom row. *)
Definition no_inner_total (g : grid) : Prop :=
  filter is_total_row (removelast (data_rows g)) = [].

(** The positions (from 0) of the site columns: between [Description]
    and the last header cell. *)
Definition site_columns (g : grid) : list nat :=
  range 2 (length (header_of g) - 1).

(** The cell at row [i], column [j] (from 0), blank outside what is
    stored. *)
Definition cell (g : grid) (i j : nat) : string := nth j (nth i g []) "".

Section Ledger.

Context {N : PyFloat}.

(** The number a cell stands for in a total: zero when blank. *)
Definition cell_value (c : string) : option num :=
  if String.eqb c "" then Some nzero else float c.

(** Python's [sum]. *)
Definition py_sum (l : list num) : num := fold_left nadd l nzero.

(** The values of column [col] down [rows], when every cell has one. *)
Fixpoint column_values (col : nat) (rows : grid) : option (list num) :=
  match rows with
  | [] => Some []
  | r :: rows' =>
      match cell_value (nth col r ""), column_values col rows' with
      | Some v, Some vs => Some (v :: vs)
      | _, _ => None
      end
  end.

(** Every site cell of every transaction row is blank or a number. *)
Definition sites_numeric (g : grid) : Prop :=
  forall r col, In r (transaction_rows g) -> In col (site_columns g) ->
    cell_value (nth col r "") <> None.

(** The sums of the columns [cols] down [rows], when every cell met has
    a value. *)
Fixpoint column_sums (cols : list nat) (rows : grid) : option (list num) :=
  match cols with
  | [] => Some []
  | col :: cols' =>
      match column_values col rows, column_sums cols' rows with
      | Some vs, Some sums => Some (py_sum vs :: sums)
      | _, _ => None
      end
  end.

(** The sheet after the recomputer appended its row without raising:
    the summary row is at the bottom and nothing was printed. *)
Definition total_row_appended (w : world) : Prop :=
  let w' := snd (update_total_row w) in
  is_total_row (last (Sheet.values_get (sheet w')) []) = true
  /\ console w' = console w.

(** A sheet with one site column holding text in a transaction row. *)
Definition sheet_with_text : grid :=
  [["Date"; "Description"; "SiteA"; "Closing Balance"];
   ["2024-01-01"; "rent"; "abc"]].

End Ledger.

(** The spec's example, from an empty sheet. *)
Definition example_session : M (list message) :=
  ensure_header ;;;
  a <- add_site "SiteA" ;;
  b <- add_site "SiteB" ;;
  c <- add_transaction "2024-01-01" "SiteA" "rent" "100" ;;
  d <- add_transaction "2024-01-02" "SiteB" "food" "-20" ;;
  ret [fst a; fst b; c; d].

Definition empty_world : world :=
  {| sheet := []; faults := []; console := [] |}.

Definition two_site_header : row :=
  ["Date"; "Description"; "SiteA"; "SiteB"; "Closing Balance"].

(** The sheet the example leaves after its first transaction. *)
Definition sheet_after_first : grid :=
  [two_site_header;
   ["2024-01-01"; "rent"; "100"; ""; ""; "100"];
   ["TOTAL"; ""; "100"; "0"; "100"]].

Section Validation.

Context {N : PyFloat}.

(** An input the transaction adder turns down before it reads the
    sheet: no site selected, a date that is not YYYY-MM-DD, or an
    amount that is not a number. *)
Definition fails_validation (date site amount_text : string) : Prop :=
  PyStr.strip site = "Select Site" \/ PyStr.strip site = ""
  \/ Strptime.strptime_ymd (PyStr.strip date) = None
  \/ float (PyStr.strip amount_text) = None.

Definition site_selected (site : string) : bool :=
  negb (String.eqb (PyStr.strip site) "Select Site"
        || String.eqb (PyStr.strip site) "").

Definition date_parses (date : string) : bool :=
  match Strptime.strptime_ymd (PyStr.strip date) with
  | Some _ => true
  | None => false
  end.

(** The failure reported for such an input: the first of the three
    checks, in the order site, date, amount, that does not pass. *)
Definition validation_failure (date site amount_text : string) : message :=
  if negb (site_selected site) then Please_select_a_valid_site
  else if negb (date_parses date) then Invalid_date_format
  else Amount_must_be_a_number.

End Validation.

(** A sheet that is about to become unreachable. *)
Definition failing_world (g : grid) : world :=
  {| sheet := g; faults := [Some "503"]; console := [] |}.

Section Effects.

Context {N : PyFloat}.

(** The sheet with the summary row at its bottom, if there is one,
    deleted. *)
Definition without_total (g : grid) : grid :=
  if is_total_row (last (data_rows g) [])
  then Sheet.delete_rows (length (data_rows g) + 1) g
  else g.

(** The summary row for the column sums [sums]. *)
Definition summary_cells (sums : list num) : row :=
  "TOTAL" :: "" :: map cell_of_num sums ++ [cell_of_num (py_sum sums)].

(** The row of a transaction under a header of [n] cells: date,
    description, blanks, the balance, and then the amount put at
    position [j]. *)
Definition transaction_cells (n : nat) (date description : string)
    (j : nat) (amount balance : num) : row :=
  let base := [PStr date; PStr description]
                ++ repeat (PStr "") (n - 2) ++ [PNum balance] in
  map to_cell (firstn j base ++ PNum amount :: skipn (S j) base).

(** The balance [add_transaction] computes on a sheet for an amount. *)
Definition running_balance (g : grid) (amount : num) : num :=
  nadd (scan_rows (length (header_of g)) (data_rows g) nzero) amount.

End Effects.

(** No remote call is scheduled to fail. *)
Definition quiet (w : world) : Prop :=
  Forall (fun f => f = None) (faults w).

(** Two worlds with the same sheet and the same console, and no failure
    scheduled in either. *)
Definition agree (w1 w2 : world) : Prop :=
  sheet w1 = sheet w2 /\ console w1 = console w2 /\ quiet w1 /\ quiet w2.

Definition agree_out {A} (o1 o2 : res A * world) : Prop :=
  fst o1 = fst o2 /\ agree (snd o1) (snd o2).

(** A computation that does the same in worlds that agree. *)
Definition steady {A} (m : M A) : Prop :=
  forall w1 w2, agree w1 w2 -> agree_out (m w1) (m w2).

(** The world with sheet [g] and console [c] in which no remote call is
    scheduled to fail: every remote call succeeds. *)
Definition calm (g : grid) (c : list log_line) : world :=
  {| sheet := g; faults := []; console := c |}.

(** A header with [name] put in at position [k]. *)
Definition header_with (k : nat) (name : string) (header : row) : row :=
  firstn k header ++ name :: skipn k header.

(** The rows under the header hold exactly one summary row, the last
    of them. *)
Definition one_total_row_last (g : grid) : Prop :=
  length (total_rows g) = 1
  /\ is_total_row (last (data_rows g) []) = true.

(** What [ensure_header] makes of a sheet when its remote calls
    succeed. *)
Definition ensured (g : grid) : grid :=
  match Sheet.get_all_values g with
  | [] => Sheet.insert_row default_header 1 g
  | first :: _ =>
      if forallb (fun cell => String.eqb (PyStr.strip cell) "") first
      then Sheet.update_A1 [default_header] g
      else g
  end.

(** Every cell of the row is empty or white space. *)
Definition whitespace_only (r : row) : Prop :=
  forall cell, In cell r -> PyStr.strip cell = "".

(** A world whose sheet, console and schedule are given. *)
Definition scheduled (g : grid) (fs : list (option string))
    (c : list log_line) : world :=
  {| sheet := g; faults := fs; console := c |}.

(** No blank row among the rows under the header. *)
Definition no_blank_rows (g : grid) : Prop :=
  forall r, In r (stored_rows g) -> r <> [].

(** An operation returns only values that satisfy [P]. *)
Definition yields {A} (m : M A) (P : A -> Prop) : Prop :=
  forall w a w', m w = (Ret a, w') -> P a.

(* ===================================================================== *)
(** * The page *)
(* ===================================================================== *)

(** Line 193 takes [-abs(x)] of the amount of a payment and turns it
    back into text with [str]; both are kept abstract, like the numbers
    themselves. *)
Class PyFloatText (N : PyFloat) : Type := {
  neg_abs : num -> num;
  str : num -> string
}.

#[export] Instance ZFloatText : PyFloatText ZFloat := {
  neg_abs := fun z => (- Z.abs z)%Z;
  str := fun z => NilZero.string_of_int (Z.to_int z)
}.

(** The options of the [Transaction Type] box. *)
Inductive txn_type : Type :=
| Deposit
| Payment.

Section Page.

Context {N : PyFloat} {T : PyFloatText N}.

(** The calls that put something on the page, and [st.rerun]. *)
Inductive st_call : Type :=
| st_success (msg : message)
| st_warning (msg : message)
| st_info (msg : message)
| st_error (msg : message)
| st_rerun.

(** The text of a message up to the first value it substitutes.  The
    marks the page tests for are shorter than each of these, so that
    [msg.startswith(mark)] is decided here. *)
Definition lead (msg : message) : string :=
  match msg with
  | Enter_a_site_name_first => "⚠️ Enter a site name first"
  | Site_already_exists => "⚠️ Site already exists"
  | Site_added _ => "✅ Site '"
  | Closing_Balance_column_not_found => "❌ 'Closing Balance' column not found"
  | Failed_to_add_site _ => "❌ Failed to add site: "
  | Please_select_a_valid_site => "⚠️ Please select a valid site"
  | Invalid_date_format => "⚠️ Invalid date format"
  | Amount_must_be_a_number => "⚠️ Amount must be a number"
  | Site_column_missing => "⚠️ Site column missing"
  | Transaction_added _ _ _ _ => "✅ Transaction added: "
  | Failed_to_add_transaction _ => "❌ Failed to add transaction: "
  end.

(** [msg.startswith(mark)] *)
Definition startswith (msg : message) (mark : string) : bool :=
  String.prefix mark (lead msg).

(** [site_options], lines 154-156: the header, or five stand-in cells
    when the sheet has none. *)
Definition site_options : M (list string) :=
  h <- SHEET.row_values 1 ;;
  let header :=
    match h with
    | [] => ["Date"; "Description"; "Site A"; "Site B"; "Closing Balance"]
    | _ => h
    end in
  let site_values := if 4 <=? length header then slice_2_m1 header else [] in
  ret ("Select Site" :: site_values).

(** The block under [if add_site_clicked:], lines 176-187; the value is
    the list of calls made on the page. *)
Definition add_site_clicked (new_site_input : string) : M (list st_call) :=
  r <- add_site new_site_input ;;
  let '(msg, updated_sites) := r in
  match updated_sites with
  | Some _ => ret [st_success msg; st_rerun]
  | None =>
      if startswith msg "✅" then ret [st_success msg]
      else if startswith msg "⚠️" then ret [st_warning msg]
      else ret [st_info msg]
  end.

(** [signed_amount], lines 190-195. *)
Definition signed_amount (t : txn_type) (amount_input : string) : string :=
  match t with
  | Payment =>
      if negb (String.eqb (PyStr.strip amount_input) "")
      then match float amount_input with
           | Some x => str (neg_abs x)
           | None => amount_input
           end
      else amount_input
  | Deposit => amount_input
  end.

(** The block under [if add_txn_clicked:], lines 189-202. *)
Definition add_txn_clicked (t : txn_type)
    (date_input site_selected desc_input amount_input : string)
    : M (list st_call) :=
  msg <- add_transaction date_input site_selected desc_input
           (signed_amount t amount_input) ;;
  if startswith msg "✅" then ret [st_success msg]
  else if startswith msg "⚠️" then ret [st_warning msg]
  else ret [st_error msg].

(** The messages of [add_transaction]. *)
Definition transaction_message (date site description : string)
    (m : message) : Prop :=
  (exists x, m = Transaction_added (PyStr.strip date) (PyStr.strip site)
                   (PyStr.strip description) x)
  \/ m = Please_select_a_valid_site
  \/ m = Invalid_date_format
  \/ m = Amount_must_be_a_number
  \/ m = Site_column_missing
  \/ exists e, m = Failed_to_add_transaction e.

(** The answers of [add_site]. *)
Definition site_answer (r : message * option (list string)) : Prop :=
  r = (Enter_a_site_name_first, None)
  \/ (exists sites, r = (Site_already_exists, Some sites))
  \/ (exists name sites, r = (Site_added name, Some sites))
  \/ r = (Closing_Balance_column_not_found, None)
  \/ exists e, r = (Failed_to_add_site e, None).

End Page.

(* ===================================================================== *)
(** * Trimming, as the specification words it *)
(* ===================================================================== *)

(** A white-space character. *)
Definition white (ch : string) : Prop := PyStr.is_space ch = true.

(** The first and the last of the characters are not white space. *)
Definition ends_clean (l : list string) : Prop :=
  match l with
  | [] => True
  | x :: _ => PyStr.is_space x = false /\ PyStr.is_space (last l "") = false
  end.

(** [name] is the trimmed form of [input]: the characters of [input] are
    white-space characters, then the characters that make up [name],
    then white-space characters again, and [name] neither begins nor
    ends with white space. *)
Definition trimmed (input name : string) : Prop :=
  exists before middle after : list string,
    PyStr.chars input = before ++ middle ++ after
    /\ name = PyStr.join middle
    /\ Forall white before /\ Forall white after
    /\ ends_clean middle.

(** A no-break space, U+00A0. *)
Definition nbsp : string := String "194"%char (String "160"%char "").

(* ===================================================================== *)
(** * Integer amounts are a model of the numbers *)
(* ===================================================================== *)

Lemma upper_char_T (c : ascii) :
  PyStr.upper_char c = "T"%char -> c = "T"%char \/ c = "t"%char.
Proof.
  destruct c as [[] [] [] [] [] [] [] []]; vm_compute; intros H;
    try discriminate H; auto.
Qed.

Lemma float_Z_letter (c : ascii) (s : string) :
  c = "T"%char \/ c = "t"%char -> @float ZFloat (String c s) = None.
Proof.
  intros [-> | ->]; simpl; destruct (NilEmpty.uint_of_string s);
    reflexivity.
Qed.

#[export] Instance ZFloatLaws : PyFloatLaws ZFloat.
Proof.
  split.
  - reflexivity.
  - intros [| c s] H; [discriminate H |].
    simpl in H. injection H as Hc _.
    apply float_Z_letter, upper_char_T, Hc.
  - intros x. simpl.
    rewrite NilZero.isi.
    + discriminate.
    + destruct x; simpl; try discriminate.
      intros [= H]. exact (Unsigned.to_uint_nonnil _ H).
    + destruct x; simpl; try discriminate.
      intros [= H]. exact (Unsigned.to_uint_nonnil _ H).
Qed.

(* ===================================================================== *)
(** * The embedding on small inputs *)
(* ===================================================================== *)

Example strip_spaces : PyStr.strip "  SiteA " = "SiteA".
Proof. reflexivity. Qed.

Example strip_blank : PyStr.strip " " = "".
Proof. reflexivity. Qed.

Example upper_total : PyStr.upper "Total" = "TOTAL".
Proof. reflexivity. Qed.

Example strptime_valid :
  Strptime.strptime_ymd "2024-01-02" = Some (2024, 1, 2).
Proof. reflexivity. Qed.

Example strptime_month_13 : Strptime.strptime_ymd "2024-13-01" = None.
Proof. reflexivity. Qed.

Example strptime_leap_day :
  Strptime.strptime_ymd "2024-02-29" = Some (2024, 2, 29)
  /\ Strptime.strptime_ymd "2023-02-29" = None.
Proof. split; reflexivity. Qed.

Example strip_no_break_space :
  PyStr.strip (nbsp ++ "Cafe" ++ nbsp)%string = "Cafe" /\ PyStr.strip nbsp = "".
Proof. split; reflexivity. Qed.

Example strip_keeps_inner_space :
  PyStr.strip (" Site" ++ nbsp ++ "A ")%string = ("Site" ++ nbsp ++ "A")%string.
Proof. reflexivity. Qed.

Example strptime_fullwidth_digits :
  Strptime.strptime_ymd "２０２４-01-01" = Some (2024, 1, 1)
  /\ Strptime.strptime_ymd "2024-01-1٣" = Some (2024, 1, 13)
  /\ Strptime.strptime_ymd "2024-٠1-01" = None.
Proof. repeat split; reflexivity. Qed.

Example strptime_short_fields :
  Strptime.strptime_ymd "2024-1-1" = Some (2024, 1, 1)
  /\ Strptime.strptime_ymd "2024-01- 1" = Some (2024, 1, 1)
  /\ Strptime.strptime_ymd "2024-01-01 " = None
  /\ Strptime.strptime_ymd "0000-01-01" = None.
Proof. repeat split; reflexivity. Qed.

(** White space that is not ASCII is trimmed like any other: a row 1 of
    one no-break space is overwritten with the header, a name padded
    with no-break spaces is the name, a site of one no-break space is no
    site, and a date so padded is a date. *)
Example ensure_header_no_break_space :
  ensure_header (calm [[nbsp]] []) = (Ret tt, calm [default_header] []).
Proof. reflexivity. Qed.

Example add_site_padded_duplicate :
  add_site (nbsp ++ "SiteA" ++ nbsp)%string (calm sheet_after_first [])
  = (Ret (Site_already_exists, Some ["SiteA"; "SiteB"]),
     calm sheet_after_first []).
Proof. vm_compute. reflexivity. Qed.

Example validation_no_break_space :
  site_selected nbsp = false
  /\ site_selected (nbsp ++ "SiteA")%string = true
  /\ date_parses (nbsp ++ "2024-01-01" ++ nbsp)%string = true
  /\ date_parses "２０２４-01-01" = true.
Proof. repeat split; reflexivity. Qed.

Example float_integers :
  float "100" = Some 100%Z /\ float "-20" = Some (-20)%Z
  /\ float "abc" = None /\ float "" = None.
Proof. repeat split; reflexivity. Qed.

Example cell_of_num_integers :
  cell_of_num 280%Z = "280" /\ cell_of_num (-20)%Z = "-20"
  /\ cell_of_num 0%Z = "0".
Proof. repeat split; reflexivity. Qed.

Example slice_of_header : slice_2_m1 two_site_header = ["SiteA"; "SiteB"].
Proof. reflexivity. Qed.

(** A row longer than the header, as [add_transaction] writes them: the
    header is read without padding, the whole sheet with it. *)
Example reads_of_ragged_sheet :
  Sheet.row_values 1 [["Date"; "Closing Balance"; ""]; ["a"; ""; "1"; ""]]
  = ["Date"; "Closing Balance"]
  /\ Sheet.get_all_values
       [["Date"; "Closing Balance"; ""]; ["a"; ""; "1"; ""]; []]
     = [["Date"; "Closing Balance"; ""]; ["a"; ""; "1"]].
Proof. split; reflexivity. Qed.

(** [ensure_header]: an empty sheet gets the default header, a first row
    of blanks is overwritten, any other first row is left alone, and a
    failing read is printed. *)
Example ensure_header_empty :
  ensure_header (calm [] []) = (Ret tt, calm [default_header] []).
Proof. reflexivity. Qed.

Example ensure_header_blank_first_row :
  ensure_header (calm [[""; " "]; ["x"]] [])
  = (Ret tt, calm [default_header; ["x"]] []).
Proof. reflexivity. Qed.

Example ensure_header_present :
  ensure_header (calm [["When"; "What"]] [])
  = (Ret tt, calm [["When"; "What"]] []).
Proof. reflexivity. Qed.

Example ensure_header_unreachable :
  ensure_header (failing_world [])
  = (Ret tt, calm [] [Error_initializing_header (APIError "503")]).
Proof. reflexivity. Qed.

(** [add_site] on a header without [Closing Balance], and on a sheet
    that becomes unreachable once the header has been read. *)
Example add_site_no_closing_balance :
  add_site "Cafe" (calm [["Date"; "Description"]] [])
  = (Ret (Closing_Balance_column_not_found, None),
     calm [["Date"; "Description"]] []).
Proof. reflexivity. Qed.

Example add_site_late_failure :
  add_site "Cafe" {| sheet := [default_header];
                     faults := [None; None; Some "503"]; console := [] |}
  = (Ret (Failed_to_add_site (APIError "503"), None),
     calm [default_header] []).
Proof. reflexivity. Qed.

(* ===================================================================== *)
(** * Strings and lists *)
(* ===================================================================== *)

Lemma mem_In (x : string) (l : list string) :
  PyStr.mem x l = true <-> In x l.
Proof.
  unfold PyStr.mem. rewrite existsb_exists. split.
  - intros (y & Hy & E). apply String.eqb_eq in E. now subst.
  - intros H. exists x. split; [exact H | apply String.eqb_refl].
Qed.

Lemma index_Some_nth (x : string) (l : list string) (i : nat) :
  PyStr.index x l = Some i ->
  i < length l /\ nth i l "" = x /\ forall j, j < i -> nth j l "" <> x.
Proof.
  revert i. induction l as [| y l IH]; intros i; simpl; [discriminate |].
  destruct (String.eqb_spec y x) as [-> | Hne].
  - intros [= <-]. repeat split; [lia | intros j Hj; lia].
  - destruct (PyStr.index x l) as [k |]; simpl; [| discriminate].
    intros [= <-]. destruct (IH k eq_refl) as (Hk & Hn & Hm).
    repeat split; [lia | exact Hn |].
    intros [| j] Hj; [exact Hne | apply Hm; lia].
Qed.

Lemma index_None_not_In (x : string) (l : list string) :
  PyStr.index x l = None <-> ~ In x l.
Proof.
  induction l as [| y l IH]; simpl.
  - tauto.
  - destruct (String.eqb_spec y x) as [-> | Hne].
    + split; [discriminate | intros H; exfalso; apply H; now left].
    + destruct (PyStr.index x l); simpl.
      * split; [discriminate |].
        intros H. assert (Hn : ~ In x l) by tauto.
        apply IH in Hn. discriminate Hn.
      * split; [| reflexivity].
        intros _ [E | i]; [now apply Hne | now apply IH].
Qed.

Lemma index_In (x : string) (l : list string) :
  In x l -> exists i, PyStr.index x l = Some i.
Proof.
  intros H. destruct (PyStr.index x l) as [i |] eqn:E; [now exists i |].
  apply index_None_not_In in E. contradiction.
Qed.

(* ===================================================================== *)
(** * Validation comes before the sheet *)
(* ===================================================================== *)

Section ValidationFacts.

Context {N : PyFloat}.

Lemma add_transaction_no_site (w : world)
    (date site description amt : string) :
  site_selected site = false ->
  add_transaction date site description amt w
  = (Ret Please_select_a_valid_site, w).
Proof.
  unfold site_selected, add_transaction. intros H.
  apply negb_false_iff in H. now rewrite H.
Qed.

Lemma add_transaction_bad_date (w : world)
    (date site description amt : string) :
  site_selected site = true -> date_parses date = false ->
  add_transaction date site description amt w = (Ret Invalid_date_format, w).
Proof.
  unfold site_selected, date_parses, add_transaction. intros H D.
  apply negb_true_iff in H. rewrite H.
  now destruct (Strptime.strptime_ymd (PyStr.strip date)).
Qed.

Lemma add_transaction_bad_amount (w : world)
    (date site description amt : string) :
  site_selected site = true -> date_parses date = true ->
  float (PyStr.strip amt) = None ->
  add_transaction date site description amt w
  = (Ret Amount_must_be_a_number, w).
Proof.
  unfold site_selected, date_parses, add_transaction. intros H D F.
  apply negb_true_iff in H. rewrite H.
  destruct (Strptime.strptime_ymd (PyStr.strip date)); [| discriminate D].
  now rewrite F.
Qed.

(** C9.  An input that fails validation (no site selected, a date that
    does not parse as YYYY-MM-DD, or an amount that does not parse as a
    number) gets the failure of the first check it does not pass, and
    the world it was submitted in comes back as it was: the sheet is
    unchanged, nothing is printed, and no remote call was made (the
    fault schedule is untouched, so not even a read happened). *)
Theorem validation_failure_leaves_world (w : world)
    (date site description amount_text : string) :
  fails_validation date site amount_text ->
  add_transaction date site description amount_text w
  = (Ret (validation_failure date site amount_text), w).
Proof.
  intros H. unfold validation_failure.
  destruct (site_selected site) eqn:S; simpl;
    [| now apply add_transaction_no_site].
  destruct (date_parses date) eqn:D; simpl;
    [| now apply add_transaction_bad_date].
  apply add_transaction_bad_amount; trivial.
  unfold site_selected in S. apply negb_true_iff, orb_false_iff in S.
  destruct S as [S1 S2].
  apply String.eqb_neq in S1. apply String.eqb_neq in S2.
  unfold date_parses in D.
  destruct H as [H | [H | [H | H]]]; try contradiction; trivial.
  rewrite H in D. discriminate D.
Qed.

End ValidationFacts.

(** The date of the specification's example, submitted while the sheet is
    unreachable: it is turned down as an invalid date and the remote
    failure that was waiting is still waiting. *)
Lemma validation_failure_leaves_world_witness :
  fails_validation "2024-13-01" "SiteA" "100"
  /\ add_transaction "2024-13-01" "SiteA" "rent" "100"
       (failing_world [two_site_header])
     = (Ret Invalid_date_format, failing_world [two_site_header]).
Proof.
  assert (H : fails_validation "2024-13-01" "SiteA" "100").
  { right. right. left. reflexivity. }
  split; [exact H |].
  exact (validation_failure_leaves_world (failing_world [two_site_header])
           "2024-13-01" "SiteA" "rent" "100" H).
Defined.

(* ===================================================================== *)
(** * Remote calls *)
(* ===================================================================== *)

Lemma remote_ok {A} (read : grid -> A) (write : grid -> grid) (w : world) :
  next_call_succeeds w ->
  remote read write w
  = (Ret (read (sheet w)),
     {| sheet := write (sheet w); faults := tl (faults w);
        console := console w |}).
Proof.
  unfold next_call_succeeds, remote. intros H.
  destruct (faults w) as [| [msg |] fs] eqn:E; try reflexivity.
  now destruct (H msg fs).
Qed.

Lemma try_except_returns {A} (m : M A) (h : exn -> M A) (w : world) :
  (forall e w1, exists a w2, h e w1 = (Ret a, w2)) ->
  exists a w', try_except m h w = (Ret a, w').
Proof.
  intros H. unfold try_except. destruct (m w) as [[a | e] w1]; eauto.
Qed.

Section RemoteFailures.

Context {N : PyFloat}.

(** The three operations whose remote calls all sit inside their [try]
    return whatever the sheet does. *)
Lemma ensure_header_never_raises (w : world) :
  exists w', ensure_header w = (Ret tt, w').
Proof.
  destruct (try_except_returns
    (rows <- SHEET.get_all_values ;;
     match rows with
     | [] => SHEET.insert_row default_header 1
     | first :: _ =>
         if forallb (fun cell => String.eqb (PyStr.strip cell) "") first
         then SHEET.update_A1 [default_header]
         else ret tt
     end)
    (fun e => print (Error_initializing_header e)) w) as ([] & w' & E).
  - intros e w1. unfold print. eauto.
  - exists w'. exact E.
Qed.

Lemma update_total_row_never_raises (w : world) :
  exists w', update_total_row w = (Ret tt, w').
Proof.
  destruct (try_except_returns update_total_row_body
    (fun e => print (Error_updating_TOTAL_row e)) w) as ([] & w' & E).
  - intros e w1. unfold print. eauto.
  - exists w'. exact E.
Qed.

Lemma add_transaction_never_raises (w : world)
    (date site description amount_text : string) :
  exists m w', add_transaction date site description amount_text w
               = (Ret m, w').
Proof.
  unfold add_transaction.
  destruct (_ || _); [unfold ret; eauto |].
  destruct (Strptime.strptime_ymd _); [| unfold ret; eauto].
  destruct (float _); [| unfold ret; eauto].
  apply try_except_returns. intros e w1. unfold ret. eauto.
Qed.

(** C8.  The site adder reads the header before it enters its [try]:
    when that read fails, the remote error leaves [add_site] as an
    exception instead of becoming a message. *)
Theorem add_site_header_read_escapes (new_site : string) (g : grid)
    (msg : string) (fs : list (option string)) (c : list log_line) :
  PyStr.strip new_site <> "" ->
  add_site new_site {| sheet := g; faults := Some msg :: fs; console := c |}
  = (Raise (APIError msg), {| sheet := g; faults := fs; console := c |}).
Proof.
  intros H. unfold add_site. apply String.eqb_neq in H. rewrite H.
  reflexivity.
Qed.

Lemma slice_short {A} (l : list A) :
  (if 4 <=? length l then slice_2_m1 l else []) = slice_2_m1 l.
Proof.
  destruct (4 <=? length l) eqn:E; [reflexivity |].
  apply Nat.leb_gt in E.
  destruct l as [| a [| b [| c [| d l]]]]; try reflexivity.
  simpl in E. lia.
Qed.

(** C7.  A name that, trimmed, is already a header cell: the sheet and
    the console stay as they were, the answer is the duplicate-site
    message, and with it comes the current list of sites.  (The name is
    one that passes the emptiness check, and the header can be read.) *)
Theorem add_site_duplicate_leaves_sheet (w : world) (new_site : string) :
  PyStr.strip new_site <> "" ->
  next_call_succeeds w ->
  In (PyStr.strip new_site) (header_of (sheet w)) ->
  fst (add_site new_site w)
  = Ret (Site_already_exists, Some (slice_2_m1 (header_of (sheet w))))
  /\ sheet (snd (add_site new_site w)) = sheet w
  /\ console (snd (add_site new_site w)) = console w.
Proof.
  intros Hne Hok Hin. unfold add_site.
  apply String.eqb_neq in Hne. rewrite Hne.
  unfold bind, SHEET.row_values. rewrite (remote_ok _ _ w Hok).
  apply mem_In in Hin. unfold header_of in *. rewrite Hin.
  unfold ret. rewrite slice_short. simpl. auto.
Qed.

End RemoteFailures.

Lemma add_site_header_read_escapes_witness :
  PyStr.strip "Cafe" <> ""
  /\ add_site "Cafe" (failing_world [default_header])
     = (Raise (APIError "503"),
        {| sheet := [default_header]; faults := []; console := [] |}).
Proof.
  assert (H : PyStr.strip "Cafe" <> "") by (vm_compute; discriminate).
  split; [exact H |].
  exact (add_site_header_read_escapes "Cafe" [default_header] "503" [] [] H).
Defined.

Lemma add_site_duplicate_leaves_sheet_witness :
  fst (add_site " SiteA " {| sheet := [two_site_header]; faults := [];
                             console := [] |})
  = Ret (Site_already_exists, Some ["SiteA"; "SiteB"])
  /\ sheet (snd (add_site " SiteA " {| sheet := [two_site_header];
                                       faults := []; console := [] |}))
     = [two_site_header].
Proof.
  pose (w := {| sheet := [two_site_header]; faults := []; console := [] |}).
  assert (H1 : PyStr.strip " SiteA " <> "") by (vm_compute; discriminate).
  assert (H2 : next_call_succeeds w) by (intros msg fs; discriminate).
  assert (H3 : In (PyStr.strip " SiteA ") (header_of (sheet w))).
  { vm_compute. right. right. now left. }
  destruct (add_site_duplicate_leaves_sheet w " SiteA " H1 H2 H3)
    as (E1 & E2 & _).
  split; [exact E1 | exact E2].
Defined.

(* ===================================================================== *)
(** * The running balance *)
(* ===================================================================== *)

Section Scan.

Context {N : PyFloat}.

(** The scan of [add_transaction] goes through every row it was given,
    the last one like the others. *)
Lemma scan_rows_app (closing_index : nat) (rows : grid) (t : row)
    (acc : num) :
  scan_rows closing_index (rows ++ [t]) acc
  = scan_row (range 2 closing_index) t (scan_rows closing_index rows acc).
Proof.
  revert acc. induction rows as [| r rows IH]; intros acc; simpl.
  - reflexivity.
  - apply IH.
Qed.

End Scan.

(** C1.  The specification's example run from an empty sheet: header,
    sites [SiteA] and [SiteB], then 100 on [SiteA] and -20 on [SiteB].
    The first transaction row gets 100 and the second 280, not 80: the
    scan that computes the balance has also read the summary row
    (100 + 0 + 100).  Both numbers sit one column to the right of
    [Closing Balance], whose own cell stays blank in transaction rows. *)
Theorem example_session_closing_balances :
  example_session empty_world
  = (Ret [Site_added "SiteA"; Site_added "SiteB";
          Transaction_added "2024-01-01" "SiteA" "rent" 100%Z;
          Transaction_added "2024-01-02" "SiteB" "food" (-20)%Z],
     {| sheet := [two_site_header;
                  ["2024-01-01"; "rent"; "100"; ""; ""; "100"];
                  ["2024-01-02"; "food"; ""; "-20"; ""; "280"];
                  ["TOTAL"; ""; "100"; "-20"; "80"]];
        faults := [];
        console := [] |}).
Proof. vm_compute. reflexivity. Qed.

(** C2.  A transaction added to a sheet that ends with a summary row: the
    balance is computed from the rows as read, summary row included, and
    the summary row is only deleted afterwards.  Here the one earlier
    transaction is 100, the summary row holds 100, 0 and 100, and the
    balance written for the new amount -20 is 100 + 200 - 20 = 280. *)
Theorem add_transaction_scans_total_row :
  add_transaction "2024-01-02" "SiteB" "food" "-20"
    {| sheet := sheet_after_first; faults := []; console := [] |}
  = (Ret (Transaction_added "2024-01-02" "SiteB" "food" (-20)%Z),
     {| sheet := [two_site_header;
                  ["2024-01-01"; "rent"; "100"; ""; ""; "100"];
                  ["2024-01-02"; "food"; ""; "-20"; ""; "280"];
                  ["TOTAL"; ""; "100"; "-20"; "80"]];
        faults := [];
        console := [] |}).
Proof. vm_compute. reflexivity. Qed.

(** C3.  Text in a site cell is not counted as zero by the recomputer.
    On [sheet_with_text], whose one transaction row holds [abc] under
    [SiteA], [float] raises at line 80: [update_total_row] prints
    [Error updating TOTAL row], appends no summary row and leaves the
    sheet as it was.  The scan of [add_transaction] over the same rows
    skips that cell and goes on. *)
Theorem text_cell_aborts_recomputation :
  update_total_row (calm sheet_with_text [])
  = (Ret tt, calm sheet_with_text [Error_updating_TOTAL_row ValueError])
  /\ ~ total_row_appended (calm sheet_with_text [])
  /\ scan_rows (length (header_of sheet_with_text))
       (data_rows sheet_with_text) 0%Z = 0%Z.
Proof.
  split; [vm_compute; reflexivity |]. split; [| vm_compute; reflexivity].
  unfold total_row_appended. vm_compute. intros [H _]. discriminate H.
Qed.

(* ===================================================================== *)
(** * Trimming *)
(* ===================================================================== *)

Section Rtrim.

Context {A : Type} (blank : A -> bool).

Lemma rtrim_nil (l : list A) :
  Sheet.rtrim blank l = [] <-> forallb blank l = true.
Proof.
  induction l as [| x l IH]; simpl; [tauto |].
  destruct (Sheet.rtrim blank l) as [| y t] eqn:E.
  - destruct (blank x); simpl.
    + split; [intros _; now apply IH | reflexivity].
    + split; discriminate.
  - split; [discriminate |].
    intros H. apply andb_true_iff in H. destruct H as [_ H].
    apply IH in H. discriminate H.
Qed.

Lemma rtrim_cons (x : A) (l : list A) :
  Sheet.rtrim blank l <> [] \/ blank x = false ->
  Sheet.rtrim blank (x :: l) = x :: Sheet.rtrim blank l.
Proof.
  simpl. destruct (Sheet.rtrim blank l) as [| y t].
  - intros [H | H]; [now destruct H | now rewrite H].
  - reflexivity.
Qed.

Lemma rtrim_app_blank (l t : list A) :
  forallb blank t = true ->
  Sheet.rtrim blank (l ++ t) = Sheet.rtrim blank l.
Proof.
  intros H. induction l as [| x l IH]; simpl.
  - now apply rtrim_nil.
  - now rewrite IH.
Qed.

Lemma rtrim_snoc (l : list A) (x : A) :
  blank x = false -> Sheet.rtrim blank (l ++ [x]) = l ++ [x].
Proof.
  intros H. induction l as [| y l IH]; simpl.
  - now rewrite H.
  - rewrite IH. destruct (l ++ [x]) eqn:E; [| reflexivity].
    now destruct l.
Qed.

Lemma rtrim_split (l : list A) :
  exists t, l = Sheet.rtrim blank l ++ t /\ forallb blank t = true.
Proof.
  induction l as [| x l (t & E & Ht)].
  - now exists [].
  - simpl. destruct (Sheet.rtrim blank l) as [| y u] eqn:R.
    + destruct (blank x) eqn:B.
      * exists (x :: l). split; [reflexivity |]. simpl. rewrite B.
        now apply rtrim_nil.
      * exists t. simpl in E. split; [simpl; congruence | exact Ht].
    + exists t. split; [| exact Ht]. simpl. f_equal. exact E.
Qed.

Lemma rtrim_last (l : list A) (d : A) :
  Sheet.rtrim blank l <> [] -> blank (last (Sheet.rtrim blank l) d) = false.
Proof.
  induction l as [| x l IH]; simpl; [congruence |].
  destruct (Sheet.rtrim blank l) as [| y t] eqn:E.
  - destruct (blank x) eqn:B; [congruence | intros _; exact B].
  - intros _. change (last (x :: y :: t) d) with (last (y :: t) d).
    apply IH. discriminate.
Qed.

Lemma rtrim_nth (d : A) (l : list A) (i : nat) :
  (forall x, blank x = true -> x = d) ->
  nth i (Sheet.rtrim blank l) d = nth i l d.
Proof.
  intros Hd. destruct (rtrim_split l) as (t & E & Ht).
  rewrite E at 2.
  destruct (Nat.lt_ge_cases i (length (Sheet.rtrim blank l))) as [Hi | Hi].
  - now rewrite app_nth1.
  - rewrite app_nth2 by exact Hi. rewrite (nth_overflow _ _ Hi).
    destruct (Nat.lt_ge_cases (i - length (Sheet.rtrim blank l)) (length t))
      as [Hj | Hj].
    + symmetry. apply Hd. rewrite forallb_forall in Ht. apply Ht.
      now apply nth_In.
    + now rewrite nth_overflow.
Qed.

Lemma rtrim_In (l : list A) (x : A) :
  In x (Sheet.rtrim blank l) -> In x l.
Proof.
  destruct (rtrim_split l) as (t & E & _). intros H. rewrite E.
  apply in_or_app. now left.
Qed.

End Rtrim.

(* ===================================================================== *)
(** * What the program reads of a sheet *)
(* ===================================================================== *)

Lemma blank_cell_eq (c : string) : Sheet.blank_cell c = true -> c = "".
Proof. apply String.eqb_eq. Qed.

Lemma blank_row_eq (r : row) : Sheet.blank_row r = true -> r = [].
Proof. now destruct r. Qed.

Lemma blank_row_false (r : row) : r <> [] -> Sheet.blank_row r = false.
Proof. now destruct r. Qed.

Lemma trim_row_nth (r : row) (j : nat) :
  nth j (Sheet.trim_row r) "" = nth j r "".
Proof. apply rtrim_nth, blank_cell_eq. Qed.

Lemma trim_row_cons (c : string) (r : row) :
  c <> "" -> Sheet.trim_row (c :: r) <> [].
Proof.
  intros H E. apply rtrim_nil in E. simpl in E.
  apply andb_true_iff in E. destruct E as [E _].
  apply blank_cell_eq in E. contradiction.
Qed.

Lemma values_get_nth (g : grid) (i : nat) :
  nth i (Sheet.values_get g) [] = Sheet.trim_row (nth i g []).
Proof.
  unfold Sheet.values_get, Sheet.trim_rows.
  rewrite rtrim_nth by apply blank_row_eq.
  change (@nil string) with (Sheet.trim_row []) at 1. apply map_nth.
Qed.

Lemma header_of_values_get (g : grid) :
  header_of g = nth 0 (Sheet.values_get g) [].
Proof. symmetry. apply values_get_nth. Qed.

Lemma values_get_split (g : grid) :
  exists t, map Sheet.trim_row g = Sheet.values_get g ++ t
            /\ forallb Sheet.blank_row t = true.
Proof. apply rtrim_split. Qed.

Lemma forallb_skipn {A} (f : A -> bool) (n : nat) (l : list A) :
  forallb f l = true -> forallb f (skipn n l) = true.
Proof.
  rewrite !forallb_forall. intros H x Hx. apply H.
  rewrite <- (firstn_skipn n l). apply in_or_app. now right.
Qed.

Lemma values_get_append (g : grid) (v : row) :
  Sheet.trim_row v <> [] ->
  Sheet.values_get (Sheet.append_row v g)
  = Sheet.values_get g ++ [Sheet.trim_row v].
Proof.
  intros Hv. destruct (values_get_split g) as (t & E & Ht).
  unfold Sheet.append_row.
  unfold Sheet.values_get at 1.
  rewrite map_app, map_cons.
  rewrite <- firstn_map, <- skipn_map, E.
  rewrite firstn_app, skipn_app.
  rewrite firstn_all, Nat.sub_diag, app_nil_r.
  rewrite skipn_all2 by lia.
  replace (S (length (Sheet.values_get g)) - length (Sheet.values_get g))
    with 1 by lia.
  rewrite app_nil_l.
  replace (Sheet.values_get g ++ Sheet.trim_row v :: skipn 1 t)
    with ((Sheet.values_get g ++ [Sheet.trim_row v]) ++ skipn 1 t)
    by (now rewrite <- app_assoc).
  unfold Sheet.trim_rows.
  rewrite rtrim_app_blank by now apply forallb_skipn.
  apply rtrim_snoc. now apply blank_row_false.
Qed.

Lemma values_get_delete_last (g : grid) :
  1 <= length (Sheet.values_get g) ->
  Sheet.values_get (Sheet.delete_rows (length (Sheet.values_get g)) g)
  = Sheet.trim_rows (removelast (Sheet.values_get g)).
Proof.
  intros Hn. destruct (values_get_split g) as (t & E & Ht).
  unfold Sheet.delete_rows.
  unfold Sheet.values_get at 1.
  rewrite map_app, <- firstn_map, <- skipn_map, E.
  rewrite firstn_app, skipn_app.
  replace (length (Sheet.values_get g) - 1 - length (Sheet.values_get g))
    with 0 by lia.
  rewrite Nat.sub_diag.
  rewrite skipn_all2 by lia. simpl.
  rewrite app_nil_r. unfold Sheet.trim_rows.
  rewrite rtrim_app_blank by exact Ht.
  f_equal. rewrite removelast_firstn_len. f_equal. lia.
Qed.

Lemma max_cols_ge (g : grid) (r : row) :
  In r g -> length r <= Sheet.max_cols g.
Proof.
  induction g as [| x g IH]; simpl; [tauto |].
  intros [-> | H]; [lia | specialize (IH H); lia].
Qed.

Lemma rightpad_length (n : nat) (r : row) :
  length r <= n -> length (Sheet.rightpad n r) = n.
Proof.
  intros H. unfold Sheet.rightpad. rewrite length_app, repeat_length. lia.
Qed.

Lemma rightpad_nth (n j : nat) (r : row) :
  nth j (Sheet.rightpad n r) "" = nth j r "".
Proof.
  unfold Sheet.rightpad.
  destruct (Nat.lt_ge_cases j (length r)) as [H | H].
  - now rewrite app_nth1.
  - rewrite app_nth2 by exact H. rewrite nth_repeat.
    now rewrite nth_overflow.
Qed.

Lemma fill_gaps_length (g : grid) (r : row) :
  In r (Sheet.fill_gaps g) -> length r = Sheet.max_cols g.
Proof.
  unfold Sheet.fill_gaps. rewrite in_map_iff. intros (x & <- & Hx).
  apply rightpad_length, max_cols_ge, Hx.
Qed.

Lemma values_get_width (g : grid) :
  Sheet.values_get g <> [] -> 1 <= Sheet.max_cols (Sheet.values_get g).
Proof.
  intros H.
  pose proof (rtrim_last Sheet.blank_row (map Sheet.trim_row g) [] H) as B.
  fold (Sheet.trim_rows (map Sheet.trim_row g)) in B.
  fold (Sheet.values_get g) in B.
  assert (I : In (last (Sheet.values_get g) []) (Sheet.values_get g)).
  { destruct (Sheet.values_get g) as [| x l] eqn:E; [congruence |].
    rewrite (app_removelast_last [] (l := x :: l)) at 2 by discriminate.
    apply in_or_app. right. now left. }
  apply max_cols_ge in I.
  destruct (last (Sheet.values_get g) []); [discriminate B | simpl in I; lia].
Qed.

Lemma header_width (g : grid) :
  length (header_of g) <= Sheet.max_cols (Sheet.values_get g).
Proof.
  rewrite header_of_values_get.
  destruct (Sheet.values_get g) as [| h l]; simpl; lia.
Qed.

Lemma data_rows_eq (g : grid) :
  data_rows g
  = map (Sheet.rightpad (Sheet.max_cols (Sheet.values_get g)))
        (skipn 1 (Sheet.values_get g)).
Proof.
  unfold data_rows, Sheet.get_all_values, Sheet.fill_gaps.
  apply skipn_map.
Qed.

Lemma data_rows_length (g : grid) (r : row) :
  In r (data_rows g) -> length r = Sheet.max_cols (Sheet.values_get g).
Proof.
  intros H. apply fill_gaps_length. unfold data_rows in H.
  rewrite <- (firstn_skipn 1). apply in_or_app. right. exact H.
Qed.

Lemma data_rows_width (g : grid) (r : row) :
  In r (data_rows g) -> 1 <= length r /\ length (header_of g) <= length r.
Proof.
  intros H. rewrite (data_rows_length g r H). split.
  - apply values_get_width. intros E. rewrite data_rows_eq, E in H.
    exact H.
  - apply header_width.
Qed.

Lemma is_total_row_nth (r : row) :
  is_total_row r = String.eqb (PyStr.upper (nth 0 r "")) "TOTAL".
Proof. now destruct r. Qed.

Lemma is_total_row_rightpad (n : nat) (r : row) :
  is_total_row (Sheet.rightpad n r) = is_total_row r.
Proof. now rewrite !is_total_row_nth, rightpad_nth. Qed.

Lemma is_total_row_trim (r : row) :
  is_total_row (Sheet.trim_row r) = is_total_row r.
Proof. now rewrite !is_total_row_nth, trim_row_nth. Qed.

Lemma last_In {A} (l : list A) (d : A) : l <> [] -> In (last l d) l.
Proof.
  intros H. rewrite (app_removelast_last d H) at 2.
  apply in_or_app. right. now left.
Qed.

Lemma ends_with_total_data_rows (g : grid) :
  ends_with_total (data_rows g)
  = Ret (is_total_row (last (data_rows g) [])).
Proof.
  unfold ends_with_total.
  destruct (data_rows g) as [| r rows] eqn:E; [reflexivity |].
  assert (I : In (last (r :: rows) []) (data_rows g)).
  { rewrite E. apply last_In. discriminate. }
  apply data_rows_width in I. destruct I as [I _].
  destruct (last (r :: rows) []) as [| c l]; [simpl in I; lia |].
  reflexivity.
Qed.

(* ===================================================================== *)
(** * Column sums *)
(* ===================================================================== *)

Section Sums.

Context {N : PyFloat}.

Lemma getitem_nth (r : row) (col : nat) :
  col < length r -> getitem r col = Ret (nth col r "").
Proof.
  intros H. unfold getitem. now rewrite (nth_error_nth' r "" H).
Qed.

Lemma col_sum_from_spec (col : nat) (rows : grid) (acc : num) :
  (forall r, In r rows -> col < length r) ->
  col_sum_from acc col rows
  = match column_values col rows with
    | Some vs => Ret (fold_left nadd vs acc)
    | None => Raise ValueError
    end.
Proof.
  revert acc. induction rows as [| r rows IH]; intros acc H; simpl.
  - reflexivity.
  - rewrite getitem_nth by (apply H; now left).
    unfold cell_value.
    destruct (String.eqb (nth col r "") "").
    + rewrite IH by (intros; apply H; now right).
      now destruct (column_values col rows).
    + destruct (float (nth col r "")) as [x |].
      * rewrite IH by (intros; apply H; now right).
        now destruct (column_values col rows).
      * reflexivity.
Qed.

Lemma totals_loop_spec (cols : list nat) (rows : grid)
    (totals : list pyval) (closing_total : num) :
  (forall r col, In r rows -> In col cols -> col < length r) ->
  totals_loop cols rows totals closing_total
  = match column_sums cols rows with
    | Some sums =>
        Ret (totals ++ map PNum sums, fold_left nadd sums closing_total)
    | None => Raise ValueError
    end.
Proof.
  revert totals closing_total.
  induction cols as [| col cols IH]; intros totals ct H; simpl.
  - now rewrite app_nil_r.
  - unfold col_sum.
    rewrite col_sum_from_spec by (intros r Hr; apply H; [exact Hr | now left]).
    destruct (column_values col rows) as [vs |]; [| reflexivity].
    rewrite IH by (intros r c Hr Hc; apply H; [exact Hr | now right]).
    destruct (column_sums cols rows) as [sums |]; [| reflexivity].
    simpl. now rewrite <- app_assoc.
Qed.

Lemma column_values_Some (col : nat) (rows : grid) :
  (forall r, In r rows -> cell_value (nth col r "") <> None) ->
  exists vs, column_values col rows = Some vs.
Proof.
  induction rows as [| r rows IH]; intros H; simpl; [now exists [] |].
  destruct (cell_value (nth col r "")) as [v |] eqn:E.
  - destruct IH as (vs & ->); [intros; apply H; now right |].
    now exists (v :: vs).
  - exfalso. apply (H r); [now left | exact E].
Qed.

Lemma column_values_None (col : nat) (rows : grid) (r : row) :
  In r rows -> cell_value (nth col r "") = None ->
  column_values col rows = None.
Proof.
  induction rows as [| x rows IH]; simpl; [tauto |].
  intros [-> | H] E.
  - now rewrite E.
  - rewrite (IH H E). now destruct (cell_value (nth col x "")).
Qed.

Lemma column_sums_Some (cols : list nat) (rows : grid) :
  (forall r col, In r rows -> In col cols ->
     cell_value (nth col r "") <> None) ->
  exists sums, column_sums cols rows = Some sums.
Proof.
  induction cols as [| col cols IH]; intros H; simpl; [now exists [] |].
  destruct (column_values_Some col rows) as (vs & ->).
  { intros r Hr. apply H; [exact Hr | now left]. }
  destruct IH as (sums & ->).
  { intros r c Hr Hc. apply H; [exact Hr | now right]. }
  now exists (py_sum vs :: sums).
Qed.

Lemma column_sums_None (cols : list nat) (rows : grid) (r : row) (col : nat) :
  In r rows -> In col cols -> cell_value (nth col r "") = None ->
  column_sums cols rows = None.
Proof.
  induction cols as [| c cols IH]; simpl; [tauto |].
  intros Hr [-> | Hc] E.
  - now rewrite (column_values_None col rows r Hr E).
  - rewrite (IH Hr Hc E). now destruct (column_values c rows).
Qed.

Lemma column_sums_length (cols : list nat) (rows : grid) (sums : list num) :
  column_sums cols rows = Some sums -> length sums = length cols.
Proof.
  revert sums. induction cols as [| c cols IH]; intros sums; simpl.
  - now intros [= <-].
  - destruct (column_values c rows); [| discriminate].
    destruct (column_sums cols rows) as [ss |]; [| discriminate].
    intros [= <-]. simpl. f_equal. now apply IH.
Qed.

(** The [k]-th sum is the sum of the values of the [k]-th column. *)
Lemma column_sums_nth (cols : list nat) (rows : grid) (sums : list num)
    (k col : nat) :
  column_sums cols rows = Some sums -> nth_error cols k = Some col ->
  exists vs, column_values col rows = Some vs
             /\ nth_error sums k = Some (py_sum vs).
Proof.
  revert sums k. induction cols as [| c cols IH]; intros sums k; simpl.
  - intros _ H. now destruct k.
  - destruct (column_values c rows) as [vs |] eqn:V; [| discriminate].
    destruct (column_sums cols rows) as [ss |]; [| discriminate].
    intros [= <-]. destruct k as [| k]; simpl.
    + intros [= <-]. now exists vs.
    + intros H. now apply IH.
Qed.

End Sums.

(* ===================================================================== *)
(** * The operations on a sheet that can be reached *)
(* ===================================================================== *)

Lemma In_removelast {A} (l : list A) (x : A) : In x (removelast l) -> In x l.
Proof.
  destruct l as [| a l]; [tauto |]. intros H.
  rewrite (app_removelast_last a (l := a :: l)) by discriminate.
  apply in_or_app. now left.
Qed.

Lemma transaction_rows_incl (g : grid) (r : row) :
  In r (transaction_rows g) -> In r (data_rows g).
Proof.
  unfold transaction_rows.
  destruct (is_total_row (last (data_rows g) []));
    [apply In_removelast | tauto].
Qed.

Lemma site_columns_range (g : grid) (col : nat) :
  In col (site_columns g) <-> 2 <= col < length (header_of g) - 1.
Proof. unfold site_columns, range. rewrite in_seq. lia. Qed.

Lemma transaction_rows_wide (g : grid) (r : row) (col : nat) :
  In r (transaction_rows g) -> In col (site_columns g) -> col < length r.
Proof.
  intros Hr Hc. apply transaction_rows_incl, data_rows_width in Hr.
  apply site_columns_range in Hc. lia.
Qed.

Section Calm.

Context {N : PyFloat}.

Lemma summary_cells_eq (sums : list num) :
  map to_cell (([PStr "TOTAL"; PStr ""] ++ map PNum sums)
               ++ [PNum (fold_left nadd sums nzero)])
  = summary_cells sums.
Proof.
  unfold summary_cells, py_sum. rewrite map_app. simpl.
  now rewrite map_map.
Qed.

Lemma update_total_row_body_calm (g : grid) (c : list log_line) :
  update_total_row_body (calm g c)
  = match column_sums (site_columns g) (transaction_rows g) with
    | Some sums =>
        (Ret tt,
         calm (Sheet.append_row (summary_cells sums) (without_total g)) c)
    | None => (Raise ValueError, calm (without_total g) c)
    end.
Proof.
  cbv [update_total_row_body bind SHEET.row_values SHEET.get_all_values
       SHEET.delete_rows SHEET.append_row remote lift ret calm
       faults sheet console tl].
  fold (data_rows g). fold (header_of g). fold (site_columns g).
  rewrite ends_with_total_data_rows.
  pose proof (transaction_rows_wide g) as W.
  unfold transaction_rows, without_total in *.
  destruct (is_total_row (last (data_rows g) []));
    rewrite totals_loop_spec by (intros r col Hr Hc; now apply W);
    destruct (column_sums _ _) as [sums |]; try reflexivity;
    cbv [fst snd]; now rewrite summary_cells_eq.
Qed.

Lemma update_total_row_calm (g : grid) (c : list log_line) :
  update_total_row (calm g c)
  = (Ret tt,
     match column_sums (site_columns g) (transaction_rows g) with
     | Some sums =>
         calm (Sheet.append_row (summary_cells sums) (without_total g)) c
     | None =>
         calm (without_total g) (c ++ [Error_updating_TOTAL_row ValueError])
     end).
Proof.
  unfold update_total_row, try_except.
  rewrite update_total_row_body_calm.
  now destruct (column_sums _ _).
Qed.

End Calm.

(* ===================================================================== *)
(** * The summary row *)
(* ===================================================================== *)

Section Totals.

Context {N : PyFloat}.

Lemma summary_cells_trim (sums : list num) :
  Sheet.trim_row (summary_cells sums) <> [].
Proof. apply trim_row_cons. discriminate. Qed.

Lemma summary_cells_site (sums : list num) (k : nat) (s : num) :
  nth_error sums k = Some s ->
  nth (2 + k) (summary_cells sums) "" = cell_of_num s.
Proof.
  intros H. unfold summary_cells. simpl.
  assert (K : k < length sums) by (apply nth_error_Some; congruence).
  rewrite app_nth1 by now rewrite length_map.
  apply nth_error_nth. now apply map_nth_error.
Qed.

Lemma summary_cells_closing (sums : list num) :
  nth (2 + length sums) (summary_cells sums) ""
  = cell_of_num (py_sum sums).
Proof.
  unfold summary_cells. simpl.
  rewrite app_nth2 by (rewrite length_map; lia).
  rewrite length_map, Nat.sub_diag. reflexivity.
Qed.

Lemma site_columns_nth (g : grid) (k col : nat) :
  nth_error (site_columns g) k = Some col -> col = 2 + k.
Proof.
  unfold site_columns, range. intros H.
  assert (K : k < length (seq 2 (length (header_of g) - 1 - 2)))
    by (apply nth_error_Some; congruence).
  rewrite length_seq in K.
  apply (nth_error_nth _ _ 0) in H. now rewrite seq_nth in H.
Qed.

Lemma site_columns_closing (g : grid) :
  3 <= length (header_of g) ->
  2 + length (site_columns g) = length (header_of g) - 1.
Proof. unfold site_columns, range. rewrite length_seq. lia. Qed.

(** The summary row after a recomputation that goes through, on a calm
    world. *)
Lemma calm_total_row_sums (g : grid) (c : list log_line)
    (w' : world) :
  update_total_row_body (calm g c) = (Ret tt, w') ->
  let t := last (Sheet.values_get (sheet w')) [] in
  nth 0 t "" = "TOTAL"
  /\ (forall col, In col (site_columns g) ->
        exists vs, column_values col (transaction_rows g) = Some vs
                   /\ nth col t "" = cell_of_num (py_sum vs))
  /\ (exists sums,
        column_sums (site_columns g) (transaction_rows g) = Some sums
        /\ nth (2 + length (site_columns g)) t "" = cell_of_num (py_sum sums))
  /\ (3 <= length (header_of g) ->
        2 + length (site_columns g) = length (header_of g) - 1).
Proof.
  rewrite update_total_row_body_calm.
  destruct (column_sums (site_columns g) (transaction_rows g))
    as [sums |] eqn:S; [| discriminate].
  intros [= <-]. cbv zeta. unfold calm, sheet.
  rewrite values_get_append by apply summary_cells_trim.
  rewrite last_last. repeat split.
  - now rewrite trim_row_nth.
  - intros col Hc. apply In_nth_error in Hc. destruct Hc as (k & Hk).
    destruct (column_sums_nth _ _ _ _ _ S Hk) as (vs & V & E).
    exists vs. split; [exact V |].
    rewrite trim_row_nth, (site_columns_nth g k col Hk).
    now apply summary_cells_site.
  - exists sums. split; [reflexivity |].
    rewrite trim_row_nth, <- (column_sums_length _ _ _ S).
    apply summary_cells_closing.
  - apply site_columns_closing.
Qed.

(** Blank cells, numbers and text in the site columns, on a calm
    world. *)
Lemma calm_blank_zero_text_aborts (g : grid) (c : list log_line) :
  cell_value "" = Some nzero
  /\ (sites_numeric g ->
        total_row_appended (calm g c)
        /\ exists sums,
             column_sums (site_columns g) (transaction_rows g) = Some sums
             /\ update_total_row (calm g c)
                = (Ret tt,
                   calm (Sheet.append_row (summary_cells sums)
                           (without_total g)) c))
  /\ (forall r col,
        In r (transaction_rows g) -> In col (site_columns g) ->
        cell_value (nth col r "") = None ->
        ~ total_row_appended (calm g c)
        /\ update_total_row (calm g c)
           = (Ret tt,
              calm (without_total g)
                (c ++ [Error_updating_TOTAL_row ValueError]))).
Proof.
  split; [reflexivity |]. split.
  - intros H. destruct (column_sums_Some (site_columns g) (transaction_rows g))
      as (sums & S); [exact H |].
    assert (E := update_total_row_calm g c). rewrite S in E.
    split; [| now exists sums].
    unfold total_row_appended. rewrite E. cbv zeta. unfold snd, calm, sheet.
    split; [| reflexivity].
    rewrite values_get_append by apply summary_cells_trim.
    rewrite last_last. now rewrite is_total_row_trim.
  - intros r col Hr Hc V.
    assert (E := update_total_row_calm g c).
    rewrite (column_sums_None _ _ r col Hr Hc V) in E.
    split; [| exact E].
    unfold total_row_appended. rewrite E. cbv zeta. unfold snd.
    intros [_ C]. unfold calm, console in C.
    apply (f_equal (@length _)) in C. rewrite length_app in C.
    simpl in C. lia.
Qed.

End Totals.

(* ===================================================================== *)
(** * The rows under the header *)
(* ===================================================================== *)

Lemma values_get_cons (g : grid) :
  header_of g <> [] -> Sheet.values_get g = header_of g :: stored_rows g.
Proof.
  rewrite header_of_values_get. unfold stored_rows.
  destruct (Sheet.values_get g); [now intros [] | reflexivity].
Qed.

Lemma data_rows_stored (g : grid) :
  data_rows g
  = map (Sheet.rightpad (Sheet.max_cols (Sheet.values_get g)))
        (stored_rows g).
Proof. apply data_rows_eq. Qed.

Lemma removelast_map {A B} (f : A -> B) (l : list A) :
  removelast (map f l) = map f (removelast l).
Proof.
  induction l as [| a [| b l] IH]; try reflexivity.
  change (f a :: removelast (map f (b :: l))
          = f a :: map f (removelast (b :: l))).
  now rewrite IH.
Qed.

Lemma last_map {A B} (f : A -> B) (l : list A) (d : A) (d' : B) :
  l <> [] -> last (map f l) d' = f (last l d).
Proof.
  induction l as [| a [| b l] IH]; intros H; [congruence | reflexivity |].
  change (last (map f (b :: l)) d' = f (last (b :: l) d)).
  apply IH. discriminate.
Qed.

Lemma is_total_row_last_pad (n : nat) (l : grid) :
  is_total_row (last (map (Sheet.rightpad n) l) [])
  = is_total_row (last l []).
Proof.
  destruct l as [| a l]; [reflexivity |].
  rewrite (@last_map row row (Sheet.rightpad n) (a :: l) [] [])
    by discriminate.
  apply is_total_row_rightpad.
Qed.

Lemma is_total_last_data (g : grid) :
  is_total_row (last (data_rows g) [])
  = is_total_row (last (stored_rows g) []).
Proof. rewrite data_rows_stored. apply is_total_row_last_pad. Qed.

Lemma data_rows_count (g : grid) :
  length (data_rows g) = length (stored_rows g).
Proof. rewrite data_rows_stored. apply length_map. Qed.

Lemma filter_total_pad (n : nat) (l : grid) :
  filter is_total_row (map (Sheet.rightpad n) l)
  = map (Sheet.rightpad n) (filter is_total_row l).
Proof.
  induction l as [| a l IH]; simpl; [reflexivity |].
  rewrite is_total_row_rightpad, IH. now destruct (is_total_row a).
Qed.

Lemma last_total_nonempty (l : grid) :
  is_total_row (last l []) = true -> l <> [].
Proof. now destruct l. Qed.

Lemma values_get_without_total (g : grid) :
  header_of g <> [] ->
  Sheet.values_get (without_total g) = header_of g :: kept_rows g.
Proof.
  intros H. unfold without_total, kept_rows.
  rewrite is_total_last_data.
  destruct (is_total_row (last (stored_rows g) [])) eqn:T.
  - apply last_total_nonempty in T.
    rewrite data_rows_count.
    replace (length (stored_rows g) + 1) with (length (Sheet.values_get g))
      by (rewrite (values_get_cons g H); simpl; lia).
    rewrite values_get_delete_last
      by (rewrite (values_get_cons g H); simpl; lia).
    rewrite (values_get_cons g H).
    destruct (stored_rows g) as [| a l] eqn:S; [congruence |].
    change (removelast (header_of g :: a :: l))
      with (header_of g :: removelast (a :: l)).
    unfold Sheet.trim_rows. apply rtrim_cons. right.
    now apply blank_row_false.
  - now apply values_get_cons.
Qed.

Lemma values_get_appended (g : grid) (v : row) :
  header_of g <> [] -> Sheet.trim_row v <> [] ->
  Sheet.values_get (Sheet.append_row v (without_total g))
  = header_of g :: kept_rows g ++ [Sheet.trim_row v].
Proof.
  intros H Hv. rewrite values_get_append by exact Hv.
  now rewrite values_get_without_total.
Qed.

Lemma header_of_cons (g : grid) (h : row) (l : grid) :
  Sheet.values_get g = h :: l -> header_of g = h.
Proof. intros E. now rewrite header_of_values_get, E. Qed.

Lemma stored_rows_cons (g : grid) (h : row) (l : grid) :
  Sheet.values_get g = h :: l -> stored_rows g = l.
Proof. intros E. unfold stored_rows. now rewrite E. Qed.

(** The rows of a sheet above a summary row at the bottom are what is
    kept when that row is deleted, up to blank rows. *)
Lemma kept_rows_incl (g : grid) (d : row) :
  In d (kept_rows g) ->
  In d (if is_total_row (last (stored_rows g) [])
        then removelast (stored_rows g) else stored_rows g).
Proof.
  unfold kept_rows.
  destruct (is_total_row (last (stored_rows g) [])); [| tauto].
  apply rtrim_In.
Qed.

Lemma transaction_rows_stored (g : grid) :
  transaction_rows g
  = map (Sheet.rightpad (Sheet.max_cols (Sheet.values_get g)))
        (if is_total_row (last (stored_rows g) [])
         then removelast (stored_rows g) else stored_rows g).
Proof.
  unfold transaction_rows. rewrite is_total_last_data.
  rewrite data_rows_stored.
  destruct (is_total_row (last (stored_rows g) [])); [| reflexivity].
  apply removelast_map.
Qed.

(* ===================================================================== *)
(** * Adding a transaction *)
(* ===================================================================== *)

Section AddTransaction.

Context {N : PyFloat}.

Lemma bind_remote_calm {A B} (read : grid -> A) (write : grid -> grid)
    (k : A -> M B) (g : grid) (c : list log_line) :
  bind (remote read write) k (calm g c) = k (read g) (calm (write g) c).
Proof. reflexivity. Qed.

Lemma bind_lift_Ret {A B} (a : A) (k : A -> M B) (w : world) :
  bind (lift (Ret a)) k w = k a w.
Proof. reflexivity. Qed.

Lemma setitem_ok {A} (l : list A) (i : nat) (v : A) :
  i < length l -> setitem l i v = Ret (firstn i l ++ v :: skipn (S i) l).
Proof.
  intros H. unfold setitem. apply Nat.ltb_lt in H. now rewrite H.
Qed.

Lemma add_transaction_calm (g : grid) (c : list log_line)
    (date site description amount_text : string) (amount : num) (j : nat) :
  site_selected site = true ->
  date_parses date = true ->
  float (PyStr.strip amount_text) = Some amount ->
  PyStr.index (PyStr.strip site) (header_of g) = Some j ->
  add_transaction date site description amount_text (calm g c)
  = (Ret (Transaction_added (PyStr.strip date) (PyStr.strip site)
            (PyStr.strip description) amount),
     snd (update_total_row
            (calm (Sheet.append_row
                     (transaction_cells (length (header_of g))
                        (PyStr.strip date) (PyStr.strip description) j
                        amount (running_balance g amount))
                     (without_total g)) c))).
Proof.
  intros Hs Hd Ha Hj. unfold add_transaction.
  unfold site_selected in Hs. apply negb_true_iff in Hs. rewrite Hs.
  unfold date_parses in Hd.
  destruct (Strptime.strptime_ymd (PyStr.strip date)); [| discriminate Hd].
  rewrite Ha. unfold try_except.
  unfold SHEET.row_values at 1. rewrite bind_remote_calm.
  fold (header_of g).
  destruct (index_Some_nth _ _ _ Hj) as (Hlt & Hn & _).
  assert (Hm : PyStr.mem (PyStr.strip site) (header_of g) = true).
  { apply mem_In. rewrite <- Hn. now apply nth_In. }
  rewrite Hm. cbv [negb]. unfold py_index. rewrite Hj.
  rewrite bind_lift_Ret.
  unfold SHEET.get_all_values at 1. rewrite bind_remote_calm.
  fold (data_rows g). rewrite Nat.add_sub.
  rewrite setitem_ok
    by (rewrite !length_app, repeat_length; simpl; lia).
  rewrite bind_lift_Ret, ends_with_total_data_rows, bind_lift_Ret.
  assert (E : (if is_total_row (last (data_rows g) [])
               then SHEET.delete_rows (length (data_rows g) + 1)
               else ret tt) (calm g c)
              = (Ret tt, calm (without_total g) c)).
  { unfold without_total.
    now destruct (is_total_row (last (data_rows g) [])). }
  unfold bind at 1. rewrite E.
  unfold SHEET.append_row. rewrite bind_remote_calm.
  unfold transaction_cells, running_balance. cbv zeta.
  set (w2 := calm (Sheet.append_row _ (without_total g)) c).
  destruct (update_total_row_never_raises w2) as (w3 & U).
  unfold bind. rewrite U. reflexivity.
Qed.

Lemma nth_update {A} (l : list A) (j : nat) (v d : A) (k : nat) :
  j < length l ->
  nth k (firstn j l ++ v :: skipn (S j) l) d
  = if k =? j then v else nth k l d.
Proof.
  intros H.
  assert (F : length (firstn j l) = j) by (rewrite length_firstn; lia).
  destruct (Nat.eqb_spec k j) as [-> | Hne].
  - rewrite app_nth2 by lia. now rewrite F, Nat.sub_diag.
  - destruct (Nat.lt_ge_cases k j) as [Hk | Hk].
    + rewrite app_nth1 by lia.
      rewrite <- (firstn_skipn j l) at 2. now rewrite app_nth1 by lia.
    + rewrite app_nth2 by lia. rewrite F.
      destruct (k - j) as [| m] eqn:K; [lia |].
      change (nth (S m) (v :: skipn (S j) l) d)
        with (nth m (skipn (S j) l) d).
      rewrite nth_skipn. f_equal. lia.
Qed.

Lemma nth_to_cell (l : list pyval) (k : nat) :
  nth k (map to_cell l) "" = to_cell (nth k l (PStr "")).
Proof. exact (map_nth to_cell l (PStr "") k). Qed.

Lemma transaction_cells_nth (n : nat) (date description : string)
    (j : nat) (amount balance : num) (k : nat) :
  j < n ->
  nth k (transaction_cells n date description j amount balance) ""
  = if k =? j then cell_of_num amount
    else nth k (date :: description :: repeat "" (n - 2)
                  ++ [cell_of_num balance]) "".
Proof.
  intros H. unfold transaction_cells. cbv zeta.
  rewrite nth_to_cell.
  rewrite nth_update
    by (rewrite !length_app, repeat_length; simpl; lia).
  destruct (k =? j); [reflexivity |].
  rewrite <- nth_to_cell.
  f_equal. simpl. now rewrite map_app, map_repeat.
Qed.

Lemma transaction_cells_site (n : nat) (date description : string)
    (j : nat) (amount balance : num) (col : nat) :
  j < n -> 2 <= col < n - 1 ->
  nth col (transaction_cells n date description j amount balance) ""
  = if col =? j then cell_of_num amount else "".
Proof.
  intros H Hc. rewrite transaction_cells_nth by exact H.
  destruct (col =? j); [reflexivity |].
  destruct col as [| [| col]]; [lia | lia |]. simpl.
  rewrite app_nth1 by (rewrite repeat_length; lia).
  apply nth_repeat.
Qed.

Lemma join_chars (s : string) : PyStr.join (PyStr.chars s) = s.
Proof.
  induction s as [| c s IH]; [reflexivity |]. simpl.
  destruct (PyStr.starts_continuation s).
  - destruct (PyStr.chars s) as [| ch rest]; simpl in *;
      now rewrite <- IH.
  - simpl. now rewrite IH.
Qed.

Lemma digit_head (ch : string) :
  PyStr.digit ch <> None ->
  exists a rest, ch = String a rest /\ PyStr.upper_char a <> "T"%char.
Proof.
  destruct ch as [| a rest]; intros H; [now destruct H |].
  exists a, rest. split; [reflexivity |]. intros E.
  apply upper_char_T in E. apply H.
  destruct E as [-> | ->];
    destruct rest as [| b [| c [| d [| e r]]]]; reflexivity.
Qed.

Lemma date_first_digit (date : string) :
  date_parses date = true ->
  exists a rest, PyStr.strip date = String a rest
                 /\ PyStr.upper_char a <> "T"%char.
Proof.
  unfold date_parses, Strptime.strptime_ymd.
  pose proof (join_chars (PyStr.strip date)) as J.
  destruct (PyStr.chars (PyStr.strip date))
    as [| y1 [| y2 [| y3 [| y4 [| y5 l]]]]]; try discriminate.
  destruct (PyStr.digit y1) eqn:D; [| discriminate].
  intros _. destruct (digit_head y1) as (a & r & -> & U); [congruence |].
  exists a. eexists. split; [| exact U]. rewrite <- J. reflexivity.
Qed.

Lemma date_not_total (date : string) :
  date_parses date = true ->
  PyStr.strip date <> "" /\ PyStr.upper (PyStr.strip date) <> "TOTAL".
Proof.
  intros H. destruct (date_first_digit date H) as (a & rest & -> & U).
  split; [discriminate |]. simpl. intros [= E _]. now apply U.
Qed.

Lemma filter_nil_iff {A} (f : A -> bool) (l : list A) :
  filter f l = [] <-> forall x, In x l -> f x = false.
Proof.
  induction l as [| a l IH]; simpl; [tauto |].
  destruct (f a) eqn:E.
  - split; [discriminate |]. intros H. rewrite (H a) in E by now left.
    discriminate E.
  - rewrite IH. split.
    + intros H x [<- | Hx]; [exact E | now apply H].
    + intros H x Hx. apply H. now right.
Qed.

Lemma kept_rows_not_total (g : grid) (d : row) :
  no_inner_total g -> In d (kept_rows g) -> is_total_row d = false.
Proof.
  unfold no_inner_total. rewrite data_rows_stored, removelast_map.
  rewrite filter_total_pad. intros H Hd.
  apply map_eq_nil in H. rewrite filter_nil_iff in H.
  apply kept_rows_incl in Hd.
  destruct (is_total_row (last (stored_rows g) [])) eqn:T.
  - now apply H.
  - destruct (stored_rows g) as [| a l] eqn:S; [destruct Hd |].
    rewrite (app_removelast_last [] (l := a :: l)) in Hd by discriminate.
    apply in_app_or in Hd. destruct Hd as [Hd | [<- | []]].
    + now apply H.
    + exact T.
Qed.

Lemma kept_rows_numeric (g : grid) (d : row) (col : nat) :
  sites_numeric g -> In d (kept_rows g) -> In col (site_columns g) ->
  cell_value (nth col d "") <> None.
Proof.
  intros H Hd Hc. apply kept_rows_incl in Hd.
  rewrite <- (rightpad_nth (Sheet.max_cols (Sheet.values_get g))).
  apply H; [| exact Hc].
  rewrite transaction_rows_stored. now apply in_map.
Qed.

(** The sheet once the row of a transaction has been appended. *)
Lemma appended_view (g : grid) (v : row) :
  header_of g <> [] -> Sheet.trim_row v <> [] -> is_total_row v = false ->
  let g2 := Sheet.append_row v (without_total g) in
  header_of g2 = header_of g
  /\ stored_rows g2 = kept_rows g ++ [Sheet.trim_row v]
  /\ without_total g2 = g2
  /\ transaction_rows g2
     = map (Sheet.rightpad (Sheet.max_cols (Sheet.values_get g2)))
           (kept_rows g ++ [Sheet.trim_row v]).
Proof.
  intros H Hv T g2.
  assert (E := values_get_appended g v H Hv). fold g2 in E.
  assert (E1 := header_of_cons g2 _ _ E).
  assert (E2 := stored_rows_cons g2 _ _ E).
  assert (T2 : is_total_row (last (stored_rows g2) []) = false).
  { rewrite E2, last_last. now rewrite is_total_row_trim. }
  repeat split; trivial.
  - unfold without_total. now rewrite is_total_last_data, T2.
  - rewrite transaction_rows_stored, T2. now rewrite E2.
Qed.

Section Lawful.

Context {L : PyFloatLaws N}.

Lemma cell_of_num_not_blank (x : num) : cell_of_num x <> "".
Proof.
  intros E. apply (float_cell_of_num x). rewrite E. apply float_blank.
Qed.

Lemma cell_of_num_not_total (x : num) :
  PyStr.upper (cell_of_num x) <> "TOTAL".
Proof.
  intros E. apply (float_cell_of_num x). now apply float_total.
Qed.

Lemma cell_value_cell_of_num (x : num) : cell_value (cell_of_num x) <> None.
Proof.
  unfold cell_value. destruct (String.eqb _ ""); [discriminate |].
  apply float_cell_of_num.
Qed.

Lemma transaction_cells_first (n : nat) (date description : string)
    (j : nat) (amount balance : num) :
  j < n -> date_parses date = true ->
  let first := nth 0 (transaction_cells n (PyStr.strip date) description
                        j amount balance) "" in
  first <> "" /\ PyStr.upper first <> "TOTAL".
Proof.
  intros H D. cbv zeta. rewrite transaction_cells_nth by exact H.
  destruct (0 =? j).
  - split; [apply cell_of_num_not_blank | apply cell_of_num_not_total].
  - simpl. now apply date_not_total.
Qed.

Lemma transaction_cells_trim (n : nat) (date description : string)
    (j : nat) (amount balance : num) :
  j < n -> date_parses date = true ->
  Sheet.trim_row (transaction_cells n (PyStr.strip date) description
                    j amount balance) <> [].
Proof.
  intros H D E.
  destruct (transaction_cells_first n date description j amount balance H D)
    as [B _].
  apply B. rewrite <- trim_row_nth, E. reflexivity.
Qed.

Lemma transaction_cells_not_total (n : nat) (date description : string)
    (j : nat) (amount balance : num) :
  j < n -> date_parses date = true ->
  is_total_row (transaction_cells n (PyStr.strip date) description
                  j amount balance) = false.
Proof.
  intros H D. rewrite is_total_row_nth. apply String.eqb_neq.
  now apply transaction_cells_first.
Qed.

Lemma transaction_cells_value (n : nat) (date description : string)
    (j : nat) (amount balance : num) (col : nat) :
  j < n -> 2 <= col < n - 1 ->
  cell_value (nth col (transaction_cells n date description j amount balance)
                "") <> None.
Proof.
  intros H Hc. rewrite transaction_cells_site by assumption.
  destruct (col =? j); [apply cell_value_cell_of_num | discriminate].
Qed.

(** The sheet [add_transaction] leaves for a valid input whose site is
    the header cell at position [j]: the summary row at the bottom, if
    any, is gone, the row of the transaction is appended, and the
    recomputer has run on the result. *)
Lemma add_transaction_sheet (g : grid) (c : list log_line)
    (date site description amount_text : string) (amount : num) (j : nat) :
  site_selected site = true ->
  date_parses date = true ->
  float (PyStr.strip amount_text) = Some amount ->
  PyStr.index (PyStr.strip site) (header_of g) = Some j ->
  let cells := transaction_cells (length (header_of g)) (PyStr.strip date)
                 (PyStr.strip description) j amount
                 (running_balance g amount) in
  let g2 := Sheet.append_row cells (without_total g) in
  add_transaction date site description amount_text (calm g c)
  = (Ret (Transaction_added (PyStr.strip date) (PyStr.strip site)
            (PyStr.strip description) amount),
     match column_sums (site_columns g) (transaction_rows g2) with
     | Some sums => calm (Sheet.append_row (summary_cells sums) g2) c
     | None => calm g2 (c ++ [Error_updating_TOTAL_row ValueError])
     end)
  /\ Sheet.values_get g2
     = header_of g :: kept_rows g ++ [Sheet.trim_row cells].
Proof.
  intros Hs Hd Ha Hj cells g2.
  destruct (index_Some_nth _ _ _ Hj) as (Hlt & _ & _).
  assert (Hh : header_of g <> [])
    by (destruct (header_of g); simpl in *; [lia | discriminate]).
  assert (Hv : Sheet.trim_row cells <> [])
    by now apply transaction_cells_trim.
  assert (Ht : is_total_row cells = false)
    by now apply transaction_cells_not_total.
  destruct (appended_view g cells Hh Hv Ht) as (E1 & E2 & E3 & E4).
  fold g2 in E1, E2, E3, E4.
  split; [| now apply values_get_appended].
  rewrite (add_transaction_calm g c date site description amount_text
             amount j Hs Hd Ha Hj).
  fold cells. fold g2. rewrite update_total_row_calm.
  unfold site_columns at 1. rewrite E1. fold (site_columns g).
  rewrite E3. reflexivity.
Qed.

(** A transaction on any header cell, on a calm world. *)
Lemma calm_any_header_cell (g : grid)
    (c : list log_line) (date site description amount_text : string)
    (amount : num) (j : nat) :
  site_selected site = true ->
  date_parses date = true ->
  float (PyStr.strip amount_text) = Some amount ->
  PyStr.index (PyStr.strip site) (header_of g) = Some j ->
  let out := add_transaction date site description amount_text (calm g c) in
  let cells := transaction_cells (length (header_of g)) (PyStr.strip date)
                 (PyStr.strip description) j amount
                 (running_balance g amount) in
  fst out = Ret (Transaction_added (PyStr.strip date) (PyStr.strip site)
                   (PyStr.strip description) amount)
  /\ In (Sheet.trim_row cells) (Sheet.values_get (sheet (snd out)))
  /\ nth j cells "" = cell_of_num amount
  /\ forall k, k <> j ->
       nth k cells ""
       = nth k (PyStr.strip date :: PyStr.strip description
                  :: repeat "" (length (header_of g) - 2)
                  ++ [cell_of_num (running_balance g amount)]) "".
Proof.
  intros Hs Hd Ha Hj out cells.
  destruct (index_Some_nth _ _ _ Hj) as (Hlt & _ & _).
  destruct (add_transaction_sheet g c date site description amount_text
              amount j Hs Hd Ha Hj) as (E & V).
  fold cells in E, V. unfold out. rewrite E. cbv [fst snd].
  split; [reflexivity |]. split; [| split].
  - destruct (column_sums _ _); unfold calm, sheet.
    + rewrite values_get_append by apply summary_cells_trim.
      rewrite V. apply in_or_app. left. right.
      apply in_or_app. right. now left.
    + rewrite V. right. apply in_or_app. right. now left.
  - unfold cells. rewrite transaction_cells_nth by exact Hlt.
    now rewrite Nat.eqb_refl.
  - intros k Hk. unfold cells. rewrite transaction_cells_nth by exact Hlt.
    apply Nat.eqb_neq in Hk. now rewrite Hk.
Qed.

(** The summary row after a transaction, on a calm world. *)
Lemma calm_one_total_row (g : grid) (c : list log_line)
    (date site description amount_text : string) (amount : num) :
  site_selected site = true ->
  date_parses date = true ->
  float (PyStr.strip amount_text) = Some amount ->
  In (PyStr.strip site) (header_of g) ->
  no_inner_total g ->
  sites_numeric g ->
  let out := add_transaction date site description amount_text (calm g c) in
  fst out = Ret (Transaction_added (PyStr.strip date) (PyStr.strip site)
                   (PyStr.strip description) amount)
  /\ one_total_row_last (sheet (snd out))
  /\ console (snd out) = c.
Proof.
  intros Hs Hd Ha Hin Hno Hnum out.
  destruct (index_In _ _ Hin) as (j & Hj).
  destruct (index_Some_nth _ _ _ Hj) as (Hlt & _ & _).
  destruct (add_transaction_sheet g c date site description amount_text
              amount j Hs Hd Ha Hj) as (E & V).
  set (cells := transaction_cells _ _ _ _ _ _) in *.
  set (g2 := Sheet.append_row cells (without_total g)) in *.
  assert (Hh : header_of g <> [])
    by (destruct (header_of g); simpl in *; [lia | discriminate]).
  assert (Hv : Sheet.trim_row cells <> [])
    by now apply transaction_cells_trim.
  assert (Ht : is_total_row cells = false)
    by now apply transaction_cells_not_total.
  destruct (appended_view g cells Hh Hv Ht) as (_ & _ & _ & E4).
  fold g2 in E4.
  destruct (column_sums_Some (site_columns g) (transaction_rows g2))
    as (sums & S).
  { intros r col Hr Hc. rewrite E4 in Hr. apply in_map_iff in Hr.
    destruct Hr as (d & <- & Hd'). rewrite rightpad_nth.
    apply in_app_or in Hd'. destruct Hd' as [Hd' | [<- | []]].
    - now apply (kept_rows_numeric g).
    - rewrite trim_row_nth. apply transaction_cells_value; [exact Hlt |].
      now apply site_columns_range. }
  unfold out. rewrite E, S. cbv [fst snd]. unfold calm, sheet, console.
  split; [reflexivity |].
  assert (V3 : Sheet.values_get (Sheet.append_row (summary_cells sums) g2)
               = header_of g
                   :: (kept_rows g ++ [Sheet.trim_row cells])
                   ++ [Sheet.trim_row (summary_cells sums)]).
  { rewrite values_get_append by apply summary_cells_trim.
    rewrite V. reflexivity. }
  assert (S3 := stored_rows_cons _ _ _ V3).
  split; [split |]; [| | reflexivity].
  - unfold total_rows. rewrite data_rows_stored, S3, filter_total_pad.
    rewrite length_map, !filter_app.
    replace (filter is_total_row (kept_rows g)) with (@nil row).
    + simpl. rewrite !is_total_row_trim, Ht. reflexivity.
    + symmetry. apply filter_nil_iff. intros d Hd'.
      now apply (kept_rows_not_total g).
  - rewrite is_total_last_data, S3, last_last.
    now rewrite is_total_row_trim.
Qed.

End Lawful.

End AddTransaction.

(* ===================================================================== *)
(** * Adding a site *)
(* ===================================================================== *)

Lemma nth_map_seq {A} (f : nat -> A) (n i : nat) (d : A) :
  i < n -> nth i (map f (seq 0 n)) d = f i.
Proof.
  intros H. rewrite (nth_indep _ d (f 0)) by now rewrite length_map, length_seq.
  rewrite map_nth. now rewrite seq_nth.
Qed.

Lemma insert_cells_nth (k : nat) (v : string) (r : row) (j : nat) :
  nth j (Sheet.insert_cells k [v] r) ""
  = if j <? k then nth j r ""
    else if j =? k then v else nth (j - 1) r "".
Proof.
  unfold Sheet.insert_cells.
  assert (F : length (firstn k (Sheet.rightpad k r)) = k).
  { apply firstn_length_le. unfold Sheet.rightpad.
    rewrite length_app, repeat_length. lia. }
  destruct (Nat.ltb_spec j k) as [H | H].
  - rewrite app_nth1 by lia. rewrite nth_firstn.
    apply Nat.ltb_lt in H. rewrite H. apply rightpad_nth.
  - rewrite app_nth2 by lia. rewrite F.
    destruct (Nat.eqb_spec j k) as [-> | Hne].
    + now rewrite Nat.sub_diag.
    + destruct (j - k) as [| m] eqn:E; [lia |].
      change (nth (S m) ([v] ++ skipn k r) "") with (nth m (skipn k r) "").
      rewrite nth_skipn. f_equal. lia.
Qed.

(** A column put in at position [k]: the cells to its left stay, the
    cells from [k] on move one place right, and the new column holds the
    given values, blank below them. *)
Lemma insert_cols_cell (g : grid) (vs : list string) (k i j : nat) :
  cell (Sheet.insert_cols [vs] (k + 1) g) i j
  = if j <? k then cell g i j
    else if j =? k then nth i vs "" else cell g i (j - 1).
Proof.
  unfold cell, Sheet.insert_cols. rewrite Nat.add_sub.
  set (n := Nat.max (length g) (Sheet.max_cols [vs])).
  assert (Hn : n = Nat.max (length g) (length vs))
    by (unfold n; simpl; lia).
  destruct (Nat.lt_ge_cases i n) as [H | H].
  - rewrite nth_map_seq by exact H. simpl map. apply insert_cells_nth.
  - rewrite (nth_overflow (map _ _))
      by now rewrite length_map, length_seq.
    rewrite (nth_overflow g) by lia. rewrite (nth_overflow vs) by lia.
    assert (Z : forall m, nth m (@nil string) "" = "") by now intros [| m].
    rewrite !Z. destruct (j <? k); [reflexivity |].
    now destruct (j =? k).
Qed.

Lemma rtrim_id {A} (blank : A -> bool) (l : list A) (d : A) :
  l <> [] -> blank (last l d) = false -> Sheet.rtrim blank l = l.
Proof.
  intros H B. rewrite (app_removelast_last d H).
  apply rtrim_snoc. exact B.
Qed.

Lemma last_app_r {A} (l m : list A) (d : A) :
  m <> [] -> last (l ++ m) d = last m d.
Proof.
  intros H. rewrite (app_removelast_last d H), app_assoc.
  now rewrite !last_last.
Qed.

(** The header after a column named [name] was put in at position [k]. *)
Lemma trim_row_insert (r : row) (k : nat) (name : string) :
  k < length (Sheet.trim_row r) ->
  Sheet.trim_row (Sheet.insert_cells k [name] r)
  = header_with k name (Sheet.trim_row r).
Proof.
  intros H. unfold header_with.
  destruct (rtrim_split Sheet.blank_cell r) as (t & E & Ht).
  fold (Sheet.trim_row r) in E. set (h := Sheet.trim_row r) in *.
  assert (Hh : h <> []) by (destruct h; simpl in H; [lia | discriminate]).
  assert (B : Sheet.blank_cell (last h "") = false)
    by (apply rtrim_last; exact Hh).
  unfold Sheet.insert_cells, Sheet.rightpad.
  replace (k - length r) with 0
    by (rewrite E, length_app; lia).
  simpl repeat. rewrite app_nil_r. rewrite E at 1 2.
  rewrite firstn_app, skipn_app.
  replace (k - length h) with 0 by lia.
  rewrite firstn_0, skipn_0, app_nil_r.
  replace (firstn k h ++ [name] ++ skipn k h ++ t)
    with ((firstn k h ++ name :: skipn k h) ++ t)
    by (now rewrite <- app_assoc).
  unfold Sheet.trim_row. rewrite rtrim_app_blank by exact Ht.
  apply (rtrim_id _ _ "").
  - now destruct (firstn k h).
  - assert (S : skipn k h <> []).
    { intros S. apply (f_equal (@length _)) in S.
      rewrite length_skipn in S. simpl in S. lia. }
    rewrite (last_app_r (firstn k h) (name :: skipn k h) "")
      by discriminate.
    change (name :: skipn k h) with ([name] ++ skipn k h).
    rewrite (last_app_r [name] (skipn k h) "" S).
    rewrite <- (firstn_skipn k h) in B.
    now rewrite (last_app_r _ _ "" S) in B.
Qed.

Lemma insert_cols_first (g : grid) (v : string) (vs : list string) (k : nat) :
  header_of (Sheet.insert_cols [v :: vs] (k + 1) g)
  = Sheet.trim_row (Sheet.insert_cells k [v] (nth 0 g [])).
Proof.
  unfold header_of, Sheet.row_values, Sheet.insert_cols.
  rewrite Nat.add_sub. simpl (1 - 1).
  rewrite nth_map_seq by (simpl; lia). reflexivity.
Qed.

Section AddSite.

Context {N : PyFloat}.

Lemma add_site_calm (g : grid) (c : list log_line) (new_site : string)
    (k : nat) :
  PyStr.strip new_site <> "" ->
  ~ In (PyStr.strip new_site) (header_of g) ->
  PyStr.index "Closing Balance" (header_of g) = Some k ->
  let g' := Sheet.insert_cols
              [PyStr.strip new_site :: repeat "" (length g - 1)] (k + 1) g in
  add_site new_site (calm g c)
  = (Ret (Site_added (PyStr.strip new_site),
          Some (slice_2_m1 (header_of g'))),
     calm g' c).
Proof.
  intros Hne Hnot Hk g'. unfold add_site.
  apply String.eqb_neq in Hne. rewrite Hne.
  unfold SHEET.row_values at 1. rewrite bind_remote_calm.
  fold (header_of g).
  assert (Hm : PyStr.mem (PyStr.strip new_site) (header_of g) = false).
  { destruct (PyStr.mem _ _) eqn:E; [| reflexivity].
    apply mem_In in E. contradiction. }
  rewrite Hm. unfold try_except, py_index. rewrite Hk, bind_lift_Ret.
  unfold SHEET.row_count. rewrite bind_remote_calm.
  unfold SHEET.insert_cols. rewrite bind_remote_calm.
  unfold SHEET.row_values. rewrite bind_remote_calm.
  reflexivity.
Qed.

(** The new column of a site, on a calm world. *)
Lemma calm_site_column (g : grid) (c : list log_line)
    (new_site : string) :
  PyStr.strip new_site <> "" ->
  ~ In (PyStr.strip new_site) (header_of g) ->
  In "Closing Balance" (header_of g) ->
  let name := PyStr.strip new_site in
  let out := add_site new_site (calm g c) in
  let g' := sheet (snd out) in
  exists k,
    PyStr.index "Closing Balance" (header_of g) = Some k
    /\ fst out = Ret (Site_added name, Some (slice_2_m1 (header_of g')))
    /\ header_of g' = header_with k name (header_of g)
    /\ nth k (header_of g') "" = name
    /\ nth (k + 1) (header_of g') "" = "Closing Balance"
    /\ (forall i j,
          cell g' i j
          = if j <? k then cell g i j
            else if j =? k then (if i =? 0 then name else "")
            else cell g i (j - 1))
    /\ console (snd out) = c.
Proof.
  intros Hne Hnot Hcb name out g'.
  destruct (index_In _ _ Hcb) as (k & Hk). exists k.
  destruct (index_Some_nth _ _ _ Hk) as (Hlt & Hn & _).
  assert (E := add_site_calm g c new_site k Hne Hnot Hk).
  cbv zeta in E. fold name in E.
  unfold g', out. rewrite E. cbv [fst snd]. unfold calm, sheet, console.
  assert (Hh : header_of (Sheet.insert_cols
                            [name :: repeat "" (length g - 1)] (k + 1) g)
               = header_with k name (header_of g)).
  { rewrite insert_cols_first. now apply trim_row_insert. }
  assert (F : length (firstn k (header_of g)) = k)
    by (apply firstn_length_le; lia).
  repeat split; trivial.
  - rewrite Hh. unfold header_with.
    rewrite app_nth2 by lia. now rewrite F, Nat.sub_diag.
  - rewrite Hh. unfold header_with.
    rewrite app_nth2 by lia. rewrite F.
    replace (k + 1 - k) with 1 by lia.
    change (nth 1 (name :: skipn k (header_of g)) "")
      with (nth 0 (skipn k (header_of g)) "").
    rewrite nth_skipn, Nat.add_0_r. exact Hn.
  - intros i j. rewrite insert_cols_cell.
    destruct (j <? k); [reflexivity |].
    destruct (j =? k); [| reflexivity].
    destruct i as [| i]; [reflexivity |]. simpl. apply nth_repeat.
Qed.

End AddSite.

(* ===================================================================== *)
(** * Schedules without failures *)
(* ===================================================================== *)

(** The lemmas above run the operations in [calm] worlds, whose schedule
    is empty.  A schedule that lists successes only makes no difference:
    the four operations return the same and leave the same sheet and
    console in any two worlds that [agree]. *)

Lemma quiet_tl (g g' : grid) (fs : list (option string))
    (c c' : list log_line) :
  quiet {| sheet := g; faults := fs; console := c |} ->
  quiet {| sheet := g'; faults := tl fs; console := c' |}.
Proof.
  unfold quiet. simpl. intros H. destruct fs; [exact H |].
  now inversion H.
Qed.

Lemma steady_ret {A} (a : A) : steady (ret a).
Proof. intros w1 w2 H. now split. Qed.

Lemma steady_lift {A} (r : res A) : steady (lift r).
Proof. intros w1 w2 H. now split. Qed.

Lemma steady_print (l : log_line) : steady (print l).
Proof.
  intros [g1 f1 c1] [g2 f2 c2] (Hs & Hc & H1 & H2). simpl in *.
  subst. repeat split; assumption.
Qed.

Lemma steady_remote {A} (read : grid -> A) (write : grid -> grid) :
  steady (remote read write).
Proof.
  intros [g1 f1 c1] [g2 f2 c2] (Hs & Hc & H1 & H2). simpl in *. subst.
  unfold remote. simpl.
  destruct f1 as [| [m1 |] f1]; destruct f2 as [| [m2 |] f2];
    try (inversion H1 as [| ? ? E _]; discriminate E);
    try (inversion H2 as [| ? ? E _]; discriminate E);
    repeat split; simpl; trivial;
    try (apply (quiet_tl g2 _ _ c2 c2 H1));
    try (apply (quiet_tl g2 _ _ c2 c2 H2)).
Qed.

Lemma steady_bind {A B} (m : M A) (k : A -> M B) :
  steady m -> (forall a, steady (k a)) -> steady (bind m k).
Proof.
  intros Hm Hk w1 w2 H. unfold bind.
  destruct (Hm w1 w2 H) as (E & Hw).
  destruct (m w1) as [[a1 | e1] w1'], (m w2) as [[a2 | e2] w2'];
    simpl in E, Hw; try discriminate E.
  - injection E as <-. now apply Hk.
  - injection E as <-. split; [reflexivity | exact Hw].
Qed.

Lemma steady_try {A} (m : M A) (h : exn -> M A) :
  steady m -> (forall e, steady (h e)) -> steady (try_except m h).
Proof.
  intros Hm Hh w1 w2 H. unfold try_except.
  destruct (Hm w1 w2 H) as (E & Hw).
  destruct (m w1) as [[a1 | e1] w1'], (m w2) as [[a2 | e2] w2'];
    simpl in E, Hw; try discriminate E.
  - split; [exact E | exact Hw].
  - injection E as <-. now apply Hh.
Qed.

Lemma agree_calm (w : world) :
  quiet w -> agree w (calm (sheet w) (console w)).
Proof. intros H. repeat split; [exact H | constructor]. Qed.

Section Steady.

Context {N : PyFloat}.

Ltac steady_step :=
  first [ apply steady_ret | apply steady_lift | apply steady_print
        | apply steady_remote
        | apply steady_bind; [| intros ?]
        | apply steady_try; [| intros ?] ].

Lemma steady_ensure_header : steady ensure_header.
Proof.
  unfold ensure_header, SHEET.get_all_values, SHEET.insert_row,
    SHEET.update_A1.
  repeat steady_step. destruct a as [| first rest]; [steady_step |].
  destruct (forallb _ first); steady_step.
Qed.

Lemma steady_update_total_row_body : steady update_total_row_body.
Proof.
  unfold update_total_row_body, SHEET.row_values,
    SHEET.get_all_values, SHEET.delete_rows, SHEET.append_row.
  repeat steady_step. destruct a1; repeat steady_step.
Qed.

Lemma steady_update_total_row : steady update_total_row.
Proof.
  unfold update_total_row. steady_step; [| steady_step].
  apply steady_update_total_row_body.
Qed.

Lemma steady_add_site (new_site : string) : steady (add_site new_site).
Proof.
  unfold add_site, SHEET.row_values, SHEET.row_count, SHEET.insert_cols.
  destruct (String.eqb _ ""); [steady_step |].
  steady_step; [steady_step |].
  destruct (PyStr.mem _ a); [steady_step |].
  repeat steady_step. destruct e; steady_step.
Qed.

Lemma steady_add_transaction (date site description amount_text : string) :
  steady (add_transaction date site description amount_text).
Proof.
  unfold add_transaction.
  destruct (_ || _); [steady_step |].
  destruct (Strptime.strptime_ymd _); [| steady_step].
  destruct (float _); [| steady_step].
  unfold SHEET.row_values, SHEET.get_all_values, SHEET.delete_rows,
    SHEET.append_row.
  steady_step; [| steady_step].
  steady_step; [steady_step |].
  destruct (negb _); [steady_step |].
  repeat steady_step;
    match goal with
    | |- steady (if ?b then _ else _) => destruct b
    end; repeat steady_step.
Qed.

(** In a world whose schedule holds no failure, each operation answers
    as in the calm world with the same sheet and console, and leaves the
    same sheet and console. *)
Lemma quiet_as_calm {A} (m : M A) (w : world) :
  steady m -> quiet w ->
  fst (m w) = fst (m (calm (sheet w) (console w)))
  /\ sheet (snd (m w)) = sheet (snd (m (calm (sheet w) (console w))))
  /\ console (snd (m w)) = console (snd (m (calm (sheet w) (console w)))).
Proof.
  intros Hm Hq.
  destruct (Hm w _ (agree_calm w Hq)) as (E & Hs & Hc & _).
  auto.
Qed.

End Steady.

(* ===================================================================== *)
(** * [strip] trims *)
(* ===================================================================== *)

Lemma dropwhile_white (l m : list string) :
  Forall white l ->
  (forall x m', m = x :: m' -> PyStr.is_space x = false) ->
  PyStr.dropwhile PyStr.is_space (l ++ m) = m.
Proof.
  intros Hl Hm. induction Hl as [| x l Hx _ IH]; cbn [app PyStr.dropwhile].
  - destruct m as [| y m']; [reflexivity |]. cbn [PyStr.dropwhile].
    now rewrite (Hm y m' eq_refl).
  - unfold white in Hx. now rewrite Hx.
Qed.

Lemma rev_head_last {A} (l m : list A) (y d : A) :
  rev l = y :: m -> last l d = y.
Proof.
  intros H. apply (f_equal (@rev A)) in H. rewrite rev_involutive in H.
  subst l. simpl. apply last_last.
Qed.

Lemma strip_chars_middle (b m a : list string) :
  Forall white b -> Forall white a -> ends_clean m ->
  PyStr.strip_chars (b ++ m ++ a) = m.
Proof.
  intros Hb Ha Hc. unfold PyStr.strip_chars.
  destruct m as [| x m].
  - simpl app.
    rewrite <- (app_nil_r (b ++ a)), dropwhile_white;
      [reflexivity | now apply Forall_app | discriminate].
  - destruct Hc as [Hx Hl].
    rewrite dropwhile_white; [| exact Hb | intros y m' [= <- _]; exact Hx].
    rewrite rev_app_distr, dropwhile_white.
    + apply rev_involutive.
    + now apply Forall_rev.
    + intros y m' Hr. now rewrite <- (rev_head_last _ _ _ "" Hr).
Qed.

(** The trimmed form of a text is what [strip] returns for it. *)
Lemma strip_trimmed (input name : string) :
  trimmed input name -> PyStr.strip input = name.
Proof.
  intros (b & m & a & E & -> & Hb & Ha & Hc).
  unfold PyStr.strip. rewrite E. f_equal.
  now apply strip_chars_middle.
Qed.

Lemma dropwhile_split (l : list string) :
  exists b, l = b ++ PyStr.dropwhile PyStr.is_space l /\ Forall white b.
Proof.
  induction l as [| x l (b & E & Hb)]; [now exists [] |].
  cbn [PyStr.dropwhile]. destruct (PyStr.is_space x) eqn:Hx.
  - exists (x :: b). split; [simpl; now rewrite <- E |].
    now constructor.
  - now exists [].
Qed.

Lemma dropwhile_head (l m : list string) (x : string) :
  PyStr.dropwhile PyStr.is_space l = x :: m -> PyStr.is_space x = false.
Proof.
  induction l as [| y l IH]; cbn [PyStr.dropwhile]; [discriminate |].
  destruct (PyStr.is_space y) eqn:Hy; [exact IH |].
  now intros [= <- _].
Qed.

Lemma last_rev_head {A} (l m : list A) (y d : A) :
  l = y :: m -> last (rev l) d = y.
Proof. intros ->. simpl. apply last_last. Qed.

(** And every text has a trimmed form. *)
Lemma trimmed_strip (input : string) : trimmed input (PyStr.strip input).
Proof.
  destruct (dropwhile_split (PyStr.chars input)) as (b & Eb & Hb).
  set (d := PyStr.dropwhile PyStr.is_space (PyStr.chars input)) in *.
  destruct (dropwhile_split (rev d)) as (a & Ea & Ha).
  set (r := PyStr.dropwhile PyStr.is_space (rev d)) in *.
  assert (Ed : d = rev r ++ rev a).
  { rewrite <- rev_app_distr, <- Ea. symmetry. apply rev_involutive. }
  exists b, (rev r), (rev a).
  split; [now rewrite <- Ed |]. split; [reflexivity |].
  split; [exact Hb |]. split; [now apply Forall_rev |].
  unfold ends_clean. destruct (rev r) as [| x m] eqn:Er; [exact I |].
  split.
  - apply (dropwhile_head (PyStr.chars input) (m ++ rev a) x).
    fold d. exact Ed.
  - rewrite <- Er. destruct r as [| y r'] eqn:Hr; [discriminate Er |].
    rewrite (last_rev_head (y :: r') r' y "" eq_refl).
    now apply (dropwhile_head (rev d) r' y).
Qed.

Lemma slice_2_m1_length {A} (l : list A) :
  length (slice_2_m1 l) = length l - 3.
Proof. unfold slice_2_m1. rewrite length_skipn, length_firstn. lia. Qed.

Lemma slice_2_m1_nth {A} (l : list A) (i : nat) (d : A) :
  i < length l - 3 -> nth i (slice_2_m1 l) d = nth (i + 2) l d.
Proof.
  intros H. unfold slice_2_m1. rewrite nth_skipn, nth_firstn.
  replace (2 + i <? length l - 1) with true
    by (symmetry; apply Nat.ltb_lt; lia).
  f_equal. lia.
Qed.

(* ===================================================================== *)
(** * The ledger when every remote call succeeds *)
(* ===================================================================== *)

Section Properties.

Context {N : PyFloat}.

(** C5.  When the recomputation goes through, the row at the bottom of
    the sheet is the summary row: [TOTAL] in its first cell; under every
    site column the sum of the values of that column over the transaction
    rows, a blank cell having the value zero; and after the site columns,
    which is under the last header cell once the header has three cells
    or more, the sum of those sums. *)
Theorem total_row_holds_column_sums (w w' : world) :
  quiet w ->
  update_total_row_body w = (Ret tt, w') ->
  let g := sheet w in
  let t := last (Sheet.values_get (sheet w')) [] in
  nth 0 t "" = "TOTAL"
  /\ (forall col, In col (site_columns g) ->
        exists vs, column_values col (transaction_rows g) = Some vs
                   /\ nth col t "" = cell_of_num (py_sum vs))
  /\ (exists sums,
        column_sums (site_columns g) (transaction_rows g) = Some sums
        /\ nth (2 + length (site_columns g)) t "" = cell_of_num (py_sum sums))
  /\ (3 <= length (header_of g) ->
        2 + length (site_columns g) = length (header_of g) - 1).
Proof.
  intros Hq H.
  destruct (steady_update_total_row_body w _ (agree_calm w Hq))
    as (E & Hs & _).
  rewrite H in E, Hs. simpl in E, Hs.
  destruct (update_total_row_body (calm (sheet w) (console w)))
    as [r w2] eqn:B.
  simpl in E, Hs. subst r. rewrite Hs.
  exact (calm_total_row_sums (sheet w) (console w) w2 B).
Qed.

(** X25.  What the recomputer does with the cells it sums.  With every
    remote call succeeding: when
    every site cell of every transaction row is blank or reads as a
    number, the recomputer appends the summary row of the column sums, a
    blank cell counting as zero, and prints nothing; when one of those
    cells is neither blank nor a number, [float] raises, the recomputer
    prints the error and appends nothing (a summary row found at the
    bottom has been deleted by then all the same). *)
Theorem blank_is_zero_text_aborts (w : world) :
  quiet w ->
  let g := sheet w in
  let w' := snd (update_total_row w) in
  cell_value "" = Some nzero
  /\ (sites_numeric g ->
        total_row_appended w
        /\ exists sums,
             column_sums (site_columns g) (transaction_rows g) = Some sums
             /\ sheet w'
                = Sheet.append_row (summary_cells sums) (without_total g)
             /\ console w' = console w)
  /\ (forall r col,
        In r (transaction_rows g) -> In col (site_columns g) ->
        cell_value (nth col r "") = None ->
        ~ total_row_appended w
        /\ sheet w' = without_total g
        /\ console w'
           = console w ++ [Error_updating_TOTAL_row ValueError]).
Proof.
  intros Hq g w'.
  destruct (quiet_as_calm update_total_row w steady_update_total_row Hq)
    as (_ & Es & Ec).
  fold g in Es, Ec. fold w' in Es, Ec.
  destruct (calm_blank_zero_text_aborts g (console w)) as (Z & P & Q).
  assert (T : total_row_appended w
              <-> total_row_appended (calm g (console w))).
  { unfold total_row_appended. cbv zeta. fold w'. rewrite Es, Ec.
    reflexivity. }
  split; [exact Z |]. split.
  - intros Hn. destruct (P Hn) as (A & sums & S & U).
    split; [now apply T |]. exists sums.
    rewrite Es, Ec, U. auto.
  - intros r col Hr Hc V. destruct (Q r col Hr Hc V) as (A & U).
    split; [now rewrite T |]. rewrite Es, Ec, U. auto.
Qed.

(** C6.  With every remote call succeeding, on a sheet whose header has a
    [Closing Balance] cell, a name whose trimmed form is not empty and is
    not a header cell is added as one new column.  The trimmed form is
    the input without the white-space characters at its two ends.  The
    header gets it right before its first [Closing Balance] cell, every
    cell to the left of the new column stays, every cell from there on
    moves one place to the right, and the new column is blank below its
    header cell.  The answer is [Site added] with the list of sites:
    the cells of the new header from the third up to the last but one,
    in their order. *)
Theorem add_site_inserts_column (w : world) (new_site name : string) :
  quiet w ->
  trimmed new_site name ->
  name <> "" ->
  ~ In name (header_of (sheet w)) ->
  In "Closing Balance" (header_of (sheet w)) ->
  let g := sheet w in
  let out := add_site new_site w in
  let g' := sheet (snd out) in
  exists k sites,
    (k < length (header_of g)
     /\ nth k (header_of g) "" = "Closing Balance"
     /\ forall j, j < k -> nth j (header_of g) "" <> "Closing Balance")
    /\ fst out = Ret (Site_added name, Some sites)
    /\ length sites = length (header_of g') - 3
    /\ (forall i, i < length sites ->
          nth i sites "" = nth (i + 2) (header_of g') "")
    /\ header_of g' = firstn k (header_of g) ++ name :: skipn k (header_of g)
    /\ nth k (header_of g') "" = name
    /\ nth (k + 1) (header_of g') "" = "Closing Balance"
    /\ (forall i j,
          cell g' i j
          = if j <? k then cell g i j
            else if j =? k then (if i =? 0 then name else "")
            else cell g i (j - 1))
    /\ console (snd out) = console w.
Proof.
  intros Hq Ht Hne Hnot Hcb. cbv zeta.
  pose proof (strip_trimmed new_site name Ht) as St.
  destruct (quiet_as_calm (add_site new_site) w (steady_add_site new_site) Hq)
    as (Ef & Es & Ec).
  rewrite Ef, Es, Ec.
  pose proof (calm_site_column (sheet w) (console w) new_site) as H.
  rewrite St in H. specialize (H Hne Hnot Hcb). cbv zeta in H.
  destruct H as (k & Hk & F & Hh & Hn & Hn1 & Hcell & Hc).
  destruct (index_Some_nth _ _ _ Hk) as (K1 & K2 & K3).
  exists k. eexists. split; [now repeat split |].
  split; [exact F |].
  split; [apply slice_2_m1_length |].
  split.
  - intros i Hi. rewrite slice_2_m1_length in Hi.
    now apply slice_2_m1_nth.
  - now repeat split.
Qed.

Context {L : PyFloatLaws N}.

(** C10.  The site only has to be a header cell, whichever: for a valid
    date and amount and a site that is the header cell at position [j]
    (position 0 is [Date] and position 1 is [Description] under the
    default layout), with every remote call succeeding, the transaction
    is accepted, its row is in the sheet afterwards, and that row holds
    the amount at position [j] and elsewhere what the row was built with:
    the date or the description that was at [j] is gone. *)
Theorem add_transaction_accepts_any_header_cell (w : world)
    (date site description amount_text : string) (amount : num) (j : nat) :
  quiet w ->
  site_selected site = true ->
  date_parses date = true ->
  float (PyStr.strip amount_text) = Some amount ->
  PyStr.index (PyStr.strip site) (header_of (sheet w)) = Some j ->
  let g := sheet w in
  let out := add_transaction date site description amount_text w in
  let cells := transaction_cells (length (header_of g)) (PyStr.strip date)
                 (PyStr.strip description) j amount
                 (running_balance g amount) in
  fst out = Ret (Transaction_added (PyStr.strip date) (PyStr.strip site)
                   (PyStr.strip description) amount)
  /\ In (Sheet.trim_row cells) (Sheet.values_get (sheet (snd out)))
  /\ nth j cells "" = cell_of_num amount
  /\ forall k, k <> j ->
       nth k cells ""
       = nth k (PyStr.strip date :: PyStr.strip description
                  :: repeat "" (length (header_of g) - 2)
                  ++ [cell_of_num (running_balance g amount)]) "".
Proof.
  intros Hq Hs Hd Ha Hj g out cells.
  destruct (quiet_as_calm _ w
              (steady_add_transaction date site description amount_text) Hq)
    as (Ef & Es & _).
  unfold out. rewrite Ef, Es.
  exact (calm_any_header_cell (sheet w) (console w) date site description
           amount_text amount j Hs Hd Ha Hj).
Qed.

(** X26.  With every remote call succeeding, on a sheet with no summary
    row above its bottom row and with every site cell of its transaction
    rows blank or a number: a valid transaction on a site of the header
    is accepted, and afterwards the sheet has exactly one summary row
    among the rows under the header, the last of them; nothing is
    printed. *)
Theorem one_total_row_after_insertion (w : world)
    (date site description amount_text : string) (amount : num) :
  quiet w ->
  site_selected site = true ->
  date_parses date = true ->
  float (PyStr.strip amount_text) = Some amount ->
  In (PyStr.strip site) (header_of (sheet w)) ->
  no_inner_total (sheet w) ->
  sites_numeric (sheet w) ->
  let out := add_transaction date site description amount_text w in
  fst out = Ret (Transaction_added (PyStr.strip date) (PyStr.strip site)
                   (PyStr.strip description) amount)
  /\ one_total_row_last (sheet (snd out))
  /\ console (snd out) = console w.
Proof.
  intros Hq Hs Hd Ha Hin Hno Hnum out.
  destruct (quiet_as_calm _ w
              (steady_add_transaction date site description amount_text) Hq)
    as (Ef & Es & Ec).
  unfold out. rewrite Ef, Es, Ec.
  exact (calm_one_total_row (sheet w) (console w) date site description
           amount_text amount Hs Hd Ha Hin Hno Hnum).
Qed.

End Properties.

(* ===================================================================== *)
(** * The theorems at work on the example sheets *)
(* ===================================================================== *)

Lemma calm_quiet (g : grid) (c : list log_line) : quiet (calm g c).
Proof. constructor. Qed.

Lemma sheet_after_first_numeric : sites_numeric sheet_after_first.
Proof.
  intros r col Hr Hc. vm_compute in Hr, Hc.
  destruct Hr as [<- | []]; destruct Hc as [<- | [<- | []]];
    vm_compute; discriminate.
Qed.

Lemma total_row_holds_column_sums_witness :
  update_total_row_body (calm sheet_after_first [])
  = (Ret tt, calm sheet_after_first [])
  /\ nth 0 (last (Sheet.values_get sheet_after_first) []) "" = "TOTAL"
  /\ exists vs,
       column_values 2 (transaction_rows sheet_after_first) = Some vs
       /\ nth 2 (last (Sheet.values_get sheet_after_first) []) ""
          = cell_of_num (py_sum vs).
Proof.
  assert (H : update_total_row_body (calm sheet_after_first [])
              = (Ret tt, calm sheet_after_first []))
    by (vm_compute; reflexivity).
  split; [exact H |].
  destruct (total_row_holds_column_sums (calm sheet_after_first [])
              (calm sheet_after_first []) (calm_quiet _ _) H)
    as (A & B & _).
  split; [exact A |].
  apply (B 2). vm_compute. now left.
Defined.

Lemma blank_is_zero_text_aborts_witness :
  total_row_appended (calm sheet_after_first [])
  /\ ~ total_row_appended (calm sheet_with_text []).
Proof.
  split.
  - destruct (blank_is_zero_text_aborts (calm sheet_after_first [])
                (calm_quiet _ _)) as (_ & P & _).
    destruct (P sheet_after_first_numeric) as (A & _). exact A.
  - destruct (blank_is_zero_text_aborts (calm sheet_with_text [])
                (calm_quiet _ _)) as (_ & _ & P).
    destruct (P ["2024-01-01"; "rent"; "abc"; ""] 2) as (A & _).
    + vm_compute. now left.
    + vm_compute. now left.
    + vm_compute. reflexivity.
    + exact A.
Defined.

(** C4.  A successful insertion that leaves no summary row.  On
    [sheet_with_text], which has no summary row at all, a valid
    transaction on [SiteA] is answered with [Transaction added] and its
    row is appended, but the recomputation that follows stops at the
    cell [abc]: the sheet ends with the row of the transaction and
    holds no summary row. *)
Theorem text_cell_leaves_no_total_row :
  no_inner_total sheet_with_text
  /\ add_transaction "2024-01-02" "SiteA" "food" "5"
       (calm sheet_with_text [])
     = (Ret (Transaction_added "2024-01-02" "SiteA" "food" 5%Z),
        calm [["Date"; "Description"; "SiteA"; "Closing Balance"];
              ["2024-01-01"; "rent"; "abc"];
              ["2024-01-02"; "food"; "5"; ""; "5"]]
          [Error_updating_TOTAL_row ValueError])
  /\ total_rows
       (sheet (snd (add_transaction "2024-01-02" "SiteA" "food" "5"
                      (calm sheet_with_text [])))) = []
  /\ ~ one_total_row_last
         (sheet (snd (add_transaction "2024-01-02" "SiteA" "food" "5"
                        (calm sheet_with_text [])))).
Proof.
  split; [reflexivity |]. split; [vm_compute; reflexivity |].
  split; [vm_compute; reflexivity |].
  unfold one_total_row_last. vm_compute. intros [H _]. discriminate H.
Qed.

Lemma one_total_row_after_insertion_witness :
  one_total_row_last
    (sheet (snd (add_transaction "2024-01-02" "SiteB" "food" "-20"
                   (calm sheet_after_first [])))).
Proof.
  assert (H1 : site_selected "SiteB" = true) by reflexivity.
  assert (H2 : date_parses "2024-01-02" = true) by reflexivity.
  assert (H3 : float (PyStr.strip "-20") = Some (-20)%Z) by reflexivity.
  assert (H4 : In (PyStr.strip "SiteB") (header_of sheet_after_first))
    by (vm_compute; tauto).
  assert (H5 : no_inner_total sheet_after_first) by reflexivity.
  destruct (one_total_row_after_insertion (N := ZFloat)
              (calm sheet_after_first [])
              "2024-01-02" "SiteB" "food" "-20" (-20)%Z (calm_quiet _ _)
              H1 H2 H3 H4 H5 sheet_after_first_numeric) as (_ & A & _).
  exact A.
Defined.

(** The specification's example: [Cafe] added under the default header. *)
Lemma add_site_inserts_column_witness :
  let input := (" " ++ nbsp ++ "Cafe" ++ nbsp)%string in
  let out := add_site input (calm sheet_after_first []) in
  trimmed input "Cafe"
  /\ fst out = Ret (Site_added "Cafe", Some ["SiteA"; "SiteB"; "Cafe"])
  /\ header_of (sheet (snd out))
     = ["Date"; "Description"; "SiteA"; "SiteB"; "Cafe"; "Closing Balance"].
Proof.
  cbv zeta.
  assert (Ht : trimmed (" " ++ nbsp ++ "Cafe" ++ nbsp)%string "Cafe").
  { exists [" "; nbsp], ["C"; "a"; "f"; "e"], [nbsp].
    split; [reflexivity |]. split; [reflexivity |].
    split; [repeat constructor |].
    split; [repeat constructor | split; reflexivity]. }
  assert (H1 : "Cafe" <> "") by discriminate.
  assert (H2 : ~ In "Cafe" (header_of sheet_after_first)).
  { vm_compute. intros [H | [H | [H | [H | [H | []]]]]]; discriminate H. }
  assert (H3 : In "Closing Balance" (header_of sheet_after_first))
    by (vm_compute; tauto).
  destruct (add_site_inserts_column (N := ZFloat) (calm sheet_after_first [])
              (" " ++ nbsp ++ "Cafe" ++ nbsp)%string "Cafe"
              (calm_quiet _ _) Ht H1 H2 H3)
    as (k & sites & (Kl & Kn & _) & F & Ls & Ns & Hh & _).
  assert (Ek : k = 4).
  { vm_compute in Kl.
    destruct k as [| [| [| [| [| k]]]]]; vm_compute in Kn;
      try discriminate Kn; [reflexivity | lia]. }
  subst k. split; [exact Ht |].
  cbn [sheet snd] in Hh, Ls, Ns. rewrite Hh in Ls, Ns.
  split; [| exact Hh].
  rewrite F. do 3 f_equal.
  destruct sites as [| a [| b [| c [| d sites]]]]; try discriminate Ls.
  pose proof (Ns 0 ltac:(simpl; lia)) as N0.
  pose proof (Ns 1 ltac:(simpl; lia)) as N1.
  pose proof (Ns 2 ltac:(simpl; lia)) as N2.
  vm_compute in N0, N1, N2. now subst.
Defined.

(** [Date] taken as a site under the default header: the row of the
    transaction starts with the amount. *)
Lemma add_transaction_accepts_any_header_cell_witness :
  fst (add_transaction "2024-01-01" "Date" "rent" "100"
         (calm [default_header] []))
  = Ret (Transaction_added "2024-01-01" "Date" "rent" 100%Z)
  /\ In ["100"; "rent"; ""; "100"]
        (Sheet.values_get
           (sheet (snd (add_transaction "2024-01-01" "Date" "rent" "100"
                          (calm [default_header] []))))).
Proof.
  assert (H1 : site_selected "Date" = true) by reflexivity.
  assert (H2 : date_parses "2024-01-01" = true) by reflexivity.
  assert (H3 : float (PyStr.strip "100") = Some 100%Z) by reflexivity.
  assert (H4 : PyStr.index (PyStr.strip "Date") (header_of [default_header])
               = Some 0) by reflexivity.
  destruct (add_transaction_accepts_any_header_cell (N := ZFloat)
              (calm [default_header] [])
              "2024-01-01" "Date" "rent" "100" 100%Z 0 (calm_quiet _ _)
              H1 H2 H3 H4)
    as (A & B & _).
  split; [exact A | exact B].
Defined.

(* ===================================================================== *)
(** * The header initializer *)
(* ===================================================================== *)

Lemma remote_cases {A} (read : grid -> A) (write : grid -> grid)
    (w : world) :
  (exists msg fs,
     faults w = Some msg :: fs
     /\ remote read write w
        = (Raise (APIError msg), scheduled (sheet w) fs (console w)))
  \/ remote read write w
     = (Ret (read (sheet w)),
        scheduled (write (sheet w)) (tl (faults w)) (console w)).
Proof.
  unfold remote, scheduled.
  destruct (faults w) as [| [msg |] fs]; [now right | | now right].
  left. now exists msg, fs.
Qed.

Lemma rtrim_app_keep {A} (blank : A -> bool) (l x : list A) (d : A) :
  l <> [] -> blank (last l d) = false ->
  Sheet.rtrim blank (l ++ x) = l ++ Sheet.rtrim blank x.
Proof.
  induction l as [| a [| b l] IH]; intros Hl Hb; [congruence | |].
  - simpl in *. rewrite Hb. now destruct (Sheet.rtrim blank x).
  - change ((a :: b :: l) ++ x) with (a :: (b :: l) ++ x).
    rewrite rtrim_cons.
    + rewrite IH; [reflexivity | discriminate | exact Hb].
    + left. rewrite IH; [discriminate | discriminate | exact Hb].
Qed.

Lemma skipn_1_rtrim_cons {A} (blank : A -> bool) (x : A) (l : list A) :
  skipn 1 (Sheet.rtrim blank (x :: l)) = Sheet.rtrim blank l.
Proof.
  simpl Sheet.rtrim. destruct (Sheet.rtrim blank l) as [| y t];
    [now destruct (blank x) | reflexivity].
Qed.

Lemma stored_rows_cons_row (r : row) (g : grid) :
  stored_rows (r :: g) = Sheet.trim_rows (map Sheet.trim_row g).
Proof. unfold stored_rows, Sheet.values_get. apply skipn_1_rtrim_cons. Qed.

Lemma get_all_values_nil (g : grid) :
  Sheet.get_all_values g = [] <-> Sheet.values_get g = [].
Proof.
  unfold Sheet.get_all_values, Sheet.fill_gaps. split.
  - apply map_eq_nil.
  - now intros ->.
Qed.

Lemma get_all_values_first (g : grid) (first : row) (rest : grid) :
  Sheet.get_all_values g = first :: rest ->
  first = Sheet.rightpad (Sheet.max_cols (Sheet.values_get g)) (header_of g).
Proof.
  unfold Sheet.get_all_values, Sheet.fill_gaps. rewrite header_of_values_get.
  destruct (Sheet.values_get g) as [| h l]; [discriminate |].
  simpl. now intros [= <- _].
Qed.

Lemma whitespace_padded (n : nat) (r : row) :
  whitespace_only r ->
  forallb (fun cell => String.eqb (PyStr.strip cell) "")
    (Sheet.rightpad n r) = true.
Proof.
  intros H. apply forallb_forall. intros c Hc. apply String.eqb_eq.
  unfold Sheet.rightpad in Hc. apply in_app_or in Hc.
  destruct Hc as [Hc | Hc]; [now apply H |].
  apply repeat_spec in Hc. now subst.
Qed.

Lemma visible_padded (n : nat) (r : row) (cell : string) :
  In cell r -> PyStr.strip cell <> "" ->
  forallb (fun cell => String.eqb (PyStr.strip cell) "")
    (Sheet.rightpad n r) = false.
Proof.
  intros Hc Hs. destruct (forallb _ _) eqn:E; [| reflexivity].
  rewrite forallb_forall in E. exfalso. apply Hs, String.eqb_eq, E.
  unfold Sheet.rightpad. apply in_or_app. now left.
Qed.

(** The pure effect of [ensure_header] on a header holding a visible
    cell: none. *)
Lemma ensured_trusted (g : grid) (cell : string) :
  In cell (header_of g) -> PyStr.strip cell <> "" -> ensured g = g.
Proof.
  intros Hc Hs. unfold ensured.
  destruct (Sheet.get_all_values g) as [| first rest] eqn:E.
  - apply get_all_values_nil in E.
    rewrite header_of_values_get, E in Hc. destruct Hc.
  - rewrite (get_all_values_first g first rest E).
    now rewrite (visible_padded _ _ cell Hc Hs).
Qed.

(** ... and on a header of white space: the default header is written
    over it, and the rows below stay. *)
Lemma ensured_blank (g : grid) :
  whitespace_only (header_of g) ->
  firstn 3 (header_of (ensured g)) = default_header
  /\ stored_rows (ensured g) = stored_rows g.
Proof.
  intros H. unfold ensured.
  destruct (Sheet.get_all_values g) as [| first rest] eqn:E.
  - apply get_all_values_nil in E.
    change (Sheet.insert_row default_header 1 g) with (default_header :: g).
    split; [reflexivity |].
    rewrite stored_rows_cons_row. fold (Sheet.values_get g).
    unfold stored_rows. now rewrite E.
  - rewrite (get_all_values_first g first rest E).
    rewrite (whitespace_padded _ _ H).
    destruct g as [| r0 g0].
    + discriminate E.
    + change (Sheet.update_A1 [default_header] (r0 :: g0))
        with ((default_header ++ skipn 3 r0) :: g0).
      split; [| now rewrite !stored_rows_cons_row].
      unfold header_of, Sheet.row_values.
      change (nth (1 - 1) ((default_header ++ skipn 3 r0) :: g0) [])
        with (default_header ++ skipn 3 r0).
      unfold Sheet.trim_row.
      rewrite (rtrim_app_keep _ default_header _ "");
        [reflexivity | discriminate | reflexivity].
Qed.

Lemma whitespace_only_dec (r : row) :
  whitespace_only r
  \/ exists cell, In cell r /\ PyStr.strip cell <> "".
Proof.
  induction r as [| c r [IH | (x & Hx & Hs)]].
  - left. intros c [].
  - destruct (String.eqb_spec (PyStr.strip c) "") as [E | E].
    + left. intros x [<- | Hx]; [exact E | now apply IH].
    + right. exists c. split; [now left | exact E].
  - right. exists x. split; [now right | exact Hs].
Qed.

Lemma ensured_idempotent (g : grid) : ensured (ensured g) = ensured g.
Proof.
  destruct (whitespace_only_dec (header_of g)) as [H | (c & Hc & Hs)].
  - destruct (ensured_blank g H) as (F & _).
    apply (ensured_trusted _ "Date"); [| vm_compute; discriminate].
    rewrite <- (firstn_skipn 3 (header_of (ensured g))), F.
    now left.
  - rewrite (ensured_trusted g c Hc Hs). exact (ensured_trusted g c Hc Hs).
Qed.

Section EnsureHeader.

Context {N : PyFloat}.

Lemma ensure_header_calm (g : grid) (c : list log_line) :
  ensure_header (calm g c) = (Ret tt, calm (ensured g) c).
Proof.
  unfold ensure_header, try_except, SHEET.get_all_values.
  rewrite bind_remote_calm. unfold ensured.
  destruct (Sheet.get_all_values g) as [| first rest]; [reflexivity |].
  now destruct (forallb _ first).
Qed.

(** X1.  [ensure_header] never raises, whatever the remote calls do.
    Either nothing is printed, or a remote call failed: then the sheet
    is as it was and the failure is the one line printed. *)
Theorem ensure_header_contains_failures (w : world) :
  exists w',
    ensure_header w = (Ret tt, w')
    /\ (console w' = console w
        \/ sheet w' = sheet w
           /\ exists msg,
                console w'
                = console w ++ [Error_initializing_header (APIError msg)]).
Proof.
  unfold ensure_header, try_except, bind, SHEET.get_all_values.
  destruct (remote_cases Sheet.get_all_values (fun g => g) w)
    as [(msg & fs & _ & ->) | ->].
  - eexists. split; [reflexivity |]. right. split; [reflexivity |].
    now exists msg.
  - set (w1 := scheduled (sheet w) (tl (faults w)) (console w)).
    assert (R : forall write : grid -> grid,
              exists w',
                (let (r, w') := remote (fun _ => tt) write w1 in
                 match r with
                 | Ret a => (Ret a, w')
                 | Raise e => print (Error_initializing_header e) w'
                 end) = (Ret tt, w')
                /\ (console w' = console w
                    \/ sheet w' = sheet w
                       /\ exists msg,
                            console w'
                            = console w
                                ++ [Error_initializing_header (APIError msg)])).
    { intros write.
      destruct (remote_cases (fun _ => tt) write w1)
        as [(msg & fs & _ & ->) | ->].
      - eexists. split; [reflexivity |]. right. split; [reflexivity |].
        now exists msg.
      - eexists. split; [reflexivity |]. now left. }
    destruct (Sheet.get_all_values (sheet w)) as [| first rest].
    + apply R.
    + destruct (forallb _ first); [apply R |].
      eexists. split; [reflexivity |]. now left.
Qed.

(** X2.  A header that shows anything is trusted: when row 1 holds a cell
    that is not white space and every remote call succeeds,
    [ensure_header] leaves the sheet and the console as they were. *)
Theorem ensure_header_trusts_header (w : world) (cell : string) :
  quiet w ->
  In cell (header_of (sheet w)) -> PyStr.strip cell <> "" ->
  fst (ensure_header w) = Ret tt
  /\ sheet (snd (ensure_header w)) = sheet w
  /\ console (snd (ensure_header w)) = console w.
Proof.
  intros Hq Hc Hs.
  destruct (quiet_as_calm ensure_header w steady_ensure_header Hq)
    as (Ef & Es & Ec).
  rewrite Ef, Es, Ec, ensure_header_calm. unfold calm.
  cbn [fst snd sheet console].
  now rewrite (ensured_trusted _ cell Hc Hs).
Qed.

(** X3.  A sheet with no data, or whose row 1 is white space only, gets
    the default header: afterwards the header starts with [Date],
    [Description], [Closing Balance], the rows under it are the ones
    that were there, and nothing is printed. *)
Theorem ensure_header_writes_default (w : world) :
  quiet w ->
  whitespace_only (header_of (sheet w)) ->
  firstn 3 (header_of (sheet (snd (ensure_header w)))) = default_header
  /\ stored_rows (sheet (snd (ensure_header w))) = stored_rows (sheet w)
  /\ console (snd (ensure_header w)) = console w.
Proof.
  intros Hq H.
  destruct (quiet_as_calm ensure_header w steady_ensure_header Hq)
    as (_ & Es & Ec).
  rewrite Es, Ec, ensure_header_calm. unfold calm.
  cbn [snd sheet console].
  destruct (ensured_blank _ H) as (A & B). auto.
Qed.

(** X4.  [ensure_header] is idempotent: with every remote call
    succeeding, calling it a second time changes nothing. *)
Theorem ensure_header_idempotent (w : world) :
  quiet w ->
  sheet (snd ((ensure_header ;;; ensure_header) w))
  = sheet (snd (ensure_header w))
  /\ console (snd ((ensure_header ;;; ensure_header) w))
     = console (snd (ensure_header w)).
Proof.
  intros Hq.
  assert (S2 : steady (ensure_header ;;; ensure_header))
    by (apply steady_bind; [| intros ?]; apply steady_ensure_header).
  destruct (quiet_as_calm _ w S2 Hq) as (_ & Es & Ec).
  destruct (quiet_as_calm _ w steady_ensure_header Hq) as (_ & Es1 & Ec1).
  rewrite Es, Ec, Es1, Ec1. unfold bind.
  rewrite ensure_header_calm. cbv beta iota.
  rewrite ensure_header_calm. unfold calm. cbn [snd sheet console].
  now rewrite ensured_idempotent.
Qed.

End EnsureHeader.

(* ===================================================================== *)
(** * More on adding a site *)
(* ===================================================================== *)

Lemma index_app_first (x : string) (pre post : list string) :
  ~ In x pre -> PyStr.index x (pre ++ x :: post) = Some (length pre).
Proof.
  induction pre as [| y pre IH]; intros H; simpl.
  - now rewrite String.eqb_refl.
  - destruct (String.eqb_spec y x) as [-> | _].
    + exfalso. apply H. now left.
    + rewrite IH; [reflexivity |]. intros I. apply H. now right.
Qed.

Lemma firstn_length_app {A} (l m : list A) : firstn (length l) (l ++ m) = l.
Proof. induction l as [| a l IH]; simpl; [now destruct m | now rewrite IH]. Qed.

Lemma skipn_length_app {A} (l m : list A) : skipn (length l) (l ++ m) = m.
Proof. induction l as [| a l IH]; simpl; [reflexivity | exact IH]. Qed.

Lemma firstn_but_last {A} (l : list A) (a : A) :
  firstn (length (l ++ [a]) - 1) (l ++ [a]) = l.
Proof.
  rewrite length_app. simpl length.
  replace (length l + 1 - 1) with (length l) by lia.
  apply firstn_length_app.
Qed.

Lemma slice_with_site (pre : list string) (name last_cell : string) :
  2 <= length pre ->
  slice_2_m1 (header_with (length pre) name (pre ++ [last_cell]))
  = slice_2_m1 (pre ++ [last_cell]) ++ [name].
Proof.
  intros H. unfold header_with, slice_2_m1.
  rewrite firstn_length_app, skipn_length_app.
  replace (pre ++ [name; last_cell]) with ((pre ++ [name]) ++ [last_cell])
    by (now rewrite <- app_assoc).
  rewrite !firstn_but_last.
  rewrite skipn_app. replace (2 - length pre) with 0 by lia.
  reflexivity.
Qed.

Section MoreAddSite.

Context {N : PyFloat}.

Lemma add_site_known_calm (g : grid) (c : list log_line)
    (new_site : string) :
  PyStr.strip new_site <> "" ->
  In (PyStr.strip new_site) (header_of g) ->
  add_site new_site (calm g c)
  = (Ret (Site_already_exists, Some (slice_2_m1 (header_of g))), calm g c).
Proof.
  intros Hne Hin. unfold add_site.
  apply String.eqb_neq in Hne. rewrite Hne.
  unfold SHEET.row_values. rewrite bind_remote_calm.
  fold (header_of g). apply mem_In in Hin. rewrite Hin.
  unfold ret. now rewrite slice_short.
Qed.

(** X5.  [add_site] raises only when its read of the header fails: for
    a name that is blank once trimmed it returns whatever the sheet
    does, and when the read of the header succeeds it returns a message
    whatever the later calls do. *)
Theorem add_site_returns_after_header_read (w : world)
    (new_site : string) :
  PyStr.strip new_site = "" \/ next_call_succeeds w ->
  exists r w', add_site new_site w = (Ret r, w').
Proof.
  intros H. unfold add_site.
  destruct (String.eqb_spec (PyStr.strip new_site) "") as [E | E];
    [unfold ret; eauto |].
  destruct H as [H | H]; [contradiction |].
  unfold bind at 1, SHEET.row_values at 1. rewrite (remote_ok _ _ w H).
  destruct (PyStr.mem _ _); [unfold ret; eauto |].
  apply try_except_returns. intros e w1.
  destruct e; unfold ret; eauto.
Qed.

(** X6.  A header without a [Closing Balance] cell: a new name is
    turned down with the message that the column was not found, after
    the one read of the header; the sheet and the console stay as they
    were. *)
Theorem add_site_needs_closing_balance (w : world) (new_site : string) :
  next_call_succeeds w ->
  PyStr.strip new_site <> "" ->
  ~ In (PyStr.strip new_site) (header_of (sheet w)) ->
  ~ In "Closing Balance" (header_of (sheet w)) ->
  add_site new_site w
  = (Ret (Closing_Balance_column_not_found, None),
     scheduled (sheet w) (tl (faults w)) (console w)).
Proof.
  intros Hok Hne Hnot Hcb. unfold add_site.
  apply String.eqb_neq in Hne. rewrite Hne.
  unfold bind at 1, SHEET.row_values at 1. rewrite (remote_ok _ _ w Hok).
  fold (header_of (sheet w)).
  assert (Hm : PyStr.mem (PyStr.strip new_site) (header_of (sheet w))
               = false).
  { destruct (PyStr.mem _ _) eqn:E; [| reflexivity].
    apply mem_In in E. contradiction. }
  rewrite Hm. apply index_None_not_In in Hcb.
  unfold try_except, py_index, bind, lift. rewrite Hcb. reflexivity.
Qed.

(** X7.  Adding the same site twice, every remote call succeeding: the
    first call adds the column, the second answers that the site exists,
    hands back the list of sites the first call returned, and leaves
    the sheet as the first call left it. *)
Theorem add_site_twice_is_duplicate (w : world) (new_site : string) :
  quiet w ->
  PyStr.strip new_site <> "" ->
  ~ In (PyStr.strip new_site) (header_of (sheet w)) ->
  In "Closing Balance" (header_of (sheet w)) ->
  let o1 := add_site new_site w in
  let o2 := add_site new_site (snd o1) in
  exists sites,
    fst o1 = Ret (Site_added (PyStr.strip new_site), Some sites)
    /\ fst o2 = Ret (Site_already_exists, Some sites)
    /\ sheet (snd o2) = sheet (snd o1)
    /\ console (snd o2) = console w.
Proof.
  intros Hq Hne Hnot Hcb o1 o2.
  destruct (index_In _ _ Hcb) as (k & Hk).
  destruct (steady_add_site new_site w _ (agree_calm w Hq)) as (E1 & A1).
  rewrite (add_site_calm (sheet w) (console w) new_site k Hne Hnot Hk)
    in E1, A1.
  cbn [fst snd] in E1, A1. fold o1 in E1, A1.
  set (g' := Sheet.insert_cols _ _ _) in *.
  destruct (steady_add_site new_site _ _ A1) as (E2 & A2).
  assert (Hin : In (PyStr.strip new_site) (header_of g')).
  { destruct (calm_site_column (sheet w) (console w) new_site Hne Hnot Hcb)
      as (k' & Hk' & _ & _ & Hn & _).
    rewrite (add_site_calm (sheet w) (console w) new_site k Hne Hnot Hk)
      in Hn.
    cbn [snd calm sheet] in Hn. fold g' in Hn.
    rewrite Hk in Hk'. injection Hk' as <-.
    rewrite <- Hn. apply nth_In.
    destruct (Nat.lt_ge_cases k (length (header_of g'))) as [L | L];
      [exact L |].
    rewrite nth_overflow in Hn by exact L. now destruct Hne. }
  rewrite (add_site_known_calm g' (console w) new_site Hne Hin) in E2, A2.
  cbn [fst snd] in E2, A2. fold o2 in E2, A2.
  exists (slice_2_m1 (header_of g')).
  destruct A1 as (S1 & C1 & _). destruct A2 as (S2 & C2 & _).
  cbn [calm sheet console] in S1, C1, S2, C2.
  repeat split; congruence.
Qed.

(** X8.  When [Closing Balance] is the last header cell and at least the
    two fixed columns come before it, the list of sites [add_site]
    returns is the list that was there with the new name at its end. *)
Theorem add_site_appends_to_site_list (w : world) (new_site : string)
    (pre : list string) :
  quiet w ->
  PyStr.strip new_site <> "" ->
  ~ In (PyStr.strip new_site) (header_of (sheet w)) ->
  header_of (sheet w) = pre ++ ["Closing Balance"] ->
  ~ In "Closing Balance" pre ->
  2 <= length pre ->
  fst (add_site new_site w)
  = Ret (Site_added (PyStr.strip new_site),
         Some (slice_2_m1 (header_of (sheet w)) ++ [PyStr.strip new_site])).
Proof.
  intros Hq Hne Hnot Hh Hcb Hlen.
  destruct (quiet_as_calm (add_site new_site) w (steady_add_site new_site) Hq)
    as (Ef & _ & _).
  rewrite Ef.
  assert (Hk : PyStr.index "Closing Balance" (header_of (sheet w))
               = Some (length pre))
    by (rewrite Hh; now apply index_app_first).
  assert (Hin : In "Closing Balance" (header_of (sheet w)))
    by (rewrite Hh; apply in_or_app; right; now left).
  destruct (calm_site_column (sheet w) (console w) new_site Hne Hnot Hin)
    as (k & Hk' & E & Hw & _).
  rewrite Hk in Hk'. injection Hk' as <-.
  rewrite E, Hw, Hh. now rewrite slice_with_site.
Qed.

End MoreAddSite.

(* ===================================================================== *)
(** * More on the total recomputer *)
(* ===================================================================== *)

Lemma rtrim_fixed {A} (blank : A -> bool) (l : list A) :
  Sheet.rtrim blank (Sheet.rtrim blank l) = Sheet.rtrim blank l.
Proof.
  induction l as [| x l IH]; simpl; [reflexivity |].
  destruct (Sheet.rtrim blank l) as [| y t] eqn:E.
  - destruct (blank x) eqn:B; simpl; [reflexivity | now rewrite B].
  - rewrite rtrim_cons; [now rewrite IH | left; rewrite IH; discriminate].
Qed.

Lemma rtrim_all {A} (blank : A -> bool) (l : list A) :
  (forall x, In x l -> blank x = false) -> Sheet.rtrim blank l = l.
Proof.
  intros H. destruct l as [| a l]; [reflexivity |].
  apply (rtrim_id _ _ a); [discriminate |].
  apply H, last_In. discriminate.
Qed.

Lemma stored_rows_trimmed (g : grid) :
  Sheet.trim_rows (stored_rows g) = stored_rows g.
Proof.
  unfold stored_rows, Sheet.values_get, Sheet.trim_rows.
  destruct (map Sheet.trim_row g) as [| x l]; [reflexivity |].
  rewrite skipn_1_rtrim_cons. apply rtrim_fixed.
Qed.

Lemma kept_rows_trimmed (g : grid) :
  Sheet.trim_rows (kept_rows g) = kept_rows g.
Proof.
  unfold kept_rows. destruct (is_total_row _).
  - apply rtrim_fixed.
  - apply stored_rows_trimmed.
Qed.

Lemma kept_rows_no_blank (g : grid) :
  no_blank_rows g ->
  kept_rows g = if is_total_row (last (stored_rows g) [])
                then removelast (stored_rows g) else stored_rows g.
Proof.
  intros H. unfold kept_rows.
  destruct (is_total_row _); [| reflexivity].
  apply rtrim_all. intros r Hr. apply blank_row_false, H.
  now apply In_removelast.
Qed.

Section MoreTotals.

Context {N : PyFloat}.

Lemma column_values_pad (n col : nat) (rows : grid) :
  column_values col (map (Sheet.rightpad n) rows) = column_values col rows.
Proof.
  induction rows as [| r rows IH]; simpl; [reflexivity |].
  now rewrite rightpad_nth, IH.
Qed.

Lemma column_sums_pad (n : nat) (cols : list nat) (rows : grid) :
  column_sums cols (map (Sheet.rightpad n) rows) = column_sums cols rows.
Proof.
  induction cols as [| col cols IH]; simpl; [reflexivity |].
  now rewrite column_values_pad, IH.
Qed.

Lemma bind_remote_none {A B} (read : grid -> A) (write : grid -> grid)
    (k : A -> M B) (g : grid) (fs : list (option string))
    (c : list log_line) :
  bind (remote read write) k (scheduled g (None :: fs) c)
  = k (read g) (scheduled (write g) fs c).
Proof. reflexivity. Qed.

Lemma bind_remote_some {A B} (read : grid -> A) (write : grid -> grid)
    (k : A -> M B) (g : grid) (msg : string) (fs : list (option string))
    (c : list log_line) :
  bind (remote read write) k (scheduled g (Some msg :: fs) c)
  = (Raise (APIError msg), scheduled g fs c).
Proof. reflexivity. Qed.

(** The sheet after a recomputation that went through. *)
Lemma recomputed_twice_calm (g : grid) (sums : list num) :
  header_of g <> [] ->
  no_blank_rows g ->
  column_sums (site_columns g) (transaction_rows g) = Some sums ->
  let g2 := Sheet.append_row (summary_cells sums) (without_total g) in
  column_sums (site_columns g2) (transaction_rows g2) = Some sums
  /\ Sheet.values_get
       (Sheet.append_row (summary_cells sums) (without_total g2))
     = Sheet.values_get g2.
Proof.
  intros Hh Hb S g2.
  assert (V2 := values_get_appended g (summary_cells sums) Hh
                  (summary_cells_trim sums)).
  fold g2 in V2.
  assert (H2 := header_of_cons g2 _ _ V2).
  assert (S2 := stored_rows_cons g2 _ _ V2).
  assert (T2 : is_total_row (last (stored_rows g2) []) = true)
    by (rewrite S2, last_last; now rewrite is_total_row_trim).
  assert (K2 : kept_rows g2 = kept_rows g).
  { unfold kept_rows at 1. rewrite T2, S2, removelast_last.
    apply kept_rows_trimmed. }
  split.
  - unfold site_columns. rewrite H2. fold (site_columns g).
    rewrite transaction_rows_stored, T2, S2, removelast_last.
    rewrite column_sums_pad, (kept_rows_no_blank g Hb).
    rewrite transaction_rows_stored, column_sums_pad in S. exact S.
  - rewrite values_get_appended;
      [| rewrite H2; exact Hh | apply summary_cells_trim].
    now rewrite H2, K2, V2.
Qed.

(** X9.  Recomputing twice is recomputing once: on a sheet with a
    header, no blank row under it and site cells that are blank or
    numbers, with every remote call succeeding, a second
    [update_total_row] leaves the rows of the sheet as the first left
    them, and nothing is printed. *)
Theorem update_total_row_idempotent (w : world) :
  quiet w ->
  header_of (sheet w) <> [] ->
  no_blank_rows (sheet w) ->
  sites_numeric (sheet w) ->
  Sheet.values_get (sheet (snd ((update_total_row ;;; update_total_row) w)))
  = Sheet.values_get (sheet (snd (update_total_row w)))
  /\ console (snd ((update_total_row ;;; update_total_row) w)) = console w.
Proof.
  intros Hq Hh Hb Hn.
  assert (S2 : steady (update_total_row ;;; update_total_row))
    by (apply steady_bind; [| intros ?]; apply steady_update_total_row).
  destruct (quiet_as_calm _ w S2 Hq) as (_ & Es & Ec).
  destruct (quiet_as_calm _ w steady_update_total_row Hq) as (_ & Es1 & _).
  rewrite Es, Ec, Es1. unfold bind.
  destruct (column_sums_Some (site_columns (sheet w))
              (transaction_rows (sheet w)) Hn) as (sums & S).
  destruct (recomputed_twice_calm (sheet w) sums Hh Hb S) as (S' & V).
  rewrite update_total_row_calm, S. cbv beta iota.
  rewrite update_total_row_calm, S'. unfold calm.
  cbn [snd sheet console]. split; [exact V | reflexivity].
Qed.

(** X10.  A failure between the two writes is not undone: on a sheet
    that ends with a summary row, when the reads and the deletion
    succeed and the append fails, [update_total_row] returns with the
    old summary row deleted, no new one written, and the failure
    printed. *)
Theorem update_total_row_loses_total_on_failed_append (g : grid)
    (msg : string) (fs : list (option string)) (c : list log_line) :
  is_total_row (last (data_rows g) []) = true ->
  sites_numeric g ->
  update_total_row (scheduled g (None :: None :: None :: Some msg :: fs) c)
  = (Ret tt,
     scheduled (Sheet.delete_rows (length (data_rows g) + 1) g) fs
       (c ++ [Error_updating_TOTAL_row (APIError msg)])).
Proof.
  intros T Hn.
  destruct (column_sums_Some (site_columns g) (transaction_rows g) Hn)
    as (sums & S).
  unfold update_total_row, try_except, update_total_row_body.
  unfold SHEET.row_values at 1. rewrite bind_remote_none.
  unfold SHEET.get_all_values at 1. rewrite bind_remote_none.
  fold (data_rows g). fold (header_of g). fold (site_columns g).
  rewrite ends_with_total_data_rows, bind_lift_Ret, T.
  unfold bind at 1. unfold SHEET.delete_rows at 1.
  rewrite bind_remote_none. unfold ret at 1.
  pose proof (transaction_rows_wide g) as W.
  unfold transaction_rows in W, S. rewrite T in W, S.
  rewrite totals_loop_spec by (intros r col Hr Hc; now apply W).
  rewrite S, bind_lift_Ret.
  unfold SHEET.append_row, remote, scheduled. reflexivity.
Qed.

(** X11.  On a sheet that holds no data at all, header included,
    [update_total_row] writes the summary row [TOTAL], blank, zero as the
    only row: it is then what the next read of the header returns. *)
Theorem update_total_row_on_empty_sheet (w : world) :
  quiet w ->
  Sheet.values_get (sheet w) = [] ->
  Sheet.values_get (sheet (snd (update_total_row w)))
  = [Sheet.trim_row ["TOTAL"; ""; cell_of_num nzero]]
  /\ nth 0 (header_of (sheet (snd (update_total_row w)))) "" = "TOTAL"
  /\ console (snd (update_total_row w)) = console w.
Proof.
  intros Hq E.
  destruct (quiet_as_calm _ w steady_update_total_row Hq) as (_ & Es & Ec).
  rewrite Es, Ec, update_total_row_calm.
  assert (Hh : header_of (sheet w) = [])
    by (now rewrite header_of_values_get, E).
  assert (Hd : data_rows (sheet w) = [])
    by (now rewrite data_rows_eq, E).
  unfold site_columns, without_total. rewrite Hh, Hd.
  cbn [length Nat.sub range seq column_sums last is_total_row].
  unfold calm. cbn [snd sheet console].
  assert (V : Sheet.values_get
                (Sheet.append_row (summary_cells []) (sheet w))
              = [Sheet.trim_row (summary_cells [])]).
  { rewrite values_get_append by apply summary_cells_trim.
    now rewrite E. }
  repeat split.
  - exact V.
  - rewrite header_of_values_get, V. simpl nth. now rewrite trim_row_nth.
Qed.


End MoreTotals.

(* ===================================================================== *)
(** * More on adding a transaction *)
(* ===================================================================== *)

Section MoreAddTransaction.

Context {N : PyFloat}.

(** X13.  A site that is not a header cell: after the one read of the
    header the transaction is turned down with [Site column missing],
    and the sheet and the console stay as they were. *)
Theorem add_transaction_unknown_site (w : world)
    (date site description amount_text : string) :
  next_call_succeeds w ->
  site_selected site = true ->
  date_parses date = true ->
  float (PyStr.strip amount_text) <> None ->
  ~ In (PyStr.strip site) (header_of (sheet w)) ->
  add_transaction date site description amount_text w
  = (Ret Site_column_missing,
     scheduled (sheet w) (tl (faults w)) (console w)).
Proof.
  intros Hok Hs Hd Ha Hnot. unfold add_transaction.
  unfold site_selected in Hs. apply negb_true_iff in Hs. rewrite Hs.
  unfold date_parses in Hd.
  destruct (Strptime.strptime_ymd (PyStr.strip date)); [| discriminate Hd].
  destruct (float (PyStr.strip amount_text)); [| now destruct Ha].
  unfold try_except, bind at 1, SHEET.row_values at 1.
  rewrite (remote_ok _ _ w Hok). fold (header_of (sheet w)).
  assert (Hm : PyStr.mem (PyStr.strip site) (header_of (sheet w)) = false).
  { destruct (PyStr.mem _ _) eqn:E; [| reflexivity].
    apply mem_In in E. contradiction. }
  rewrite Hm. reflexivity.
Qed.

(** X14.  When the sheet cannot be reached, a valid transaction gets the
    failure as its message: [add_transaction] does not raise, and the
    sheet and the console stay as they were. *)
Theorem add_transaction_reports_unreachable_sheet (g : grid)
    (msg : string) (fs : list (option string)) (c : list log_line)
    (date site description amount_text : string) :
  site_selected site = true ->
  date_parses date = true ->
  float (PyStr.strip amount_text) <> None ->
  add_transaction date site description amount_text
    (scheduled g (Some msg :: fs) c)
  = (Ret (Failed_to_add_transaction (APIError msg)), scheduled g fs c).
Proof.
  intros Hs Hd Ha. unfold add_transaction.
  unfold site_selected in Hs. apply negb_true_iff in Hs. rewrite Hs.
  unfold date_parses in Hd.
  destruct (Strptime.strptime_ymd (PyStr.strip date)); [| discriminate Hd].
  destruct (float (PyStr.strip amount_text)); [| now destruct Ha].
  unfold try_except, SHEET.row_values at 1. rewrite bind_remote_some.
  reflexivity.
Qed.

(** X15.  Success is reported even when the summary row could not be
    recomputed: on a sheet that does not end with a summary row, when
    the two reads and the append of [add_transaction] succeed and the
    next remote call, the first of [update_total_row], fails, the
    answer is still [Transaction added]; the sheet holds the new row and
    no summary row was written, and the failure is only printed. *)
Theorem add_transaction_succeeds_without_total (g : grid)
    (msg : string) (fs : list (option string)) (c : list log_line)
    (date site description amount_text : string) (amount : num)
    (j : nat) :
  site_selected site = true ->
  date_parses date = true ->
  float (PyStr.strip amount_text) = Some amount ->
  PyStr.index (PyStr.strip site) (header_of g) = Some j ->
  is_total_row (last (data_rows g) []) = false ->
  add_transaction date site description amount_text
    (scheduled g (None :: None :: None :: Some msg :: fs) c)
  = (Ret (Transaction_added (PyStr.strip date) (PyStr.strip site)
            (PyStr.strip description) amount),
     scheduled
       (Sheet.append_row
          (transaction_cells (length (header_of g)) (PyStr.strip date)
             (PyStr.strip description) j amount (running_balance g amount))
          g)
       fs (c ++ [Error_updating_TOTAL_row (APIError msg)])).
Proof.
  intros Hs Hd Ha Hj T. unfold add_transaction.
  unfold site_selected in Hs. apply negb_true_iff in Hs. rewrite Hs.
  unfold date_parses in Hd.
  destruct (Strptime.strptime_ymd (PyStr.strip date)); [| discriminate Hd].
  rewrite Ha. unfold try_except.
  unfold SHEET.row_values at 1. rewrite bind_remote_none.
  fold (header_of g).
  destruct (index_Some_nth _ _ _ Hj) as (Hlt & Hn & _).
  assert (Hm : PyStr.mem (PyStr.strip site) (header_of g) = true).
  { apply mem_In. rewrite <- Hn. now apply nth_In. }
  rewrite Hm. cbv [negb]. unfold py_index. rewrite Hj, bind_lift_Ret.
  unfold SHEET.get_all_values at 1. rewrite bind_remote_none.
  fold (data_rows g). rewrite Nat.add_sub.
  rewrite setitem_ok
    by (rewrite !length_app, repeat_length; simpl; lia).
  rewrite bind_lift_Ret, ends_with_total_data_rows, bind_lift_Ret, T.
  unfold bind at 1. unfold ret at 1.
  unfold SHEET.append_row. rewrite bind_remote_none.
  unfold bind at 1.
  unfold update_total_row, try_except, update_total_row_body.
  unfold SHEET.row_values at 1. rewrite bind_remote_some.
  reflexivity.
Qed.

Context {L : PyFloatLaws N}.


(** X17.  Where the balance goes: under a header of three cells or
    more, the row [add_transaction] writes has one cell more than the
    header; the running balance is in that extra cell, past the last
    header cell, and the cell under the last header cell is blank unless
    the site is that last cell. *)
Theorem add_transaction_balance_past_header (w : world)
    (date site description amount_text : string) (amount : num) (j : nat) :
  quiet w ->
  site_selected site = true ->
  date_parses date = true ->
  float (PyStr.strip amount_text) = Some amount ->
  PyStr.index (PyStr.strip site) (header_of (sheet w)) = Some j ->
  3 <= length (header_of (sheet w)) ->
  let g := sheet w in
  let n := length (header_of g) in
  let cells := transaction_cells n (PyStr.strip date)
                 (PyStr.strip description) j amount
                 (running_balance g amount) in
  In (Sheet.trim_row cells)
     (Sheet.values_get
        (sheet (snd (add_transaction date site description amount_text w))))
  /\ length cells = n + 1
  /\ nth n cells "" = cell_of_num (running_balance g amount)
  /\ (j <> n - 1 -> nth (n - 1) cells "" = "").
Proof.
  intros Hq Hs Hd Ha Hj H3. cbv zeta.
  destruct (index_Some_nth _ _ _ Hj) as (Hlt & _ & _).
  destruct (quiet_as_calm _ w
              (steady_add_transaction date site description amount_text) Hq)
    as (_ & Es & _).
  rewrite Es.
  pose proof (calm_any_header_cell (sheet w) (console w) date site
                description amount_text amount j Hs Hd Ha Hj) as H.
  cbv zeta in H. destruct H as (_ & I & _ & K).
  split; [exact I |]. split; [| split].
  - unfold transaction_cells. cbv zeta.
    set (base := [PStr (PyStr.strip date); PStr (PyStr.strip description)]
                 ++ repeat (PStr "") (length (header_of (sheet w)) - 2)
                 ++ [PNum (running_balance (sheet w) amount)]).
    assert (Hb : length base = length (header_of (sheet w)) + 1).
    { unfold base. rewrite !length_app, repeat_length. simpl. lia. }
    rewrite length_map, length_app. cbn [length].
    rewrite length_firstn, length_skipn. lia.
  - rewrite K by lia.
    remember (length (header_of (sheet w))) as n eqn:En.
    replace n with (S (S (n - 2))) at 1 by lia. cbn [nth].
    rewrite app_nth2 by (rewrite repeat_length; lia).
    now rewrite repeat_length, Nat.sub_diag.
  - intros Hne. rewrite K by lia.
    remember (length (header_of (sheet w))) as n eqn:En.
    replace (n - 1) with (S (S (n - 3))) by lia. cbn [nth].
    rewrite app_nth1 by (rewrite repeat_length; lia).
    apply nth_repeat.
Qed.

End MoreAddTransaction.

(* ===================================================================== *)
(** * A site, then a transaction on it *)
(* ===================================================================== *)

Section SiteThenTransaction.

Context {N : PyFloat} {L : PyFloatLaws N}.

Lemma index_header_with (k : nat) (name : string) (header : row) :
  k < length header -> ~ In name header ->
  PyStr.index name (header_with k name header) = Some k.
Proof.
  intros Hk Hnot. unfold header_with.
  replace (Some k) with (Some (length (firstn k header)))
    by (rewrite length_firstn; f_equal; lia).
  apply index_app_first.
  intros I. apply Hnot.
  rewrite <- (firstn_skipn k header). apply in_or_app. now left.
Qed.

(** X18.  A site that [add_site] has just added can be used at once: in
    a world where no remote call fails, after a new name went in before
    [Closing Balance], a valid transaction on that name is accepted, and
    its row holds the amount where [Closing Balance] stood before, which
    is the column of the new site. *)
Theorem add_transaction_on_added_site (w : world)
    (new_site date site description amount_text : string) (amount : num) :
  quiet w ->
  PyStr.strip new_site <> "" ->
  PyStr.strip new_site <> "Select Site" ->
  ~ In (PyStr.strip new_site) (header_of (sheet w)) ->
  In "Closing Balance" (header_of (sheet w)) ->
  PyStr.strip site = PyStr.strip new_site ->
  date_parses date = true ->
  float (PyStr.strip amount_text) = Some amount ->
  let w1 := snd (add_site new_site w) in
  let out := add_transaction date site description amount_text w1 in
  fst out = Ret (Transaction_added (PyStr.strip date) (PyStr.strip new_site)
                   (PyStr.strip description) amount)
  /\ exists k r,
       PyStr.index "Closing Balance" (header_of (sheet w)) = Some k
       /\ nth k (header_of (sheet (snd out))) "" = PyStr.strip new_site
       /\ In r (Sheet.values_get (sheet (snd out)))
       /\ nth k r "" = cell_of_num amount.
Proof.
  intros Hq Hne Hsel Hnot Hcb Hsite Hd Ha. cbv zeta.
  destruct (quiet_as_calm _ w (steady_add_site new_site) Hq)
    as (_ & Es1 & Ec1).
  pose proof (calm_site_column (sheet w) (console w) new_site Hne Hnot Hcb)
    as H. cbv zeta in H.
  destruct H as (k & Hk & _ & Hh & Hnk & _ & _ & _).
  rewrite <- Es1 in Hh, Hnk.
  set (w1 := snd (add_site new_site w)) in *.
  assert (Hq1 : quiet w1).
  { destruct (steady_add_site new_site w _ (agree_calm w Hq))
      as (_ & _ & _ & Q & _). exact Q. }
  destruct (index_Some_nth _ _ _ Hk) as (Hlt & _ & _).
  assert (Hj : PyStr.index (PyStr.strip site) (header_of (sheet w1))
               = Some k).
  { rewrite Hsite, Hh. now apply index_header_with. }
  assert (Hs : site_selected site = true).
  { unfold site_selected. rewrite Hsite.
    apply String.eqb_neq in Hne, Hsel. now rewrite Hne, Hsel. }
  destruct (quiet_as_calm _ w1
              (steady_add_transaction date site description amount_text) Hq1)
    as (Ef & Es & _).
  rewrite Ef, Es.
  pose proof (calm_any_header_cell (sheet w1) (console w1) date site
                description amount_text amount k Hs Hd Ha Hj) as H.
  cbv zeta in H. destruct H as (F & I & Hamt & K).
  pose proof (add_transaction_sheet (sheet w1) (console w1) date site
                description amount_text amount k Hs Hd Ha Hj) as H.
  cbv zeta in H. destruct H as (E & V).
  split; [now rewrite F, Hsite |].
  exists k. eexists. split; [exact Hk |]. split; [| split; [exact I |]].
  - rewrite E. cbn [snd].
    destruct (column_sums _ _) as [sums |]; unfold calm; cbn [sheet].
    + rewrite header_of_values_get,
        values_get_append by apply summary_cells_trim.
      rewrite V. exact Hnk.
    + rewrite header_of_values_get, V. exact Hnk.
  - now rewrite trim_row_nth.
Qed.

End SiteThenTransaction.

(* ===================================================================== *)
(** * What the page shows *)
(* ===================================================================== *)

Lemma yields_ret {A} (a : A) (P : A -> Prop) : P a -> yields (ret a) P.
Proof. intros H w b w' [= <- _]. exact H. Qed.

Lemma yields_bind {A B} (m : M A) (k : A -> M B) (P : B -> Prop) :
  (forall a, yields (k a) P) -> yields (bind m k) P.
Proof.
  intros H w b w' E. unfold bind in E.
  destruct (m w) as [[a | e] w1]; [exact (H a w1 b w' E) | discriminate E].
Qed.

Lemma yields_try {A} (m : M A) (h : exn -> M A) (P : A -> Prop) :
  yields m P -> (forall e, yields (h e) P) -> yields (try_except m h) P.
Proof.
  intros Hm Hh w b w' E. unfold try_except in E.
  destruct (m w) as [[a | e] w1] eqn:Em.
  - injection E as <- _. exact (Hm w a w1 Em).
  - exact (Hh e w1 b w' E).
Qed.

Lemma quiet_next (w : world) : quiet w -> next_call_succeeds w.
Proof.
  unfold quiet, next_call_succeeds. intros H msg fs E.
  rewrite E in H. inversion H as [| ? ? Hf _]. discriminate Hf.
Qed.

Lemma In_slice_2_m1 {A} (x : A) (l : list A) : In x (slice_2_m1 l) -> In x l.
Proof.
  unfold slice_2_m1. intros H.
  rewrite <- (firstn_skipn (length l - 1) l). apply in_or_app. left.
  rewrite <- (firstn_skipn 2 (firstn (length l - 1) l)).
  apply in_or_app. now right.
Qed.

Section PageFacts.

Context {N : PyFloat} {T : PyFloatText N}.

Lemma add_transaction_messages (date site description amount_text : string) :
  yields (add_transaction date site description amount_text)
    (transaction_message date site description).
Proof.
  unfold add_transaction, transaction_message.
  destruct (_ || _); [apply yields_ret; tauto |].
  destruct (Strptime.strptime_ymd _); [| apply yields_ret; tauto].
  destruct (float _) as [x |]; [| apply yields_ret; tauto].
  apply yields_try.
  - apply yields_bind. intros header.
    destruct (negb _); [apply yields_ret; tauto |].
    repeat (apply yields_bind; intros ?).
    apply yields_ret. left. now exists x.
  - intros e. apply yields_ret. do 5 right. now exists e.
Qed.

Lemma add_site_answers (new_site : string) :
  yields (add_site new_site) site_answer.
Proof.
  unfold add_site, site_answer.
  destruct (String.eqb _ ""); [apply yields_ret; tauto |].
  apply yields_bind. intros header.
  destruct (PyStr.mem _ header).
  - apply yields_ret. right. left. eauto.
  - apply yields_try.
    + repeat (apply yields_bind; intros ?).
      apply yields_ret. right. right. left. eauto.
    + intros [| | msg]; apply yields_ret.
      * tauto.
      * do 4 right. eauto.
      * do 4 right. eauto.
Qed.

(** X19.  What a click on [Add Site] puts on the page.  Either the read
    of the header fails and the error leaves the block, or exactly one
    message is shown: a site that was added and a site that exists
    already are both shown with [st.success] and followed by
    [st.rerun]; a blank name is shown with [st.warning]; the two
    failures are shown with [st.info].  [st.error] is never called. *)
Theorem add_site_click_notifications (w : world) (new_site_input : string) :
  (exists msg fs,
     faults w = Some msg :: fs
     /\ PyStr.strip new_site_input <> ""
     /\ add_site_clicked new_site_input w
        = (Raise (APIError msg), scheduled (sheet w) fs (console w)))
  \/ exists calls w',
       add_site_clicked new_site_input w = (Ret calls, w')
       /\ (calls = [st_success Site_already_exists; st_rerun]
           \/ (exists name, calls = [st_success (Site_added name); st_rerun])
           \/ calls = [st_warning Enter_a_site_name_first]
           \/ calls = [st_info Closing_Balance_column_not_found]
           \/ exists e, calls = [st_info (Failed_to_add_site e)]).
Proof.
  unfold add_site_clicked, bind.
  destruct (add_site new_site_input w) as [[r | e] w1] eqn:E.
  - right. pose proof (add_site_answers new_site_input w r w1 E) as H.
    destruct H as [-> | [(s & ->) | [(n & s & ->) | [-> | (e & ->)]]]];
      eexists; eexists; (split; [reflexivity |]).
    + tauto.
    + tauto.
    + right. left. now exists n.
    + tauto.
    + do 4 right. now exists e.
  - left. unfold add_site in E.
    destruct (String.eqb_spec (PyStr.strip new_site_input) "") as [| Hne];
      [discriminate E |].
    unfold bind at 1, SHEET.row_values at 1 in E.
    destruct (remote_cases (Sheet.row_values 1) (fun g => g) w)
      as [(msg & fs & Hf & R) | R]; rewrite R in E.
    + injection E as <- <-. now exists msg, fs.
    + exfalso. destruct (PyStr.mem _ _); [discriminate E |].
      match type of E with
      | try_except ?m ?h ?w0 = _ =>
          destruct (try_except_returns m h w0) as (a & w2 & E2)
      end.
      * intros [| | m] w2; unfold ret; eauto.
      * rewrite E2 in E. discriminate E.
Qed.

(** X20.  A name that is already in the header is announced as a
    success: the page calls [st.success] with [Site already exists] and
    then [st.rerun], and the warning branch of line 184 is not
    reached. *)
Theorem add_site_click_duplicate_is_success (w : world)
    (new_site_input : string) :
  next_call_succeeds w ->
  PyStr.strip new_site_input <> "" ->
  In (PyStr.strip new_site_input) (header_of (sheet w)) ->
  add_site_clicked new_site_input w
  = (Ret [st_success Site_already_exists; st_rerun],
     scheduled (sheet w) (tl (faults w)) (console w)).
Proof.
  intros Hok Hne Hin. unfold add_site_clicked, add_site.
  apply String.eqb_neq in Hne. rewrite Hne.
  unfold bind at 1. unfold bind at 1. unfold SHEET.row_values at 1.
  rewrite (remote_ok _ _ w Hok). fold (header_of (sheet w)).
  apply mem_In in Hin. rewrite Hin. reflexivity.
Qed.

(** X21.  A click on [Add Transaction] never raises and shows exactly
    one message: [st.success] for a transaction that was added,
    [st.warning] for each of the four refusals, [st.error] for a
    failure of the sheet. *)
Theorem add_txn_click_notifications (w : world) (t : txn_type)
    (date_input site_input desc_input amount_input : string) :
  exists call w',
    add_txn_clicked t date_input site_input desc_input amount_input w
    = (Ret [call], w')
    /\ ((exists x, call = st_success
                            (Transaction_added (PyStr.strip date_input)
                               (PyStr.strip site_input)
                               (PyStr.strip desc_input) x))
        \/ call = st_warning Please_select_a_valid_site
        \/ call = st_warning Invalid_date_format
        \/ call = st_warning Amount_must_be_a_number
        \/ call = st_warning Site_column_missing
        \/ exists e, call = st_error (Failed_to_add_transaction e)).
Proof.
  unfold add_txn_clicked. unfold bind at 1.
  destruct (add_transaction_never_raises w date_input site_input desc_input
              (signed_amount t amount_input)) as (m & w1 & E).
  rewrite E.
  destruct (add_transaction_messages _ _ _ _ w m w1 E)
    as [(x & ->) | [-> | [-> | [-> | [-> | (e & ->)]]]]];
    eexists; eexists; (split; [reflexivity |]).
  - left. now exists x.
  - tauto.
  - tauto.
  - tauto.
  - tauto.
  - do 5 right. now exists e.
Qed.

Context {L : PyFloatLaws N}.

(** X22.  A payment is recorded with [-abs] of the amount typed: when
    the amount reads as the number [x], and the text [str] makes of
    [-abs(x)] reads back as that number, a valid payment on a header
    cell is announced with [st.success] and its row holds [-abs(x)] in
    the column of the site. *)
Theorem payment_recorded_negative (w : world)
    (date_input site_input desc_input amount_input : string)
    (x : num) (j : nat) :
  quiet w ->
  site_selected site_input = true ->
  date_parses date_input = true ->
  PyStr.strip amount_input <> "" ->
  float amount_input = Some x ->
  float (PyStr.strip (str (neg_abs x))) = Some (neg_abs x) ->
  PyStr.index (PyStr.strip site_input) (header_of (sheet w)) = Some j ->
  let out := add_txn_clicked Payment date_input site_input desc_input
               amount_input w in
  fst out = Ret [st_success
                   (Transaction_added (PyStr.strip date_input)
                      (PyStr.strip site_input) (PyStr.strip desc_input)
                      (neg_abs x))]
  /\ exists r,
       In r (Sheet.values_get (sheet (snd out)))
       /\ nth j r "" = cell_of_num (neg_abs x).
Proof.
  intros Hq Hs Hd Hne Hx Hback Hj. cbv zeta.
  unfold add_txn_clicked, signed_amount.
  apply String.eqb_neq in Hne. rewrite Hne, Hx. cbv [negb].
  destruct (quiet_as_calm _ w
              (steady_add_transaction date_input site_input desc_input
                 (str (neg_abs x))) Hq) as (Ef & Es & _).
  pose proof (calm_any_header_cell (sheet w) (console w) date_input
                site_input desc_input (str (neg_abs x)) (neg_abs x) j
                Hs Hd Hback Hj) as H.
  cbv zeta in H. destruct H as (F & I & Hamt & _).
  rewrite <- Ef in F. rewrite <- Es in I.
  unfold bind.
  destruct (add_transaction date_input site_input desc_input
              (str (neg_abs x)) w) as [[m | e] w1];
    cbn [fst snd] in F, I; [| discriminate F].
  injection F as ->. cbn [fst snd].
  split; [reflexivity |].
  eexists. split; [exact I |]. now rewrite trim_row_nth.
Qed.

(** X23.  Every site the page offers is a cell of the header, when the
    sheet has one: the options are [Select Site] and then cells of the
    header, and under a header of fewer than four cells, such as the
    default one, [Select Site] is the only option. *)
Theorem site_options_are_header_cells (w : world) :
  next_call_succeeds w ->
  header_of (sheet w) <> [] ->
  exists sites,
    site_options w
    = (Ret ("Select Site" :: sites),
       scheduled (sheet w) (tl (faults w)) (console w))
    /\ (forall s, In s sites -> In s (header_of (sheet w)))
    /\ (length (header_of (sheet w)) < 4 -> sites = []).
Proof.
  intros Hok Hh. unfold site_options.
  unfold bind at 1, SHEET.row_values at 1.
  rewrite (remote_ok _ _ w Hok). fold (header_of (sheet w)).
  destruct (header_of (sheet w)) as [| c h] eqn:E; [now destruct Hh |].
  eexists. split; [reflexivity |]. split.
  - intros s. destruct (4 <=? length (c :: h)); [| intros []].
    apply In_slice_2_m1.
  - intros Hlt. apply Nat.leb_gt in Hlt. now rewrite Hlt.
Qed.

(** X24.  On a sheet without a header the page still offers [Site A]
    and [Site B], but the sheet has no such column: whatever site, date
    and amount are sent next, [add_transaction] refuses and the sheet
    stays as it was. *)
Theorem site_options_fallback_is_refused (w : world)
    (date site description amount_text : string) :
  quiet w ->
  header_of (sheet w) = [] ->
  let w1 := snd (site_options w) in
  let out := add_transaction date site description amount_text w1 in
  fst (site_options w) = Ret ["Select Site"; "Site A"; "Site B"]
  /\ sheet (snd out) = sheet w
  /\ (fst out = Ret Please_select_a_valid_site
      \/ fst out = Ret Invalid_date_format
      \/ fst out = Ret Amount_must_be_a_number
      \/ fst out = Ret Site_column_missing).
Proof.
  intros Hq Hh.
  assert (E : site_options w
              = (Ret ["Select Site"; "Site A"; "Site B"],
                 scheduled (sheet w) (tl (faults w)) (console w))).
  { unfold site_options, bind, SHEET.row_values.
    rewrite (remote_ok _ _ w (quiet_next w Hq)).
    fold (header_of (sheet w)). now rewrite Hh. }
  cbv zeta. rewrite E. cbn [fst snd].
  split; [reflexivity |].
  assert (Hq1 : quiet (scheduled (sheet w) (tl (faults w)) (console w))).
  { apply (quiet_tl (sheet w) (sheet w) (faults w) (console w) (console w)).
    destruct w. exact Hq. }
  set (w1 := scheduled (sheet w) (tl (faults w)) (console w)) in *.
  assert (A : exists m w2,
            add_transaction date site description amount_text w1
            = (Ret m, w2)
            /\ sheet w2 = sheet w
            /\ (m = Please_select_a_valid_site \/ m = Invalid_date_format
                \/ m = Amount_must_be_a_number \/ m = Site_column_missing)).
  { unfold add_transaction.
    destruct (_ || _);
      [eexists; eexists; split; [reflexivity |];
       split; [reflexivity | tauto] |].
    destruct (Strptime.strptime_ymd _);
      [| eexists; eexists; split; [reflexivity |];
         split; [reflexivity | tauto]].
    destruct (float _);
      [| eexists; eexists; split; [reflexivity |];
         split; [reflexivity | tauto]].
    unfold try_except, bind at 1, SHEET.row_values at 1.
    rewrite (remote_ok _ _ w1 (quiet_next w1 Hq1)).
    change (Sheet.row_values 1 (sheet w1)) with (header_of (sheet w)).
    rewrite Hh. cbn [PyStr.mem existsb negb]. unfold ret.
    eexists; eexists; split; [reflexivity |].
    split; [reflexivity | tauto]. }
  destruct A as (m & w2 & A & S & C). rewrite A. cbn [fst snd].
  split; [exact S |].
  destruct C as [-> | [-> | [-> | ->]]]; tauto.
Qed.

End PageFacts.

(* ===================================================================== *)
(** * The further properties at work on the example sheets *)
(* ===================================================================== *)

Lemma calm_next (g : grid) (c : list log_line) :
  next_call_succeeds (calm g c).
Proof. intros msg fs H. discriminate H. Qed.

Lemma ensure_header_trusts_header_witness :
  fst (ensure_header (calm sheet_after_first [])) = Ret tt
  /\ sheet (snd (ensure_header (calm sheet_after_first [])))
     = sheet_after_first
  /\ console (snd (ensure_header (calm sheet_after_first []))) = [].
Proof.
  apply (ensure_header_trusts_header (calm sheet_after_first []) "Date").
  - apply calm_quiet.
  - vm_compute. tauto.
  - vm_compute. discriminate.
Defined.

(** A first row of blanks over a row of data: the header is written and
    the row under it stays. *)
Lemma ensure_header_writes_default_witness :
  let w := calm [[" "; ""]; ["2024-01-01"; "rent"]] [] in
  firstn 3 (header_of (sheet (snd (ensure_header w)))) = default_header
  /\ stored_rows (sheet (snd (ensure_header w))) = [["2024-01-01"; "rent"]]
  /\ console (snd (ensure_header w)) = [].
Proof.
  apply (ensure_header_writes_default
           (calm [[" "; ""]; ["2024-01-01"; "rent"]] [])).
  - apply calm_quiet.
  - intros cell H. vm_compute in H. destruct H as [<- | []]. reflexivity.
Defined.

Lemma ensure_header_idempotent_witness :
  sheet (snd ((ensure_header ;;; ensure_header) (calm [] [])))
  = sheet (snd (ensure_header (calm [] [])))
  /\ console (snd ((ensure_header ;;; ensure_header) (calm [] [])))
     = console (snd (ensure_header (calm [] []))).
Proof.
  apply (ensure_header_idempotent (calm [] [])). apply calm_quiet.
Defined.

Lemma add_site_returns_after_header_read_witness :
  exists r w',
    add_site (N := ZFloat) "Cafe" (calm [default_header] []) = (Ret r, w').
Proof.
  apply (add_site_returns_after_header_read (N := ZFloat)
           (calm [default_header] []) "Cafe").
  right. apply calm_next.
Defined.

(** A header without [Closing Balance]. *)
Lemma add_site_needs_closing_balance_witness :
  add_site (N := ZFloat) "Cafe" (calm [["Date"; "Description"]] [])
  = (Ret (Closing_Balance_column_not_found, None),
     calm [["Date"; "Description"]] []).
Proof.
  apply (add_site_needs_closing_balance (N := ZFloat)
           (calm [["Date"; "Description"]] []) "Cafe").
  - apply calm_next.
  - vm_compute. discriminate.
  - vm_compute. intros [H | [H | []]]; discriminate H.
  - vm_compute. intros [H | [H | []]]; discriminate H.
Defined.

Lemma add_site_twice_is_duplicate_witness :
  let o1 := add_site (N := ZFloat) "Cafe" (calm [default_header] []) in
  let o2 := add_site (N := ZFloat) "Cafe" (snd o1) in
  exists sites,
    fst o1 = Ret (Site_added "Cafe", Some sites)
    /\ fst o2 = Ret (Site_already_exists, Some sites)
    /\ sheet (snd o2) = sheet (snd o1)
    /\ console (snd o2) = [].
Proof.
  apply (add_site_twice_is_duplicate (N := ZFloat)
           (calm [default_header] []) "Cafe").
  - apply calm_quiet.
  - vm_compute. discriminate.
  - vm_compute. intros [H | [H | [H | []]]]; discriminate H.
  - vm_compute. tauto.
Defined.

(** A third site beside [SiteA] and [SiteB]. *)
Lemma add_site_appends_to_site_list_witness :
  fst (add_site (N := ZFloat) "SiteC" (calm sheet_after_first []))
  = Ret (Site_added "SiteC", Some ["SiteA"; "SiteB"; "SiteC"]).
Proof.
  apply (add_site_appends_to_site_list (N := ZFloat)
           (calm sheet_after_first []) "SiteC"
           ["Date"; "Description"; "SiteA"; "SiteB"]).
  - apply calm_quiet.
  - vm_compute. discriminate.
  - vm_compute. intros [H | [H | [H | [H | [H | []]]]]]; discriminate H.
  - reflexivity.
  - intros [H | [H | [H | [H | []]]]]; discriminate H.
  - simpl. lia.
Defined.

Lemma sheet_after_first_no_blank_rows : no_blank_rows sheet_after_first.
Proof.
  intros r H. vm_compute in H. destruct H as [<- | [<- | []]]; discriminate.
Qed.

Lemma update_total_row_idempotent_witness :
  let w := calm sheet_after_first [] in
  Sheet.values_get
    (sheet (snd ((update_total_row (N := ZFloat) ;;; update_total_row) w)))
  = Sheet.values_get (sheet (snd (update_total_row (N := ZFloat) w)))
  /\ console (snd ((update_total_row (N := ZFloat) ;;; update_total_row) w))
     = [].
Proof.
  apply (update_total_row_idempotent (N := ZFloat)
           (calm sheet_after_first [])).
  - apply calm_quiet.
  - vm_compute. discriminate.
  - exact sheet_after_first_no_blank_rows.
  - exact sheet_after_first_numeric.
Defined.

(** The summary row of the example sheet is gone when the append fails. *)
Lemma update_total_row_loses_total_on_failed_append_witness :
  update_total_row (N := ZFloat)
    (scheduled sheet_after_first [None; None; None; Some "quota"] [])
  = (Ret tt,
     scheduled
       [two_site_header; ["2024-01-01"; "rent"; "100"; ""; ""; "100"]]
       [] [Error_updating_TOTAL_row (APIError "quota")]).
Proof.
  apply (update_total_row_loses_total_on_failed_append (N := ZFloat)
           sheet_after_first "quota" [] []).
  - reflexivity.
  - exact sheet_after_first_numeric.
Defined.

Lemma update_total_row_on_empty_sheet_witness :
  let w := calm [] [] in
  Sheet.values_get (sheet (snd (update_total_row (N := ZFloat) w)))
  = [["TOTAL"; ""; "0"]]
  /\ nth 0 (header_of (sheet (snd (update_total_row (N := ZFloat) w)))) ""
     = "TOTAL"
  /\ console (snd (update_total_row (N := ZFloat) w)) = [].
Proof.
  apply (update_total_row_on_empty_sheet (N := ZFloat) (calm [] [])).
  - apply calm_quiet.
  - reflexivity.
Defined.


Lemma add_transaction_unknown_site_witness :
  add_transaction (N := ZFloat) "2024-01-02" "SiteZ" "food" "5"
    (calm sheet_after_first [])
  = (Ret Site_column_missing, calm sheet_after_first []).
Proof.
  apply (add_transaction_unknown_site (N := ZFloat)
           (calm sheet_after_first []) "2024-01-02" "SiteZ" "food" "5").
  - apply calm_next.
  - reflexivity.
  - reflexivity.
  - vm_compute. discriminate.
  - vm_compute. intros [H | [H | [H | [H | [H | []]]]]]; discriminate H.
Defined.

Lemma add_transaction_reports_unreachable_sheet_witness :
  add_transaction (N := ZFloat) "2024-01-02" "SiteB" "food" "-20"
    (scheduled sheet_after_first [Some "503"] [])
  = (Ret (Failed_to_add_transaction (APIError "503")),
     scheduled sheet_after_first [] []).
Proof.
  apply (add_transaction_reports_unreachable_sheet (N := ZFloat)
           sheet_after_first "503" [] [] "2024-01-02" "SiteB" "food" "-20").
  - reflexivity.
  - reflexivity.
  - vm_compute. discriminate.
Defined.

(** The first transaction under the header of two sites, the summary
    row failing. *)
Lemma add_transaction_succeeds_without_total_witness :
  add_transaction (N := ZFloat) "2024-01-02" "SiteB" "food" "-20"
    (scheduled [two_site_header] [None; None; None; Some "quota"] [])
  = (Ret (Transaction_added "2024-01-02" "SiteB" "food" (-20)%Z),
     scheduled
       [two_site_header; ["2024-01-02"; "food"; ""; "-20"; ""; "-20"]]
       [] [Error_updating_TOTAL_row (APIError "quota")]).
Proof.
  apply (add_transaction_succeeds_without_total (N := ZFloat)
           [two_site_header] "quota" [] []
           "2024-01-02" "SiteB" "food" "-20" (-20)%Z 3).
  - reflexivity.
  - reflexivity.
  - reflexivity.
  - reflexivity.
  - reflexivity.
Defined.


(** The row of the second transaction of the example: six cells under a
    header of five, the balance in the sixth. *)
Lemma add_transaction_balance_past_header_witness :
  let cells := ["2024-01-02"; "food"; ""; "-20"; ""; "280"] in
  In cells
     (Sheet.values_get
        (sheet (snd (add_transaction (N := ZFloat) "2024-01-02" "SiteB"
                       "food" "-20" (calm sheet_after_first [])))))
  /\ length cells = 5 + 1
  /\ nth 5 cells "" = "280"
  /\ (3 <> 5 - 1 -> nth (5 - 1) cells "" = "").
Proof.
  apply (add_transaction_balance_past_header (N := ZFloat)
           (calm sheet_after_first [])
           "2024-01-02" "SiteB" "food" "-20" (-20)%Z 3).
  - apply calm_quiet.
  - reflexivity.
  - reflexivity.
  - reflexivity.
  - reflexivity.
  - simpl. lia.
Defined.

Lemma add_transaction_on_added_site_witness :
  let w1 := snd (add_site (N := ZFloat) " Cafe "
                   (calm [default_header] [])) in
  let out := add_transaction (N := ZFloat) "2024-01-01" "Cafe" "rent" "100"
               w1 in
  fst out = Ret (Transaction_added "2024-01-01" "Cafe" "rent" 100%Z)
  /\ exists k r,
       PyStr.index "Closing Balance" (header_of [default_header]) = Some k
       /\ nth k (header_of (sheet (snd out))) "" = "Cafe"
       /\ In r (Sheet.values_get (sheet (snd out)))
       /\ nth k r "" = "100".
Proof.
  apply (add_transaction_on_added_site (N := ZFloat)
           (calm [default_header] [])
           " Cafe " "2024-01-01" "Cafe" "rent" "100" 100%Z).
  - apply calm_quiet.
  - vm_compute. discriminate.
  - vm_compute. discriminate.
  - vm_compute. intros [H | [H | [H | []]]]; discriminate H.
  - vm_compute. tauto.
  - reflexivity.
  - reflexivity.
  - reflexivity.
Defined.

Lemma add_site_click_duplicate_is_success_witness :
  add_site_clicked (N := ZFloat) "SiteA" (calm sheet_after_first [])
  = (Ret [st_success Site_already_exists; st_rerun],
     calm sheet_after_first []).
Proof.
  apply (add_site_click_duplicate_is_success (N := ZFloat)
           (calm sheet_after_first []) "SiteA").
  - apply calm_next.
  - vm_compute. discriminate.
  - vm_compute. tauto.
Defined.

(** A payment typed as [50] goes in as [-50]. *)
Lemma payment_recorded_negative_witness :
  let out := add_txn_clicked (N := ZFloat) (T := ZFloatText) Payment
               "2024-01-03" "SiteA" "fee" "50"
               (calm sheet_after_first []) in
  fst out
  = Ret [st_success (Transaction_added "2024-01-03" "SiteA" "fee" (-50)%Z)]
  /\ exists r,
       In r (Sheet.values_get (sheet (snd out))) /\ nth 2 r "" = "-50".
Proof.
  apply (payment_recorded_negative (N := ZFloat) (T := ZFloatText)
           (calm sheet_after_first [])
           "2024-01-03" "SiteA" "fee" "50" 50%Z 2).
  - apply calm_quiet.
  - reflexivity.
  - reflexivity.
  - vm_compute. discriminate.
  - reflexivity.
  - reflexivity.
  - reflexivity.
Defined.

Lemma site_options_are_header_cells_witness :
  exists sites,
    site_options (calm sheet_after_first [])
    = (Ret ("Select Site" :: sites), calm sheet_after_first [])
    /\ (forall s, In s sites -> In s two_site_header)
    /\ (5 < 4 -> sites = []).
Proof.
  apply (site_options_are_header_cells (calm sheet_after_first [])).
  - apply calm_next.
  - vm_compute. discriminate.
Defined.

Lemma site_options_fallback_is_refused_witness :
  let w1 := snd (site_options (calm [] [])) in
  let out := add_transaction (N := ZFloat) "2024-01-01" "Site A" "rent" "100"
               w1 in
  fst (site_options (calm [] [])) = Ret ["Select Site"; "Site A"; "Site B"]
  /\ sheet (snd out) = []
  /\ (fst out = Ret Please_select_a_valid_site
      \/ fst out = Ret Invalid_date_format
      \/ fst out = Ret Amount_must_be_a_number
      \/ fst out = Ret Site_column_missing).
Proof.
  apply (site_options_fallback_is_refused (N := ZFloat) (calm [] [])
           "2024-01-01" "Site A" "rent" "100").
  - apply calm_quiet.
  - reflexivity.
Defined.
